(** * simpleKcpFileManager: a shallow embedding of the transfer core

    Part I holds the embedding, one module per source unit:
    - [Int64]     Go's int64 arithmetic (two's complement wrap-around);
    - [Chunks]    the chunk plan of kcpclient/client.go
                  (uploadFileParallel, downloadFileParallel);
    - [GoPath]    what the code uses of Go's strings, path and path/filepath;
    - [OS]        the calls that leave the process ([os], HTTP) and the
                  monad that threads the world and the trace of calls;
    - [Server]    the handlers of server/handlers and the router of
                  server/main.go;
    - [Client]    the transfer engine of kcpclient/client.go;
    - [Tasks]     the task manager of the client;
    - [Crypto], [CryptoDefaultKey]
                  the two versions of common/kcp.go;
    - [Loopback]  a file system and a network that joins client and server,
                  to run the embedding in;
    - [PathForm]  vocabulary for request paths;
    - [DragDrop]  the filter of dropped paths of the client window;
    - [ClientApi] the file operations of kcpclient/client.go (delete, mkdir,
                  rename, copy, read, save, extract);
    - [Archive]   the extractors of common/compression.go and
                  server/compress (tar, tar.gz, zip);
    - [TaskLife]  vocabulary for the life of a task.
    Part II holds the properties.

    Integers of type int64 are values of [Z] kept in range by [Int64.wrap];
    byte strings are [list byte]; Go strings are [string]. *)

From Stdlib Require Import ZArith Lia List Bool Ascii String.
From stdpp Require Import base numbers list strings pretty gmap.

Local Open Scope Z_scope.

(* ===================================================================== *)
(** * Part I: the embedding *)
(* ===================================================================== *)

(* ===================================================================== *)
(** ** Go int64 arithmetic *)
(* ===================================================================== *)

Module Int64.

Definition min_int : Z := - 2 ^ 63.
Definition max_int : Z := 2 ^ 63 - 1.

(** Reduction of a mathematical integer to its int64 representative. *)
Definition wrap (z : Z) : Z := (z + 2 ^ 63) mod 2 ^ 64 - 2 ^ 63.

Definition in_range (z : Z) : Prop := min_int <= z <= max_int.

Definition add (a b : Z) : Z := wrap (a + b).
Definition sub (a b : Z) : Z := wrap (a - b).
Definition mul (a b : Z) : Z := wrap (a * b).
(** Go's [/] on integers truncates toward zero. *)
Definition quot (a b : Z) : Z := wrap (Z.quot a b).

End Int64.

(* ===================================================================== *)
(** ** Chunk plan (kcpclient/client.go) *)
(* ===================================================================== *)

Module Chunks.

(** [defaultChunkSize = 4 * 1024 * 1024] *)
Definition defaultChunkSize : Z := 4 * 1024 * 1024.

(** [const numWorkers = 8] in uploadFileParallel and
    [const maxWorkers = 8] in downloadFileParallel. *)
Definition numWorkers : Z := 8.
Definition maxWorkers : Z := 8.

(** A transient chunk: index and byte range [start, end). *)
Record Chunk := mkChunk { index : Z; start : Z; end_ : Z }.

(** [chunkSize := (fileSize + int64(workers) - 1) / int64(workers)]
    followed by the clamp to [defaultChunkSize]. *)
Definition chunkSizeFor (workers fileSize : Z) : Z :=
  let chunkSize :=
    Int64.quot (Int64.sub (Int64.add fileSize workers) 1) workers in
  if chunkSize <? defaultChunkSize then defaultChunkSize else chunkSize.

(** [numChunks := (fileSize + chunkSize - 1) / chunkSize] *)
Definition numChunksFor (fileSize chunkSize : Z) : Z :=
  Int64.quot (Int64.sub (Int64.add fileSize chunkSize) 1) chunkSize.

(** The body of a worker: the range of chunk [chunkIndex]. *)
Definition chunkRange (fileSize chunkSize chunkIndex : Z) : Chunk :=
  let start := Int64.mul chunkIndex chunkSize in
  let end_ := Int64.add start chunkSize in
  let end_ := if end_ >? fileSize then fileSize else end_ in
  mkChunk chunkIndex start end_.

(** [for i := int64(0); i < numChunks; i++ { go worker(i) }]: one chunk per
    index, listed by index. *)
Definition planFor (workers fileSize : Z) : list Chunk :=
  let chunkSize := chunkSizeFor workers fileSize in
  let numChunks := numChunksFor fileSize chunkSize in
  map (chunkRange fileSize chunkSize) (seqZ 0 numChunks).

Definition uploadChunks (fileSize : Z) : list Chunk :=
  planFor numWorkers fileSize.

Definition downloadChunks (fileSize : Z) : list Chunk :=
  planFor maxWorkers fileSize.

(** *** Specification vocabulary *)

(** Mathematical ceiling of [a / b]. *)
Definition ceil_div (a b : Z) : Z := - ((- a) / b).

(** [chain a l b]: the ranges of [l], in list order, are non-empty, start
    at [a], each one starts where the previous one ends, and the last one
    ends at [b]. *)
Fixpoint chain (a : Z) (l : list Chunk) (b : Z) : Prop :=
  match l with
  | [] => a = b
  | c :: l' => start c = a /\ start c < end_ c /\ chain (end_ c) l' b
  end.

(** The plan as the specification writes it: for [i] from [k] on, [n]
    chunks, chunk [i] being [i*cs, min((i+1)*cs, sz)). *)
Definition spec_plan (sz cs : Z) (k n : Z) : list Chunk :=
  map (fun i => mkChunk i (i * cs) (Z.min ((i + 1) * cs) sz)) (seqZ k n).

(** The no-overflow window of the int64 computation. *)
Definition fits (fileSize : Z) : Prop :=
  fileSize + Z.max (ceil_div fileSize 8) defaultChunkSize - 1
    <= Int64.max_int.

End Chunks.

(* ===================================================================== *)
(** ** Go standard library: strings, path, path/filepath (Unix) *)
(* ===================================================================== *)

(** The handlers call into [strings], [path] and [path/filepath].  These
    functions are written here after the documentation and sources of the Go
    standard library, for a Unix target: [filepath.Separator] is ['/'],
    [filepath.FromSlash] and [filepath.ToSlash] are the identity and there are
    no volume names. *)
Module GoPath.

Local Open Scope string_scope.

Definition HasPrefix (s prefix : string) : bool := String.prefix prefix s.

Definition HasSuffix (s suffix : string) : bool :=
  String.prefix (String.rev suffix) (String.rev s).

Definition TrimPrefix (s prefix : string) : string :=
  if HasPrefix s prefix
  then String.substring (String.length prefix)
                        (String.length s - String.length prefix) s
  else s.

Fixpoint Contains (s substr : string) : bool :=
  String.prefix substr s ||
  match s with
  | EmptyString => false
  | String _ s' => Contains s' substr
  end.

(** [strings.Split(s, sep)] for a one-byte separator. *)
Fixpoint Split (sep : ascii) (s : string) : list string :=
  match s with
  | EmptyString => [EmptyString]
  | String c s' =>
      let r := Split sep s' in
      if Ascii.eqb c sep then EmptyString :: r
      else match r with
           | x :: xs => String c x :: xs
           | [] => [String c EmptyString]
           end
  end.

(** [strings.Join(elems, sep)] *)
Definition Join (elems : list string) (sep : string) : string :=
  String.concat sep elems.

(** [strings.TrimSpace] on UTF-8 text.  The white space of
    [unicode.IsSpace]: the ASCII characters 9 to 13 and 32, and U+0085,
    U+00A0, U+1680, U+2000 to U+200A, U+2028, U+2029, U+202F, U+205F and
    U+3000, which are two or three bytes long. *)
Definition isSpace (c : ascii) : bool :=
  let n := nat_of_ascii c in
  Nat.eqb n 32 || (Nat.leb 9 n && Nat.leb n 13).

(** The bytes [x y] are U+0085 or U+00A0. *)
Definition isSpace2 (x y : ascii) : bool :=
  Nat.eqb (nat_of_ascii x) 194
  && (Nat.eqb (nat_of_ascii y) 133 || Nat.eqb (nat_of_ascii y) 160).

(** The bytes [x y z] are one of the white-space characters from U+1680
    on. *)
Definition isSpace3 (x y z : ascii) : bool :=
  let a := nat_of_ascii x in
  let b := nat_of_ascii y in
  let c := nat_of_ascii z in
  (Nat.eqb a 225 && Nat.eqb b 154 && Nat.eqb c 128)
  || (Nat.eqb a 226 && Nat.eqb b 128
      && ((Nat.leb 128 c && Nat.leb c 138)
          || Nat.eqb c 168 || Nat.eqb c 169 || Nat.eqb c 175))
  || (Nat.eqb a 226 && Nat.eqb b 129 && Nat.eqb c 159)
  || (Nat.eqb a 227 && Nat.eqb b 128 && Nat.eqb c 128).

(** What follows the white-space character [s] starts with; [None] when it
    starts with none. *)
Definition leadingSpace (s : string) : option string :=
  match s with
  | String x r1 =>
      if isSpace x then Some r1
      else match r1 with
           | String y r2 =>
               if isSpace2 x y then Some r2
               else match r2 with
                    | String z r3 =>
                        if isSpace3 x y z then Some r3 else None
                    | EmptyString => None
                    end
           | EmptyString => None
           end
  | EmptyString => None
  end.

(** The same on the reversed text: what precedes the white-space character
    the text ends with. *)
Definition trailingSpace (reversed : string) : option string :=
  match reversed with
  | String z r1 =>
      if isSpace z then Some r1
      else match r1 with
           | String y r2 =>
               if isSpace2 y z then Some r2
               else match r2 with
                    | String x r3 =>
                        if isSpace3 x y z then Some r3 else None
                    | EmptyString => None
                    end
           | EmptyString => None
           end
  | EmptyString => None
  end.

(** Take white-space characters off, at most [n] of them. *)
Fixpoint trimWith (strip : string -> option string) (n : nat) (s : string)
  : string :=
  match n with
  | O => s
  | S n' =>
      match strip s with
      | Some rest => trimWith strip n' rest
      | None => s
      end
  end.

Definition trimLeft (s : string) : string :=
  trimWith leadingSpace (String.length s) s.

Definition trimRight (s : string) : string :=
  String.rev (trimWith trailingSpace (String.length s) (String.rev s)).

Definition TrimSpace (s : string) : string := trimRight (trimLeft s).

(** [strings.ToLower] as far as a comparison with ASCII text can tell: the
    letters whose lower case is an ASCII letter are A to Z, U+0130 (lower
    case [i]) and U+212A (lower case [k]); every other character is left as
    it is. *)
Definition lowerAscii (c : ascii) : ascii :=
  let n := nat_of_ascii c in
  if Nat.leb 65 n && Nat.leb n 90 then ascii_of_nat (n + 32) else c.

Fixpoint ToLower (s : string) : string :=
  match s with
  | String x r1 =>
      match r1 with
      | String y r2 =>
          if Nat.eqb (nat_of_ascii x) 196 && Nat.eqb (nat_of_ascii y) 176
          then String "i" (ToLower r2)
          else
            match r2 with
            | String z r3 =>
                if Nat.eqb (nat_of_ascii x) 226
                   && Nat.eqb (nat_of_ascii y) 132
                   && Nat.eqb (nat_of_ascii z) 170
                then String "k" (ToLower r3)
                else String (lowerAscii x) (ToLower r1)
            | EmptyString => String (lowerAscii x) (ToLower r1)
            end
      | EmptyString => String (lowerAscii x) EmptyString
      end
  | EmptyString => EmptyString
  end.

Definition Separator : string := "/".

Definition FromSlash (p : string) : string := p.
Definition ToSlash (p : string) : string := p.

Definition IsAbs (p : string) : bool := HasPrefix p "/".

(** One element of the path read by [Clean]; [out] is the stack of the
    elements kept so far, last one first.  An empty element and ["."] are
    dropped; [".."] removes the last kept element when there is one that is
    not itself [".."], is dropped at the root of a rooted path, and is kept
    otherwise. *)
Definition cleanElem (rooted : bool) (out : list string) (elem : string)
  : list string :=
  if String.eqb elem "" || String.eqb elem "." then out
  else if String.eqb elem ".."
  then match out with
       | top :: rest =>
           if String.eqb top ".." then ".." :: out else rest
       | [] => if rooted then [] else [".."]
       end
  else elem :: out.

(** [path.Clean]: the shortest path equivalent to [p] by lexical
    processing. *)
Definition Clean (p : string) : string :=
  if String.eqb p "" then "."
  else
    let rooted := IsAbs p in
    let out := fold_left (cleanElem rooted) (Split "/" p) [] in
    let body := Join (rev out) "/" in
    if rooted then "/" ++ body
    else if String.eqb body "" then "." else body.

(** [filepath.Join]: the elements from the first non-empty one on, joined
    by the separator and cleaned; [""] when every element is empty. *)
Fixpoint filepath_Join (elem : list string) : string :=
  match elem with
  | [] => ""
  | e :: rest =>
      if String.eqb e "" then filepath_Join rest
      else Clean (Join elem Separator)
  end.

(** [filepath.Abs]; [wd] is the result of [os.Getwd], [None] when it fails. *)
Definition Abs (wd : option string) (p : string) : option string :=
  if IsAbs p then Some (Clean p)
  else match wd with
       | Some d => Some (filepath_Join [d; p])
       | None => None
       end.

(** The part of [p] up to and including its last separator. *)
Definition dirPart (p : string) : string :=
  String.concat "" (map (fun e => e ++ "/") (removelast (Split "/" p))).

(** The last element of [p]: what follows its last separator. *)
Definition lastElem (p : string) : string := List.last (Split "/" p) "".

(** [filepath.Dir] *)
Definition Dir (p : string) : string := Clean (dirPart p).

(** Removal of trailing separators, as [filepath.Base] starts with. *)
Fixpoint stripTrailingSlashes_rev (r : string) : string :=
  match r with
  | String c r' => if Ascii.eqb c "/" then stripTrailingSlashes_rev r' else r
  | EmptyString => EmptyString
  end.

Definition stripTrailingSlashes (p : string) : string :=
  String.rev (stripTrailingSlashes_rev (String.rev p)).

(** [filepath.Base] *)
Definition Base (p : string) : string :=
  if String.eqb p "" then "."
  else
    let q := lastElem (stripTrailingSlashes p) in
    if String.eqb q "" then Separator else q.

(** [filepath.Ext]: the suffix of the last element from its last dot on. *)
Definition Ext (p : string) : string :=
  match rev (Split "." (lastElem p)) with
  | e :: _ :: _ => "." ++ e
  | _ => ""
  end.

(** The elements of a cleaned path. *)
Definition elements (p : string) : list string :=
  filter (fun e => e <> "") (Split "/" p).

(** An element: a string without separator. *)
Definition plain (e : string) : Prop := Split "/" e = [e].

(** What [Clean] keeps of a rooted path: plain elements, none of them
    empty, ["."] or [".."]. *)
Definition kept (e : string) : Prop :=
  plain e /\ e <> "" /\ e <> "." /\ e <> "..".

(** The path functions are unfolded on demand only. *)
#[global] Arguments Clean : simpl never.
#[global] Arguments filepath_Join : simpl never.
#[global] Arguments Abs : simpl never.
#[global] Arguments Dir : simpl never.
#[global] Arguments Base : simpl never.
#[global] Arguments Ext : simpl never.
#[global] Arguments HasPrefix : simpl never.
#[global] Arguments HasSuffix : simpl never.

End GoPath.

(* ===================================================================== *)
(** ** Operating system and network interface *)
(* ===================================================================== *)

(** Client and server reach the outside world through [os] calls on files
    and through HTTP requests carried by the KCP/smux session.  Each such
    call is an [effect]; the world that answers it is a parameter [env] of
    the embedding, and every call made is appended to a trace. *)
Module OS.

Local Open Scope string_scope.

Abbreviation byte := Byte.byte.

(** [os.OpenFile] flags (Linux values), combined with [Z.lor]. *)
Definition O_RDONLY : Z := 0.
Definition O_WRONLY : Z := 1.
Definition O_RDWR : Z := 2.
Definition O_CREATE : Z := 64.
Definition O_TRUNC : Z := 512.

Definition has_flag (flag f : Z) : bool := Z.eqb (Z.land flag f) f.

(** [os.FileInfo] *)
Record FileInfo := mkFileInfo {
  Name : string;
  Size : Z;
  IsDir : bool;
  Mode : Z;
  ModTime : Z
}.

Definition noInfo : FileInfo := mkFileInfo "" 0 false 0 0.

(** Errors of the [os] package, as far as the code tells them apart. *)
Inductive OsError :=
| ErrNotExist
| ErrPermission
| ErrOther (msg : string).

Definition IsNotExist (e : OsError) : bool :=
  match e with ErrNotExist => true | _ => false end.

Definition ErrorString (e : OsError) : string :=
  match e with
  | ErrNotExist => "no such file or directory"
  | ErrPermission => "permission denied"
  | ErrOther msg => msg
  end.

(** HTTP headers the code reads or writes, in parsed form.  [Range] is
    [bytes=a-b] or [bytes=a-]; [ContentRange] is [bytes start-end/total], and
    is [None] both when the header is absent and when [fmt.Sscanf] cannot read
    it with ["bytes %d-%d/%d"]. *)
Record Header := mkHeader {
  Range : option (Z * option Z);
  ContentRange : option (Z * Z * Z);
  XAutoExtract : string;
  ContentType : string
}.

Definition noHeader : Header := mkHeader None None "" "".

(** [http.Request], with the URL in parsed form: [URLPath] is [r.URL.Path]
    and [Query] is [r.URL.Query()]. *)
Record Request := mkRequest {
  Method : string;
  URLPath : string;
  Query : list (string * string);
  ReqHeader : Header;
  Body : list byte;
  ContentLength : Z
}.

(** [r.URL.Query().Get(key)]: the first value of [key], [""] when absent. *)
Fixpoint QueryGet (q : list (string * string)) (key : string) : string :=
  match q with
  | [] => ""
  | (k, v) :: q' => if String.eqb k key then v else QueryGet q' key
  end.

(** [http.Response] *)
Record Response := mkResponse {
  StatusCode : Z;
  RespContentLength : Z;
  RespBody : list byte
}.

Definition StatusOK : Z := 200.
Definition StatusCreated : Z := 201.
Definition StatusPartialContent : Z := 206.
Definition StatusMovedPermanently : Z := 301.
Definition StatusBadRequest : Z := 400.
Definition StatusForbidden : Z := 403.
Definition StatusNotFound : Z := 404.
Definition StatusMethodNotAllowed : Z := 405.
Definition StatusRequestedRangeNotSatisfiable : Z := 416.
Definition StatusInternalServerError : Z := 500.

Definition bytes (s : string) : list byte := list_byte_of_string s.

(** [w.WriteHeader(code); w.Write(body)] *)
Definition respond (code : Z) (body : list byte) : Response :=
  mkResponse code (Z.of_nat (length body)) body.

(** [http.Error(w, msg, code)] *)
Definition httpError (msg : string) (code : Z) : Response :=
  respond code (bytes (msg ++ String "010" "")).

(** The calls that leave the process. *)
Inductive effect :=
| Stat (name : string)
| MkdirAll (path : string) (perm : Z)
| OpenFile (name : string) (flag : Z) (perm : Z)
| Seek (fd : nat) (offset : Z)
| Write (fd : nat) (data : list byte)
| ReadAll (fd : nat)
| ReadN (fd : nat) (n : Z)
| Sync (fd : nat)
| Fstat (fd : nat)
| Close (fd : nat)
| Remove (name : string)
| RemoveAll (path : string)
| Rename (oldpath newpath : string)
| Chmod (name : string) (mode : Z)
| ReadDir (name : string)
| WalkDir (root : string)
| ReadFile (name : string)
| WriteFile (name : string) (data : list byte) (perm : Z)
| CreateArchive (format : string) (output : string) (sources : list string)
| ExtractArchive (format : string) (archive dest : string)
| CompressToTarGz (srcPath dstPath : string)
| DecompressFromTarGz (srcPath dstPath : string)
| UnixNano
| HttpDo (req : Request).

(** What a call returns; a call fills the fields that apply to it. *)
Record outcome := mkOutcome {
  err : option OsError;
  fd : nat;
  info : FileInfo;
  data : list byte;
  entries : list (string * FileInfo);
  resp : Response;
  nano : Z
}.

Definition ok : outcome :=
  mkOutcome None 0 noInfo [] [] (mkResponse 0 0 []) 0.

Definition failed (e : OsError) : outcome :=
  mkOutcome (Some e) 0 noInfo [] [] (mkResponse 0 0 []) 0.

(** The paths a call names. *)
Definition paths_of (e : effect) : list string :=
  match e with
  | Stat p | MkdirAll p _ | OpenFile p _ _ | Remove p | RemoveAll p
  | Chmod p _ | ReadDir p | WalkDir p | ReadFile p | WriteFile p _ _ => [p]
  | Rename p q | ExtractArchive _ p q | CompressToTarGz p q
  | DecompressFromTarGz p q => [p; q]
  | CreateArchive _ out srcs => out :: srcs
  | Seek _ _ | Write _ _ | ReadAll _ | ReadN _ _ | Sync _ | Fstat _
  | Close _ | UnixNano | HttpDo _ => []
  end.

Section Monad.
Context {W : Type}.

(** A computation threads the world and the trace of the calls made. *)
Definition IO (A : Type) : Type := W * list effect -> A * (W * list effect).

Definition ret {A} (a : A) : IO A := fun s => (a, s).

Definition bind {A B} (m : IO A) (k : A -> IO B) : IO B :=
  fun s => let (a, s') := m s in k a s'.

Variable env : effect -> W -> outcome * W.

(** Perform one call: the world answers and moves on, the trace grows. *)
Definition call (e : effect) : IO outcome :=
  fun s =>
    let (o, w') := env e (fst s) in
    (o, (w', (snd s ++ [e])%list)).

(** Run a computation from a world with an empty trace. *)
Definition run {A} (m : IO A) (w : W) : A * (W * list effect) := m (w, []).

End Monad.

(** A world without files or peers: every call succeeds and returns
    nothing.  It serves to run the embedding on examples. *)
Definition idle : effect -> unit -> outcome * unit := fun _ w => (ok, w).

End OS.

Notation "'let*' x ':=' c1 'in' c2" := (OS.bind c1 (fun x => c2))
  (at level 10, x pattern, c1 at level 100, c2 at level 200).

(* ===================================================================== *)
(** ** Server: file handler (server/handlers/file_handler.go) *)
(* ===================================================================== *)

Module Server.
Import OS.

Local Open Scope string_scope.

(** [ListItem]: a file or directory in a listing. *)
Record ListItem := mkListItem {
  li_Name : string;
  li_Path : string;
  li_Size : Z;
  li_ModTime : Z;
  li_IsDir : bool;
  li_Mode : Z
}.

(** [FileStatInfo]: the answer of the stat action. *)
Record FileStatInfo := mkFileStatInfo {
  fs_Name : string;
  fs_Path : string;
  fs_Size : Z;
  fs_ModTime : Z;
  fs_IsDir : bool;
  fs_Mode : Z;
  fs_ModeNum : Z
}.

(** [FileHandler]; the hash cache is never read and is left out. *)
Record FileHandler := mkFileHandler { rootDir : string }.

Definition NewFileHandler (rootDir : string) : FileHandler :=
  mkFileHandler rootDir.

(** [cleanRelPath] *)
Definition cleanRelPath (rel : string) : string :=
  if String.eqb rel "" then ""
  else
    let clean := GoPath.Clean ("/" ++ rel) in
    let clean := GoPath.TrimPrefix clean "/" in
    if GoPath.HasPrefix clean ".." || GoPath.Contains clean "/../"
    then "" else clean.

(** [isPathSafe], shared by the handler method and by the function of the
    same name in server/main.go ([root] is [h.rootDir] there).  [wd] is the
    working directory of the server process as [os.Getwd] reports it. *)
Definition isPathSafeIn (wd : option string) (root requestPath : string)
  : string * bool :=
  let cleanPath := GoPath.Clean ("/" ++ requestPath) in
  let fullPath := GoPath.filepath_Join [root; GoPath.FromSlash cleanPath] in
  match GoPath.Abs wd root with
  | None => ("", false)
  | Some absRoot =>
      match GoPath.Abs wd fullPath with
      | None => ("", false)
      | Some absPath =>
          if negb (GoPath.HasPrefix absPath (absRoot ++ GoPath.Separator))
             && negb (String.eqb absPath absRoot)
          then ("", false)
          else (fullPath, true)
      end
  end.

Definition isPathSafe (wd : option string) (h : FileHandler)
    (requestPath : string) : string * bool :=
  isPathSafeIn wd (rootDir h) requestPath.

(** [strconv.ParseUint(s, 8, 32)]: a non-empty string of octal digits whose
    value fits 32 bits. *)
Definition octalDigit (c : ascii) : option Z :=
  let n := Z.of_nat (nat_of_ascii c) in
  if (48 <=? n)%Z && (n <=? 55)%Z then Some (n - 48)%Z else None.

Fixpoint parseOctalFrom (acc : Z) (s : string) : option Z :=
  match s with
  | EmptyString => Some acc
  | String c s' =>
      match octalDigit c with
      | Some d => parseOctalFrom (acc * 8 + d)%Z s'
      | None => None
      end
  end.

Definition ParseUint8_32 (s : string) : option Z :=
  if String.eqb s "" then None
  else match parseOctalFrom 0 s with
       | Some v => if (v <? 2 ^ 32)%Z then Some v else None
       | None => None
       end.

(** [filepath.Rel(base, target)] for a target at or below [base], the only
    use the listing makes of it. *)
Definition relTo (base target : string) : string :=
  if String.eqb target base then "."
  else GoPath.TrimPrefix target (base ++ GoPath.Separator).

Section FileHandler.
Context {W : Type}.
Variable env : effect -> W -> outcome * W.
Variable wd : option string.
(** [json.NewEncoder(w).Encode] on the two answer types. *)
Variable encodeItems : list ListItem -> list byte.
Variable encodeStat : FileStatInfo -> list byte.

(** [ListFiles]: the items, or the error. *)
Definition ListFiles (h : FileHandler) (rel : string) (recursive : bool)
  : IO (W := W) (list ListItem * option OsError) :=
  let rel := cleanRelPath rel in
  match isPathSafe wd h rel with
  | (_, false) => ret ([], Some ErrPermission)
  | (target, true) =>
      if recursive then
        let* o := call env (WalkDir target) in
        let items :=
          map (fun '(p, i) =>
                 mkListItem (Name i)
                   ("/" ++ GoPath.ToSlash (relTo (rootDir h) p))
                   (Size i) (ModTime i) (IsDir i) (Mode i))
              (filter (fun '(p, _) => negb (String.eqb p target))
                      (entries o)) in
        ret (items, err o)
      else
        let* o := call env (ReadDir target) in
        match err o with
        | Some e => ret ([], Some e)
        | None =>
            ret (map (fun '(n, i) =>
                        mkListItem n
                          ("/" ++ GoPath.filepath_Join [rel; n])
                          (Size i) (ModTime i) (IsDir i) (Mode i))
                     (entries o), None)
        end
  end.

(** [HandleList] *)
Definition HandleList (h : FileHandler) (r : Request) : IO (W := W) Response :=
  let rel := QueryGet (Query r) "path" in
  let recursive := String.eqb (QueryGet (Query r) "recursive") "1" in
  let* res := ListFiles h rel recursive in
  match res with
  | (_, Some _) =>
      ret (httpError "Cannot list files" StatusInternalServerError)
  | (files, None) => ret (respond StatusOK (encodeItems files))
  end.

(** [HandleDelete] *)
Definition HandleDelete (h : FileHandler) (r : Request)
  : IO (W := W) Response :=
  if negb (String.eqb (Method r) "DELETE")
  then ret (httpError "Method not allowed" StatusMethodNotAllowed)
  else
    let filePath := QueryGet (Query r) "path" in
    match isPathSafe wd h filePath with
    | (_, false) => ret (httpError "Invalid path" StatusBadRequest)
    | (cleanPath, true) =>
        let* st := call env (Stat cleanPath) in
        match err st with
        | Some e =>
            if IsNotExist e
            then ret (httpError "File not found" StatusNotFound)
            else ret (httpError (ErrorString e) StatusInternalServerError)
        | None =>
            let* d := (if IsDir (info st)
                       then call env (RemoveAll cleanPath)
                       else call env (Remove cleanPath)) in
            match err d with
            | Some e =>
                ret (httpError ("Failed to delete: " ++ ErrorString e)
                       StatusInternalServerError)
            | None => ret (respond StatusOK (bytes "OK"))
            end
        end
    end.

(** [HandleMkdir] *)
Definition HandleMkdir (h : FileHandler) (r : Request)
  : IO (W := W) Response :=
  if negb (String.eqb (Method r) "POST")
  then ret (httpError "Method not allowed" StatusMethodNotAllowed)
  else
    let dirPath := QueryGet (Query r) "path" in
    match isPathSafe wd h dirPath with
    | (_, false) => ret (httpError "Invalid path" StatusBadRequest)
    | (cleanPath, true) =>
        let* o := call env (MkdirAll cleanPath 493) in
        match err o with
        | Some e =>
            ret (httpError ("Failed to create directory: " ++ ErrorString e)
                   StatusInternalServerError)
        | None => ret (respond StatusCreated (bytes "OK"))
        end
    end.

(** [HandleRename] *)
Definition HandleRename (h : FileHandler) (r : Request)
  : IO (W := W) Response :=
  if negb (String.eqb (Method r) "POST")
  then ret (httpError "Method not allowed" StatusMethodNotAllowed)
  else
    let oldPath := QueryGet (Query r) "old" in
    let newPath := QueryGet (Query r) "new" in
    if String.eqb oldPath "" || String.eqb newPath ""
    then ret (httpError "Missing old or new path" StatusBadRequest)
    else
      match isPathSafe wd h oldPath with
      | (_, false) => ret (httpError "Invalid old path" StatusBadRequest)
      | (cleanOldPath, true) =>
          match isPathSafe wd h newPath with
          | (_, false) => ret (httpError "Invalid new path" StatusBadRequest)
          | (cleanNewPath, true) =>
              let* st := call env (Stat cleanOldPath) in
              match err st with
              | Some e =>
                  if IsNotExist e
                  then ret (httpError "Source not found" StatusNotFound)
                  else ret (httpError (ErrorString e)
                              StatusInternalServerError)
              | None =>
                  let* o := call env (Rename cleanOldPath cleanNewPath) in
                  match err o with
                  | Some e =>
                      ret (httpError ("Failed to rename: " ++ ErrorString e)
                             StatusInternalServerError)
                  | None => ret (respond StatusOK (bytes "OK"))
                  end
              end
          end
      end.

(** [HandleStat] *)
Definition HandleStat (h : FileHandler) (r : Request)
  : IO (W := W) Response :=
  if negb (String.eqb (Method r) "GET")
  then ret (httpError "Method not allowed" StatusMethodNotAllowed)
  else
    let filePath := QueryGet (Query r) "path" in
    if String.eqb filePath ""
    then ret (httpError "Missing path parameter" StatusBadRequest)
    else
      match isPathSafe wd h filePath with
      | (_, false) => ret (httpError "Invalid path" StatusBadRequest)
      | (cleanPath, true) =>
          let* st := call env (Stat cleanPath) in
          match err st with
          | Some e =>
              if IsNotExist e
              then ret (httpError "File not found" StatusNotFound)
              else ret (httpError (ErrorString e) StatusInternalServerError)
          | None =>
              let i := info st in
              ret (respond StatusOK
                     (encodeStat
                        (mkFileStatInfo (Name i) filePath (Size i) (ModTime i)
                           (IsDir i) (Mode i) (Z.land (Mode i) 511))))
          end
      end.

(** [HandleChmod]; the body of the answer is cut after its first line. *)
Definition HandleChmod (h : FileHandler) (r : Request)
  : IO (W := W) Response :=
  if negb (String.eqb (Method r) "POST")
  then ret (httpError "Method not allowed" StatusMethodNotAllowed)
  else
    let filePath := QueryGet (Query r) "path" in
    let modeStr := QueryGet (Query r) "mode" in
    if String.eqb filePath "" || String.eqb modeStr ""
    then ret (httpError "Missing path or mode parameter" StatusBadRequest)
    else
      match isPathSafe wd h filePath with
      | (_, false) => ret (httpError "Invalid path" StatusBadRequest)
      | (cleanPath, true) =>
          match ParseUint8_32 modeStr with
          | None =>
              ret (httpError "Invalid mode format (use octal like 755)"
                     StatusBadRequest)
          | Some mode =>
              let* st := call env (Stat cleanPath) in
              match err st with
              | Some e =>
                  if IsNotExist e
                  then ret (httpError "File not found" StatusNotFound)
                  else ret (httpError (ErrorString e)
                              StatusInternalServerError)
              | None =>
                  let* o := call env (Chmod cleanPath mode) in
                  match err o with
                  | Some e =>
                      ret (httpError
                             ("Failed to change permissions: "
                                ++ ErrorString e)
                             StatusInternalServerError)
                  | None => ret (respond StatusOK (bytes "OK"))
                  end
              end
          end
      end.

End FileHandler.

(* --------------------------------------------------------------------- *)
(** *** Upload handler (server/handlers/upload_handler.go) *)
(* --------------------------------------------------------------------- *)

(** [UploadHandler]; [fileLocks] maps a path to its mutex, here to whether
    that mutex is held. *)
Record UploadHandler := mkUploadHandler {
  up_fileHandler : FileHandler;
  up_fileLocks : gmap string bool
}.

Definition NewUploadHandler (rootDir : string) : UploadHandler :=
  mkUploadHandler (NewFileHandler rootDir) ∅.

(** [getLock]: [LoadOrStore] of a fresh mutex under [path]; the mutex found
    and the handler afterwards. *)
Definition getLock (h : UploadHandler) (path : string)
  : bool * UploadHandler :=
  match up_fileLocks h !! path with
  | Some held => (held, h)
  | None =>
      (false,
       mkUploadHandler (up_fileHandler h) (<[path := false]> (up_fileLocks h)))
  end.

(** [startOffset]: the start of the [Content-Range] header when it is
    present and readable, 0 otherwise. *)
Definition startOffsetOf (r : Request) : Z :=
  match ContentRange (ReqHeader r) with
  | Some (start, _, _) => start
  | None => 0%Z
  end.

(** The calls [HandleUpload] makes once the file is synced. *)
Definition afterSync (e : effect) : bool :=
  match e with
  | Close _ | DecompressFromTarGz _ _ | Remove _ => true
  | _ => false
  end.

Section UploadHandler.
Context {W : Type}.
Variable env : effect -> W -> outcome * W.
Variable wd : option string.

(** The goroutine that removes the archive after extraction:
    up to [n] attempts, stopping at the first success or when the file is
    already gone.  The waits between attempts are not modelled. *)
Fixpoint removeArchive (n : nat) (archivePath : string) : IO (W := W) unit :=
  match n with
  | O => ret tt
  | S n' =>
      let* o := call env (Remove archivePath) in
      match err o with
      | Some e => if IsNotExist e then ret tt else removeArchive n' archivePath
      | None => ret tt
      end
  end.

(** [defer file.Close()]: close, then answer. *)
Definition closing (fd : nat) (resp : Response) : IO (W := W) Response :=
  let* _ := call env (Close fd) in ret resp.

(** [HandleUpload].  The body of the request is copied to the file by one
    [Write] at the handle's current offset; the body of the answer is cut
    after its first line. *)
Definition HandleUpload (h : UploadHandler) (r : Request)
  : IO (W := W) Response :=
  if negb (String.eqb (Method r) "PUT")
  then ret (httpError "Method not allowed" StatusMethodNotAllowed)
  else
    let filePath := QueryGet (Query r) "path" in
    if String.eqb filePath ""
    then ret (httpError "Missing path parameter" StatusBadRequest)
    else
      let autoExtract := String.eqb (XAutoExtract (ReqHeader r)) "1" in
      match isPathSafe wd (up_fileHandler h) filePath with
      | (_, false) => ret (httpError "Invalid path" StatusBadRequest)
      | (cleanPath, true) =>
          let dir := GoPath.Dir cleanPath in
          let* m := call env (MkdirAll dir 493) in
          match err m with
          | Some e =>
              ret (httpError ("Failed to create directory: " ++ ErrorString e)
                     StatusInternalServerError)
          | None =>
              let startOffset := startOffsetOf r in
              let* f :=
                (if (startOffset >? 0)%Z
                 then call env (OpenFile cleanPath
                                  (Z.lor O_CREATE O_RDWR) 420)
                 else call env (OpenFile cleanPath
                                  (Z.lor (Z.lor O_CREATE O_WRONLY) O_TRUNC)
                                  420)) in
              match err f with
              | Some e =>
                  ret (httpError ("Failed to open file: " ++ ErrorString e)
                         StatusInternalServerError)
              | None =>
                  let file := fd f in
                  let* sk :=
                    (if (startOffset >? 0)%Z
                     then call env (Seek file startOffset)
                     else ret ok) in
                  match err sk with
                  | Some e =>
                      closing file
                        (httpError ("Failed to seek file: " ++ ErrorString e)
                           StatusInternalServerError)
                  | None =>
                  let* wr := call env (Write file (Body r)) in
                  match err wr with
                  | Some e =>
                      closing file
                        (httpError ("Failed to write file: " ++ ErrorString e)
                           StatusInternalServerError)
                  | None =>
                  let* sy := call env (Sync file) in
                  match err sy with
                  | Some e =>
                      closing file
                        (httpError ("Failed to sync file: " ++ ErrorString e)
                           StatusInternalServerError)
                  | None =>
                  let* st := call env (Fstat file) in
                  match err st with
                  | Some e =>
                      closing file
                        (httpError ("Failed to stat file: " ++ ErrorString e)
                           StatusInternalServerError)
                  | None =>
                      if autoExtract && GoPath.HasSuffix cleanPath ".tar.gz"
                      then
                        let* _ := call env (Close file) in
                        let extractPath := GoPath.Dir cleanPath in
                        let* x := call env (DecompressFromTarGz cleanPath
                                              extractPath) in
                        match err x with
                        | Some e =>
                            closing file
                              (httpError
                                 ("Failed to extract archive: "
                                    ++ ErrorString e)
                                 StatusInternalServerError)
                        | None =>
                            let* _ := removeArchive 5 cleanPath in
                            closing file (respond StatusOK (bytes "OK"))
                        end
                      else closing file (respond StatusOK (bytes "OK"))
                  end end end end
              end
          end
      end.

End UploadHandler.

(* --------------------------------------------------------------------- *)
(** *** Compress handler (server/handlers/compress_handler.go) *)
(* --------------------------------------------------------------------- *)

Record CompressHandler := mkCompressHandler { co_fileHandler : FileHandler }.

Definition NewCompressHandler (rootDir : string) : CompressHandler :=
  mkCompressHandler (NewFileHandler rootDir).

(** The loop over the source paths of a compress request: blank and unsafe
    entries are skipped. *)
Fixpoint validSources (wd : option string) (h : FileHandler)
    (sourcePaths : list string) : list string :=
  match sourcePaths with
  | [] => []
  | p :: rest =>
      let p := GoPath.TrimSpace p in
      if String.eqb p "" then validSources wd h rest
      else match isPathSafe wd h p with
           | (_, false) => validSources wd h rest
           | (cleanPath, true) => cleanPath :: validSources wd h rest
           end
  end.

Section CompressHandler.
Context {W : Type}.
Variable env : effect -> W -> outcome * W.
Variable wd : option string.

(** [HandleCompress]; the archive writers of server/compress are single
    calls [CreateArchive]. *)
Definition HandleCompress (h : CompressHandler) (r : Request)
  : IO (W := W) Response :=
  if negb (String.eqb (Method r) "POST")
  then ret (httpError "Method not allowed" StatusMethodNotAllowed)
  else
    let paths := QueryGet (Query r) "paths" in
    let outputPath := QueryGet (Query r) "output" in
    let format := QueryGet (Query r) "format" in
    if String.eqb paths "" || String.eqb outputPath ""
    then ret (httpError "Missing paths or output parameter" StatusBadRequest)
    else
      let format := if String.eqb format "" then "zip" else format in
      match isPathSafe wd (co_fileHandler h) outputPath with
      | (_, false) => ret (httpError "Invalid output path" StatusBadRequest)
      | (cleanOutputPath, true) =>
          let validPaths :=
            validSources wd (co_fileHandler h) (GoPath.Split "," paths) in
          match validPaths with
          | [] => ret (httpError "No valid source paths" StatusBadRequest)
          | _ :: _ =>
              let* m := call env (MkdirAll (GoPath.Dir cleanOutputPath) 493) in
              match err m with
              | Some e =>
                  ret (httpError
                         ("Failed to create output directory: "
                            ++ ErrorString e)
                         StatusInternalServerError)
              | None =>
                  let finish (o : outcome) : Response :=
                    match err o with
                    | Some e =>
                        httpError ("Compression failed: " ++ ErrorString e)
                          StatusInternalServerError
                    | None => respond StatusOK (bytes "OK")
                    end in
                  if String.eqb format "zip" then
                    let* o := call env (CreateArchive "zip" cleanOutputPath
                                          validPaths) in
                    ret (finish o)
                  else if String.eqb format "tar" then
                    let* o := call env (CreateArchive "tar" cleanOutputPath
                                          validPaths) in
                    ret (finish o)
                  else if String.eqb format "targz"
                          || String.eqb format "tar.gz" then
                    let* o := call env (CreateArchive "targz" cleanOutputPath
                                          validPaths) in
                    ret (finish o)
                  else if String.eqb format "gzip" then
                    match validPaths with
                    | [src] =>
                        let* o := call env (CreateArchive "gzip"
                                              cleanOutputPath [src]) in
                        ret (finish o)
                    | _ =>
                        ret (httpError "Gzip only supports single file"
                               StatusBadRequest)
                    end
                  else
                    ret (httpError ("Unsupported format: " ++ format)
                           StatusBadRequest)
              end
          end
      end.

(** [HandleExtract]; the archive readers are single calls
    [ExtractArchive]. *)
Definition HandleExtract (h : CompressHandler) (r : Request)
  : IO (W := W) Response :=
  if negb (String.eqb (Method r) "POST")
  then ret (httpError "Method not allowed" StatusMethodNotAllowed)
  else
    let archivePath := QueryGet (Query r) "path" in
    let destPath := QueryGet (Query r) "dest" in
    if String.eqb archivePath ""
    then ret (httpError "Missing path parameter" StatusBadRequest)
    else
      match isPathSafe wd (co_fileHandler h) archivePath with
      | (_, false) => ret (httpError "Invalid archive path" StatusBadRequest)
      | (cleanArchivePath, true) =>
          let destPath :=
            if String.eqb destPath ""
            then String.substring 0
                   (String.length archivePath
                    - String.length (GoPath.Ext archivePath)) archivePath
            else destPath in
          match isPathSafe wd (co_fileHandler h) destPath with
          | (_, false) =>
              ret (httpError "Invalid destination path" StatusBadRequest)
          | (cleanDestPath, true) =>
              let* m := call env (MkdirAll cleanDestPath 493) in
              match err m with
              | Some e =>
                  ret (httpError
                         ("Failed to create destination directory: "
                            ++ ErrorString e)
                         StatusInternalServerError)
              | None =>
                  let ext := GoPath.ToLower (GoPath.Ext cleanArchivePath) in
                  let finish (o : outcome) : Response :=
                    match err o with
                    | Some e =>
                        httpError ("Extraction failed: " ++ ErrorString e)
                          StatusInternalServerError
                    | None => respond StatusOK (bytes "OK")
                    end in
                  if String.eqb ext ".zip" then
                    let* o := call env (ExtractArchive "zip" cleanArchivePath
                                          cleanDestPath) in
                    ret (finish o)
                  else if String.eqb ext ".tar" || String.eqb ext ".gz"
                          || String.eqb ext ".tgz" then
                    let* o := call env (ExtractArchive "tar" cleanArchivePath
                                          cleanDestPath) in
                    ret (finish o)
                  else
                    ret (httpError ("Unsupported archive format: " ++ ext)
                           StatusBadRequest)
              end
          end
      end.

End CompressHandler.

(* --------------------------------------------------------------------- *)
(** *** Edit handler (server/handlers/edit_handler.go) *)
(* --------------------------------------------------------------------- *)

Record EditHandler := mkEditHandler { ed_fileHandler : FileHandler }.

Definition NewEditHandler (rootDir : string) : EditHandler :=
  mkEditHandler (NewFileHandler rootDir).

(** [const maxEditSize = 1 * 1024 * 1024] *)
Definition maxEditSize : Z := 1 * 1024 * 1024.

Section EditHandler.
Context {W : Type}.
Variable env : effect -> W -> outcome * W.
Variable wd : option string.

(** [HandleGetFile] *)
Definition HandleGetFile (h : EditHandler) (r : Request)
  : IO (W := W) Response :=
  if negb (String.eqb (Method r) "GET")
  then ret (httpError "Method not allowed" StatusMethodNotAllowed)
  else
    let filePath := QueryGet (Query r) "path" in
    if String.eqb filePath ""
    then ret (httpError "Missing path parameter" StatusBadRequest)
    else
      match isPathSafe wd (ed_fileHandler h) filePath with
      | (_, false) => ret (httpError "Invalid path" StatusBadRequest)
      | (cleanPath, true) =>
          let* st := call env (Stat cleanPath) in
          match err st with
          | Some e =>
              if IsNotExist e
              then ret (httpError "File not found" StatusNotFound)
              else ret (httpError (ErrorString e) StatusInternalServerError)
          | None =>
              if (Size (info st) >? maxEditSize)%Z
              then ret (httpError "File too large for editing (max 1MB)"
                          StatusBadRequest)
              else if IsDir (info st)
              then ret (httpError "Cannot edit directory" StatusBadRequest)
              else
                let* o := call env (ReadFile cleanPath) in
                match err o with
                | Some e =>
                    ret (httpError ("Failed to read file: " ++ ErrorString e)
                           StatusInternalServerError)
                | None => ret (respond StatusOK (data o))
                end
          end
      end.

(** [HandleSaveFile] *)
Definition HandleSaveFile (h : EditHandler) (r : Request)
  : IO (W := W) Response :=
  if negb (String.eqb (Method r) "PUT")
  then ret (httpError "Method not allowed" StatusMethodNotAllowed)
  else
    let filePath := QueryGet (Query r) "path" in
    if String.eqb filePath ""
    then ret (httpError "Missing path parameter" StatusBadRequest)
    else
      match isPathSafe wd (ed_fileHandler h) filePath with
      | (_, false) => ret (httpError "Invalid path" StatusBadRequest)
      | (cleanPath, true) =>
          if (ContentLength r >? maxEditSize)%Z
          then ret (httpError "Content too large (max 1MB)" StatusBadRequest)
          else
            let dir := GoPath.Dir cleanPath in
            let* m := call env (MkdirAll dir 493) in
            match err m with
            | Some e =>
                ret (httpError
                       ("Failed to create directory: " ++ ErrorString e)
                       StatusInternalServerError)
            | None =>
                let content := Body r in
                if (Z.of_nat (length content) >? maxEditSize)%Z
                then ret (httpError "Content too large (max 1MB)"
                            StatusBadRequest)
                else
                  let* o := call env (WriteFile cleanPath content 420) in
                  match err o with
                  | Some e =>
                      ret (httpError
                             ("Failed to write file: " ++ ErrorString e)
                             StatusInternalServerError)
                  | None => ret (respond StatusOK (bytes "OK"))
                  end
            end
      end.

End EditHandler.

(* --------------------------------------------------------------------- *)
(** *** Main handler (server/main.go) *)
(* --------------------------------------------------------------------- *)

Section MainHandler.
Context {W : Type}.
Variable env : effect -> W -> outcome * W.
Variable wd : option string.
Variable encodeItems : list ListItem -> list byte.
Variable encodeStat : FileStatInfo -> list byte.
(** [hex.EncodeToString(sha256.Sum(...))] of a byte string. *)
Variable sha256hex : list byte -> string.
(** [FileHandler.HandleCopy] is called by the router but is not part of the
    sources at hand. *)
Variable HandleCopy : FileHandler -> Request -> IO (W := W) Response.

(** [getFileChecksum]: the SHA-256 of the file, in hexadecimal. *)
Definition getFileChecksum (path : string)
  : IO (W := W) (string * option OsError) :=
  let* f := call env (OpenFile path O_RDONLY 0) in
  match err f with
  | Some e => ret ("", Some e)
  | None =>
      let* c := call env (ReadAll (fd f)) in
      let* _ := call env (Close (fd f)) in
      match err c with
      | Some e => ret ("", Some e)
      | None => ret (sha256hex (data c), None)
      end
  end.

(** [handleChecksum] *)
Definition handleChecksum (root : string) (r : Request)
  : IO (W := W) Response :=
  match isPathSafeIn wd root (URLPath r) with
  | (_, false) => ret (httpError "Invalid path" StatusBadRequest)
  | (filePath, true) =>
      let* res := getFileChecksum filePath in
      match res with
      | (_, Some _) =>
          ret (httpError "File not found or unreadable" StatusNotFound)
      | (sum, None) => ret (respond StatusOK (bytes sum))
      end
  end.

(** [toHTTPError] of net/http. *)
Definition toHTTPError (e : OsError) : Response :=
  match e with
  | ErrNotExist => httpError "404 page not found" StatusNotFound
  | ErrPermission => httpError "403 Forbidden" StatusForbidden
  | ErrOther _ =>
      httpError "500 Internal Server Error" StatusInternalServerError
  end.

(** [http.FileServer(http.Dir(root)).ServeHTTP], after the documentation of
    net/http: the URL path is cleaned and resolved below [root]; a regular
    file is answered in full (200) or, on a [Range] header, in part (206);
    a HEAD request gets the headers only.  Conditional requests and the
    rendering of directories (index.html, listing) are not modelled: a
    directory is answered by a redirect or an empty listing. *)
Definition FileServer (root : string) (r : Request) : IO (W := W) Response :=
  let upath := URLPath r in
  let upath := if GoPath.HasPrefix upath "/" then upath else "/" ++ upath in
  if GoPath.HasSuffix (URLPath r) "/index.html"
  then ret (respond StatusMovedPermanently [])
  else
    let name := GoPath.Clean upath in
    let dir := if String.eqb root "" then "." else root in
    let fullName :=
      GoPath.filepath_Join [dir; GoPath.FromSlash (GoPath.Clean ("/" ++ name))]
    in
    let* f := call env (OpenFile fullName O_RDONLY 0) in
    match err f with
    | Some e => ret (toHTTPError e)
    | None =>
        let* d := call env (Fstat (fd f)) in
        match err d with
        | Some e => closing env (fd f) (toHTTPError e)
        | None =>
            let slash := GoPath.HasSuffix (URLPath r) "/" in
            if IsDir (info d) then
              if slash then
                let* _ := call env (ReadDir fullName) in
                closing env (fd f) (respond StatusOK [])
              else closing env (fd f) (respond StatusMovedPermanently [])
            else if slash
            then closing env (fd f) (respond StatusMovedPermanently [])
            else
              let size := Size (info d) in
              let head := String.eqb (Method r) "HEAD" in
              match Range (ReqHeader r) with
              | None =>
                  if head
                  then closing env (fd f) (mkResponse StatusOK size [])
                  else
                    let* c := call env (ReadAll (fd f)) in
                    closing env (fd f) (mkResponse StatusOK size (data c))
              | Some (a, b) =>
                  let last := match b with
                              | Some b => Z.min b (size - 1)
                              | None => (size - 1)%Z
                              end in
                  let bad := match b with
                             | Some b => (b <? a)%Z
                             | None => false
                             end in
                  if (a <? 0)%Z || bad || (size <=? a)%Z
                  then closing env (fd f)
                         (httpError "invalid range"
                            StatusRequestedRangeNotSatisfiable)
                  else
                    let n := (last - a + 1)%Z in
                    if head
                    then closing env (fd f)
                           (mkResponse StatusPartialContent n [])
                    else
                      let* _ := call env (Seek (fd f) a) in
                      let* c := call env (ReadN (fd f) n) in
                      closing env (fd f)
                        (mkResponse StatusPartialContent n (data c))
              end
        end
    end.

(** [cleanPath] of net/http's ServeMux. *)
Definition muxCleanPath (p : string) : string :=
  if String.eqb p "" then "/"
  else
    let p := if GoPath.HasPrefix p "/" then p else "/" ++ p in
    let np := GoPath.Clean p in
    if GoPath.HasSuffix p "/" && negb (String.eqb np "/")
    then np ++ "/" else np.

(** [createMainHandler]: the route ["/"] of the mux.  The mux redirects a
    request whose path is not clean before the handler sees it. *)
Definition createMainHandler (rootDir : string)
    (fileHandler : FileHandler) (uploadHandler : UploadHandler)
    (compressHandler : CompressHandler) (editHandler : EditHandler)
    (r : Request) : IO (W := W) Response :=
  if negb (String.eqb (muxCleanPath (URLPath r)) (URLPath r))
  then ret (respond StatusMovedPermanently [])
  else
    let action := QueryGet (Query r) "action" in
    if String.eqb action "checksum" then handleChecksum rootDir r
    else if String.eqb action "list"
    then HandleList env wd encodeItems fileHandler r
    else if String.eqb action "delete" then HandleDelete env wd fileHandler r
    else if String.eqb action "mkdir" then HandleMkdir env wd fileHandler r
    else if String.eqb action "rename" then HandleRename env wd fileHandler r
    else if String.eqb action "copy" then HandleCopy fileHandler r
    else if String.eqb action "stat"
    then HandleStat env wd encodeStat fileHandler r
    else if String.eqb action "chmod" then HandleChmod env wd fileHandler r
    else if String.eqb action "compress"
    then HandleCompress env wd compressHandler r
    else if String.eqb action "extract"
    then HandleExtract env wd compressHandler r
    else if String.eqb action "edit" then
      if String.eqb (Method r) "GET" then HandleGetFile env wd editHandler r
      else if String.eqb (Method r) "PUT"
      then HandleSaveFile env wd editHandler r
      else ret (httpError "Method not allowed" StatusMethodNotAllowed)
    else if String.eqb action "upload"
    then HandleUpload env wd uploadHandler r
    else if String.eqb (Method r) "GET" || String.eqb (Method r) "HEAD"
    then FileServer rootDir r
    else if String.eqb (Method r) "PUT"
    then HandleUpload env wd uploadHandler r
    else ret (httpError "Method not allowed" StatusMethodNotAllowed).

End MainHandler.

(** *** Specification vocabulary: confinement to the root *)

(** [p] lies lexically at or below [root]: the test [isPathSafe] makes on
    absolute paths. *)
Definition within (wd : option string) (root p : string) : Prop :=
  exists absRoot absPath,
    GoPath.Abs wd root = Some absRoot /\
    GoPath.Abs wd p = Some absPath /\
    (GoPath.HasPrefix absPath (absRoot ++ GoPath.Separator) = true
     \/ absPath = absRoot).

(** A call is confined when every path it names lies within the root.  Two
    calls of the handlers name [filepath.Dir] of an accepted path instead:
    [os.MkdirAll] on the parent directory of the file to write, and the
    extraction of an uploaded archive into the directory that holds it.  For
    a path that is the root itself that directory is the parent of the root,
    which does not lie within it. *)
Definition confined (wd : option string) (root : string) (e : effect)
  : Prop :=
  Forall (within wd root) (paths_of e)
  \/ (exists q perm, within wd root q /\ e = MkdirAll (GoPath.Dir q) perm)
  \/ (exists q, within wd root q
                /\ e = DecompressFromTarGz q (GoPath.Dir q)).

(** [tr'] extends [tr] by calls that are confined. *)
Definition extends (wd : option string) (root : string)
    (tr tr' : list effect) : Prop :=
  exists l, tr' = (tr ++ l)%list /\ Forall (confined wd root) l.


End Server.

(* ===================================================================== *)
(** ** Client: chunked transfer engine (kcpclient/client.go) *)
(* ===================================================================== *)

Module Client.
Import OS.

Local Open Scope string_scope.

(** [Client].  The smux session is reduced to what [IsConnected] reads:
    whether a session exists and is open. *)
Record Client := mkClient {
  serverAddr : string;
  key : string;
  connected : bool
}.

Definition IsConnected (c : Client) : bool := connected c.

(** Go's [error]: [None] is [nil].  Error texts are cut down to their fixed
    part. *)
Definition error : Type := option string.

(** [PackTransferConfig] *)
Record PackTransferConfig := mkPackTransferConfig {
  Enabled : bool;
  ThresholdBytes : Z
}.

Definition DefaultPackTransferConfig : PackTransferConfig :=
  mkPackTransferConfig false (10 * 1024 * 1024).

(** The requests the client builds.  A URL of the form
    [http://addr?action=...&path=<escaped>] reaches the server with path ["/"]
    and the unescaped parameters; a URL of the form [http://addr<remotePath>]
    reaches it with [remotePath] as its path, which presumes a remote path
    that needs no escaping. *)
Definition actionRequest (method : string) (q : list (string * string))
    (h : Header) (body : list byte) : Request :=
  mkRequest method "/" q h body (Z.of_nat (length body)).

Definition fileRequest (method remotePath : string)
    (q : list (string * string)) (h : Header) : Request :=
  mkRequest method remotePath q h [] 0.

(** [fmt.Sprintf("%04d", i)] for [0 <= i]. *)
Definition pad4 (i : Z) : string :=
  let s := pretty (Z.to_N i) in
  String.concat "" (repeat "0" (4 - String.length s)) ++ s.

(** [fmt.Sprintf("%s/chunk_%04d.tmp", tempDir, chunkIndex)] *)
Definition chunkFileName (tempDir : string) (chunkIndex : Z) : string :=
  tempDir ++ "/chunk_" ++ pad4 chunkIndex ++ ".tmp".

(** The first error among the results of the workers, by chunk index. *)
Fixpoint firstError (results : list (Z * error)) : error :=
  match results with
  | [] => None
  | (_, Some e) :: _ => Some ("chunk failed: " ++ e)
  | (_, None) :: rest => firstError rest
  end.

Section Transfer.
Context {W : Type}.
Variable env : effect -> W -> outcome * W.
(** [hex.EncodeToString(sha256.Sum(...))] of a byte string. *)
Variable sha256hex : list byte -> string.

(** One worker per chunk; the workers are run one after the other, by
    index. *)
Fixpoint workers (work : Chunks.Chunk -> IO (W := W) error)
    (plan : list Chunks.Chunk) : IO (W := W) (list (Z * error)) :=
  match plan with
  | [] => ret []
  | c :: rest =>
      let* e := work c in
      let* es := workers work rest in
      ret ((Chunks.index c, e) :: es)
  end.

(** [defer file.Close()] around a result. *)
Definition closeThen {A} (fd : nat) (a : A) : IO (W := W) A :=
  let* _ := call env (Close fd) in ret a.

(** [uploadFileSingle] *)
Definition uploadFileSingle (c : Client) (localPath remotePath : string)
  : IO (W := W) error :=
  let* f := call env (OpenFile localPath O_RDONLY 0) in
  match err f with
  | Some e => ret (Some ("open file: " ++ ErrorString e))
  | None =>
      let file := fd f in
      let* st := call env (Fstat file) in
      match err st with
      | Some e => closeThen file (Some ("stat file: " ++ ErrorString e))
      | None =>
          let fileSize := Size (info st) in
          let* rd := call env (ReadAll file) in
          match err rd with
          | Some e => closeThen file (Some (ErrorString e))
          | None =>
              let req :=
                mkRequest "PUT" "/"
                  [("action", "upload"); ("path", remotePath)]
                  noHeader (data rd) fileSize in
              let* o := call env (HttpDo req) in
              match err o with
              | Some e => closeThen file (Some (ErrorString e))
              | None =>
                  if negb (Z.eqb (StatusCode (resp o)) StatusOK)
                  then closeThen file (Some "upload failed")
                  else closeThen file None
              end
          end
      end
  end.

(** [uploadChunk] *)
Definition uploadChunk (c : Client) (localPath remotePath : string)
    (start end_ fileSize chunkIndex : Z) : IO (W := W) error :=
  let* f := call env (OpenFile localPath O_RDONLY 0) in
  match err f with
  | Some e => ret (Some (ErrorString e))
  | None =>
      let file := fd f in
      let* sk := call env (Seek file start) in
      match err sk with
      | Some e => closeThen file (Some (ErrorString e))
      | None =>
          let* rd := call env (ReadN file (end_ - start)) in
          match err rd with
          | Some e => closeThen file (Some (ErrorString e))
          | None =>
              let req :=
                mkRequest "PUT" "/"
                  [("action", "upload"); ("path", remotePath)]
                  (mkHeader None (Some (start, end_ - 1, fileSize)%Z) "" "")
                  (data rd) (end_ - start) in
              let* o := call env (HttpDo req) in
              match err o with
              | Some e => closeThen file (Some (ErrorString e))
              | None =>
                  if negb (Z.eqb (StatusCode (resp o)) StatusOK)
                  then closeThen file (Some "chunk upload failed")
                  else closeThen file None
              end
          end
      end
  end.

(** [uploadFileParallel].  The workers run one after the other, by index.
    For a size so close to 2^63 that [fileSize + chunkSize - 1] wraps
    around, the chunk count of the code is negative and
    [make(chan chunkResult, numChunks)] panics; the plan of chunks is empty
    there and this definition answers [nil].  The theorems about it keep to
    the sizes below that window. *)
Definition uploadFileParallel (c : Client) (localPath remotePath : string)
    (fileSize : Z) : IO (W := W) error :=
  let* results :=
    workers (fun ch =>
               uploadChunk c localPath remotePath
                 (Chunks.start ch) (Chunks.end_ ch) fileSize (Chunks.index ch))
            (Chunks.uploadChunks fileSize) in
  ret (firstError results).

(** [UploadFile] *)
Definition UploadFile (c : Client) (localPath remotePath : string)
  : IO (W := W) error :=
  if negb (IsConnected c) then ret (Some "not connected")
  else
    let* f := call env (OpenFile localPath O_RDONLY 0) in
    match err f with
    | Some e => ret (Some ("open file: " ++ ErrorString e))
    | None =>
        let file := fd f in
        let* st := call env (Fstat file) in
        match err st with
        | Some e => closeThen file (Some ("stat file: " ++ ErrorString e))
        | None =>
            let fileSize := Size (info st) in
            let* res :=
              (if (fileSize <? Chunks.defaultChunkSize)%Z
               then uploadFileSingle c localPath remotePath
               else uploadFileParallel c localPath remotePath fileSize) in
            closeThen file res
        end
    end.

(** [calcFileChecksum] *)
Definition calcFileChecksum (path : string)
  : IO (W := W) (string * option OsError) :=
  let* f := call env (OpenFile path O_RDONLY 0) in
  match err f with
  | Some e => ret ("", Some e)
  | None =>
      let* c := call env (ReadAll (fd f)) in
      let* _ := call env (Close (fd f)) in
      match err c with
      | Some e => ret ("", Some e)
      | None => ret (sha256hex (data c), None)
      end
  end.

(** [verifyChecksum] *)
Definition verifyChecksum (c : Client) (remotePath localPath : string)
  : IO (W := W) error :=
  let* o := call env (HttpDo (fileRequest "GET" remotePath
                                [("action", "checksum")] noHeader)) in
  match err o with
  | Some e => ret (Some ("get remote checksum: " ++ ErrorString e))
  | None =>
      let remoteHash := RespBody (resp o) in
      let* l := calcFileChecksum localPath in
      match l with
      | (_, Some e) =>
          ret (Some ("calculate local checksum: " ++ ErrorString e))
      | (localHash, None) =>
          if negb (String.eqb (string_of_list_byte remoteHash) localHash)
          then ret (Some "checksum mismatch")
          else ret None
      end
  end.

(** [downloadFileSingle].  The copy loop hands the body of the answer to
    the file in pieces; the pieces are written here by one [Write], and none
    is written for an empty body. *)
Definition downloadFileSingle (c : Client) (remotePath localPath : string)
  : IO (W := W) error :=
  let* st := call env (Stat localPath) in
  let startByte :=
    match err st with
    | None => Size (info st)
    | Some _ => 0%Z
    end in
  let* hd := call env (HttpDo (fileRequest "HEAD" remotePath [] noHeader)) in
  match err hd with
  | Some e => ret (Some ("head request failed: " ++ ErrorString e))
  | None =>
      let fileSize := RespContentLength (resp hd) in
      if (startByte >=? fileSize)%Z then ret None
      else
        let* m := call env (MkdirAll (GoPath.Dir localPath) 493) in
        match err m with
        | Some e => ret (Some ("create directory: " ++ ErrorString e))
        | None =>
            let* f :=
              (if (startByte >? 0)%Z
               then call env (OpenFile localPath O_RDWR 420)
               else call env (OpenFile localPath
                                (Z.lor (Z.lor O_CREATE O_WRONLY) O_TRUNC)
                                420)) in
            match err f with
            | Some e => ret (Some ("open file: " ++ ErrorString e))
            | None =>
                let file := fd f in
                let h := if (startByte >? 0)%Z
                         then mkHeader (Some (startByte, None)) None "" ""
                         else noHeader in
                let* o := call env (HttpDo (fileRequest "GET" remotePath
                                              [] h)) in
                match err o with
                | Some e =>
                    closeThen file
                      (Some ("download request failed: " ++ ErrorString e))
                | None =>
                    let code := StatusCode (resp o) in
                    if negb (Z.eqb code StatusOK)
                       && negb (Z.eqb code StatusPartialContent)
                    then closeThen file (Some "download failed")
                    else
                      let* sk :=
                        (if (startByte >? 0)%Z
                         then call env (Seek file startByte)
                         else ret ok) in
                      match err sk with
                      | Some e =>
                          closeThen file
                            (Some ("seek error: " ++ ErrorString e))
                      | None =>
                          let* wr :=
                            (match RespBody (resp o) with
                             | [] => ret ok
                             | body => call env (Write file body)
                             end) in
                          match err wr with
                          | Some e =>
                              closeThen file
                                (Some ("write error: " ++ ErrorString e))
                          | None =>
                              let* res :=
                                verifyChecksum c remotePath localPath in
                              closeThen file res
                          end
                      end
                end
            end
        end
  end.

(** [downloadChunkToFile] *)
Definition downloadChunkToFile (c : Client) (remotePath chunkFile : string)
    (start end_ : Z) : IO (W := W) error :=
  let* o := call env (HttpDo (fileRequest "GET" remotePath []
                                (mkHeader (Some (start, Some (end_ - 1)%Z))
                                   None "" ""))) in
  match err o with
  | Some e => ret (Some (ErrorString e))
  | None =>
      let code := StatusCode (resp o) in
      if negb (Z.eqb code StatusPartialContent) && negb (Z.eqb code StatusOK)
      then ret (Some "chunk download failed")
      else
        let* f := call env (OpenFile chunkFile
                              (Z.lor (Z.lor O_RDWR O_CREATE) O_TRUNC) 438) in
        match err f with
        | Some e => ret (Some (ErrorString e))
        | None =>
            let* wr :=
              (match RespBody (resp o) with
               | [] => ret ok
               | body => call env (Write (fd f) body)
               end) in
            closeThen (fd f) (option_map ErrorString (err wr))
        end
  end.

(** The loop of [mergeChunks] from chunk [i] on, [n] chunks to go. *)
Fixpoint mergeFrom (tempDir finalFile : string) (outFile : nat)
    (i : Z) (n : nat) : IO (W := W) error :=
  match n with
  | O => ret None
  | S n' =>
      let* rd := call env (ReadFile (chunkFileName tempDir i)) in
      match err rd with
      | Some e =>
          let* _ := call env (Close outFile) in
          let* _ := call env (Remove finalFile) in
          ret (Some ("read chunk: " ++ ErrorString e))
      | None =>
          let* wr := call env (Write outFile (data rd)) in
          match err wr with
          | Some e =>
              let* _ := call env (Close outFile) in
              let* _ := call env (Remove finalFile) in
              ret (Some ("write chunk: " ++ ErrorString e))
          | None => mergeFrom tempDir finalFile outFile (i + 1) n'
          end
      end
  end.

(** [mergeChunks] *)
Definition mergeChunks (c : Client) (tempDir finalFile : string)
    (numChunks : Z) : IO (W := W) error :=
  let* f := call env (OpenFile finalFile
                        (Z.lor (Z.lor O_RDWR O_CREATE) O_TRUNC) 438) in
  match err f with
  | Some e => ret (Some ("create final file: " ++ ErrorString e))
  | None =>
      let* res := mergeFrom tempDir finalFile (fd f) 0 (Z.to_nat numChunks) in
      closeThen (fd f) res
  end.

(** [downloadFileParallel].  As in [uploadFileParallel], a size for which
    the chunk count wraps around to a negative number makes the code panic
    in [make(chan chunkResult, numChunks)], where this definition goes on
    with no chunk; the theorems about it keep to the sizes below that
    window. *)
Definition downloadFileParallel (c : Client) (remotePath localPath : string)
    (fileSize : Z) : IO (W := W) error :=
  let chunkSize := Chunks.chunkSizeFor Chunks.maxWorkers fileSize in
  let numChunks := Chunks.numChunksFor fileSize chunkSize in
  let* m := call env (MkdirAll (GoPath.Dir localPath) 493) in
  match err m with
  | Some e => ret (Some ("create directory: " ++ ErrorString e))
  | None =>
      let tempDir :=
        GoPath.Dir localPath ++ "/.tmp_" ++ GoPath.Base localPath in
      let* _ := call env (RemoveAll tempDir) in
      let* t := call env (MkdirAll tempDir 493) in
      match err t with
      | Some e => ret (Some ("create temp directory: " ++ ErrorString e))
      | None =>
          let* results :=
            workers (fun ch =>
                       downloadChunkToFile c remotePath
                         (chunkFileName tempDir (Chunks.index ch))
                         (Chunks.start ch) (Chunks.end_ ch))
                    (Chunks.downloadChunks fileSize) in
          let* res :=
            (match firstError results with
             | Some e => ret (Some e)
             | None =>
                 let* mg := mergeChunks c tempDir localPath numChunks in
                 match mg with
                 | Some e => ret (Some e)
                 | None => verifyChecksum c remotePath localPath
                 end
             end) in
          let* _ := call env (RemoveAll tempDir) in
          ret res
      end
  end.

(** [DownloadFile] *)
Definition DownloadFile (c : Client) (remotePath localPath : string)
  : IO (W := W) error :=
  if negb (IsConnected c) then ret (Some "not connected")
  else
    let* hd := call env (HttpDo (fileRequest "HEAD" remotePath [] noHeader)) in
    match err hd with
    | Some e => ret (Some ("head request failed: " ++ ErrorString e))
    | None =>
        let fileSize := RespContentLength (resp hd) in
        if (fileSize <=? 0)%Z then ret (Some "unknown file size")
        else if (fileSize <? Chunks.defaultChunkSize)%Z
        then downloadFileSingle c remotePath localPath
        else downloadFileParallel c remotePath localPath fileSize
    end.

End Transfer.


(** *** Specification vocabulary: what a download does *)

(** A remote path that reaches the server as it is written into the URL
    [http://addr<remotePath>]: letters, digits and [- . _ ~ /] only, so that
    nothing of it is read as a query, a fragment or an escape. *)
Definition urlSafeChar (c : ascii) : bool :=
  let n := nat_of_ascii c in
  ((97 <=? n) && (n <=? 122) || (65 <=? n) && (n <=? 90)
   || (48 <=? n) && (n <=? 57)
   || (n =? 45) || (n =? 46) || (n =? 95) || (n =? 126) || (n =? 47))%nat.

Definition urlSafe (p : string) : bool :=
  forallb urlSafeChar (list_ascii_of_string p).

(** The request for the remote content hash. *)
Definition checksumRequest (remotePath : string) : Request :=
  fileRequest "GET" remotePath [("action", "checksum")] noHeader.

(** The calls of a merge that succeeds: the chunk files are read and
    appended by index. *)
Fixpoint mergeTrace (tempDir : string) (outFile : nat) (i : Z)
    (datas : list (list byte)) : list effect :=
  match datas with
  | [] => []
  | d :: ds =>
      ReadFile (chunkFileName tempDir i) :: Write outFile d
      :: mergeTrace tempDir outFile (i + 1) ds
  end.

(** The flag and the header of a single-stream download that starts at
    [startByte]. *)
Definition singleFlag (startByte : Z) : Z :=
  if (startByte >? 0)%Z then O_RDWR
  else Z.lor (Z.lor O_CREATE O_WRONLY) O_TRUNC.

Definition singleHeader (startByte : Z) : Header :=
  if (startByte >? 0)%Z then mkHeader (Some (startByte, None)) None "" ""
  else noHeader.

(** The calls of a single-stream download up to the check. *)
Definition singleTrace (remotePath localPath : string) (startByte : Z)
    (file : nat) (body : list byte) : list effect :=
  ([Stat localPath;
    HttpDo (fileRequest "HEAD" remotePath [] noHeader);
    MkdirAll (GoPath.Dir localPath) 493;
    OpenFile localPath (singleFlag startByte) 420;
    HttpDo (fileRequest "GET" remotePath [] (singleHeader startByte))]
   ++ (if (startByte >? 0)%Z then [Seek file startByte] else [])
   ++ (match body with [] => [] | _ => [Write file body] end))%list.

Section Verified.
Context {W : Type}.
Variable env : effect -> W -> outcome * W.
Variable sha256hex : list byte -> string.

(** What a check that passes has established in the state it started
    from: the server answered with a hash, the local file was read, and the
    hash of what was read is the server's. *)
Definition verified (remotePath localPath : string) (st : W * list effect)
  : Prop :=
  exists o w1 f w2 d w3,
    env (HttpDo (checksumRequest remotePath)) (fst st) = (o, w1) /\
    err o = None /\
    env (OpenFile localPath O_RDONLY 0) w1 = (f, w2) /\ err f = None /\
    env (ReadAll (fd f)) w2 = (d, w3) /\ err d = None /\
    string_of_list_byte (RespBody (resp o)) = sha256hex (data d).

End Verified.
(* --------------------------------------------------------------------- *)
(** *** Pack transfer (kcpclient/client.go) *)
(* --------------------------------------------------------------------- *)

(** The decision of [UploadFilePacked], taken from [os.Stat] of the source:
    [shouldCompress := false; if info.IsDir() { true }
     else if info.Size() >= config.ThresholdBytes { true }]. *)
Definition shouldCompressUpload (config : PackTransferConfig)
    (info : FileInfo) : bool :=
  if IsDir info then true
  else if (Size info >=? ThresholdBytes config)%Z then true
  else false.

(** The decision of [DownloadFilePacked], taken from the stat answer of the
    server. *)
Definition shouldCompressDownload (config : PackTransferConfig)
    (statSize : Z) (statIsDir : bool) : bool :=
  if Enabled config then
    if statIsDir then true
    else if (statSize >=? ThresholdBytes config)%Z then true
    else false
  else false.

(** The requests of [DownloadFilePacked]: the stat of the remote path, the
    order to compress it into [<remotePath>.tar.gz] on the server, and the
    removal of that archive. *)
Definition packStatRequest (remotePath : string) : Request :=
  actionRequest "GET" [("action", "stat"); ("path", remotePath)] noHeader [].

Definition packCompressRequest (remotePath : string) : Request :=
  actionRequest "POST"
    [("action", "compress"); ("paths", remotePath);
     ("output", remotePath ++ ".tar.gz"); ("format", "targz")]
    (mkHeader None None "" "application/json") [].

Definition packDeleteRequest (remotePath : string) : Request :=
  actionRequest "DELETE"
    [("action", "delete"); ("path", remotePath ++ ".tar.gz")] noHeader [].

(** [extractDest] of [DownloadFilePacked]. *)
Definition extractDestOf (remotePath localPath : string) (statIsDir : bool)
  : string :=
  if statIsDir
     && negb (String.eqb (GoPath.Base localPath) (GoPath.Base remotePath))
  then localPath else GoPath.Dir localPath.

Section PackTransfer.
Context {W : Type}.
Variable env : effect -> W -> outcome * W.
Variable sha256hex : list byte -> string.
(** [os.TempDir()] *)
Variable osTempDir : string.
(** [json.NewDecoder(body).Decode(&statInfo)]: size and is-directory flag,
    [None] when the body does not decode. *)
Variable decodeStat : list byte -> option (Z * bool).

(** The branch [if shouldCompress { ... }] of [UploadFilePacked]: compress
    to a temporary archive, send it with the auto-extract header, remove
    it. *)
Definition uploadCompressed (c : Client) (localPath remotePath : string)
  : IO (W := W) error :=
  let* t := call env UnixNano in
  let tempFile :=
    GoPath.filepath_Join
      [osTempDir; "pack_upload_" ++ pretty (nano t) ++ ".tar.gz"] in
  let* z := call env (CompressToTarGz localPath tempFile) in
  match err z with
  | Some e => ret (Some ("compress before upload: " ++ ErrorString e))
  | None =>
      let remotePathPacked := remotePath ++ ".tar.gz" in
      if negb (IsConnected c)
      then let* _ := call env (Remove tempFile) in ret (Some "not connected")
      else
        let* f := call env (OpenFile tempFile O_RDONLY 0) in
        match err f with
        | Some e =>
            let* _ := call env (Remove tempFile) in
            ret (Some ("open compressed file: " ++ ErrorString e))
        | None =>
            let file := fd f in
            let cleanup (res : error) : IO (W := W) error :=
              let* _ := call env (Close file) in
              let* _ := call env (Remove tempFile) in
              ret res in
            let* st := call env (Fstat file) in
            let fileSize := Size (info st) in
            let* rd := call env (ReadAll file) in
            match err rd with
            | Some e => cleanup (Some (ErrorString e))
            | None =>
                let req :=
                  mkRequest "PUT" "/"
                    [("action", "upload"); ("path", remotePathPacked)]
                    (mkHeader None None "1" "") (data rd) fileSize in
                let* o := call env (HttpDo req) in
                match err o with
                | Some e => cleanup (Some (ErrorString e))
                | None =>
                    if negb (Z.eqb (StatusCode (resp o)) StatusOK)
                    then cleanup (Some "upload failed")
                    else cleanup None
                end
            end
        end
  end.

(** [UploadFilePacked] *)
Definition UploadFilePacked (c : Client) (localPath remotePath : string)
    (config : PackTransferConfig) : IO (W := W) error :=
  if negb (Enabled config) then UploadFile env c localPath remotePath
  else
    let* st := call env (Stat localPath) in
    match err st with
    | Some e => ret (Some ("stat path: " ++ ErrorString e))
    | None =>
        if shouldCompressUpload config (info st)
        then uploadCompressed c localPath remotePath
        else UploadFile env c localPath remotePath
    end.

(** The branch [if shouldCompress { ... }] of [DownloadFilePacked]. *)
Definition downloadCompressed (c : Client) (remotePath localPath : string)
    (statIsDir : bool) : IO (W := W) error :=
  let* z := call env (HttpDo (actionRequest "POST"
                                [("action", "compress");
                                 ("paths", remotePath);
                                 ("output", remotePath ++ ".tar.gz");
                                 ("format", "targz")]
                                (mkHeader None None "" "application/json")
                                [])) in
  match err z with
  | Some e => ret (Some ("request compression: " ++ ErrorString e))
  | None =>
      if negb (Z.eqb (StatusCode (resp z)) StatusOK)
      then DownloadFile env sha256hex c remotePath localPath
      else
        let* t := call env UnixNano in
        let tempTarGz :=
          GoPath.filepath_Join
            [osTempDir; "pack_download_" ++ pretty (nano t) ++ ".tar.gz"] in
        let* d := DownloadFile env sha256hex c (remotePath ++ ".tar.gz")
                    tempTarGz in
        match d with
        | Some e => ret (Some ("download compressed file: " ++ e))
        | None =>
            let extractDest :=
              if statIsDir
                 && negb (String.eqb (GoPath.Base localPath)
                                     (GoPath.Base remotePath))
              then localPath else GoPath.Dir localPath in
            let* x := call env (DecompressFromTarGz tempTarGz extractDest) in
            match err x with
            | Some e =>
                ret (Some ("extract downloaded file: " ++ ErrorString e))
            | None =>
                let* _ := call env (Remove tempTarGz) in
                let* _ := call env (HttpDo (actionRequest "DELETE"
                                              [("action", "delete");
                                               ("path",
                                                remotePath ++ ".tar.gz")]
                                              noHeader [])) in
                ret None
            end
        end
  end.

(** [DownloadFilePacked] *)
Definition DownloadFilePacked (c : Client) (remotePath localPath : string)
    (config : PackTransferConfig) : IO (W := W) error :=
  if negb (IsConnected c) then ret (Some "not connected")
  else
    let* s := call env (HttpDo (actionRequest "GET"
                                  [("action", "stat"); ("path", remotePath)]
                                  noHeader [])) in
    match err s with
    | Some _ => DownloadFile env sha256hex c remotePath localPath
    | None =>
        if negb (Z.eqb (StatusCode (resp s)) StatusOK)
        then DownloadFile env sha256hex c remotePath localPath
        else
          match decodeStat (RespBody (resp s)) with
          | None => DownloadFile env sha256hex c remotePath localPath
          | Some (statSize, statIsDir) =>
              if shouldCompressDownload config statSize statIsDir
              then downloadCompressed c remotePath localPath statIsDir
              else DownloadFile env sha256hex c remotePath localPath
          end
    end.

(** [Compress]: ask the server to archive [paths]. *)
Definition Compress (c : Client) (paths : list string)
    (outputPath format : string) : IO (W := W) error :=
  if negb (IsConnected c) then ret (Some "not connected")
  else
    let* o := call env (HttpDo (actionRequest "POST"
                                  [("action", "compress");
                                   ("paths", String.concat "," paths);
                                   ("output", outputPath);
                                   ("format", format)]
                                  noHeader [])) in
    match err o with
    | Some e => ret (Some (ErrorString e))
    | None =>
        if negb (Z.eqb (StatusCode (resp o)) StatusOK)
        then ret (Some "compress failed")
        else ret None
    end.

End PackTransfer.

End Client.

(* ===================================================================== *)
(** ** Task manager (kcpclient/tasks/manager.go) *)
(* ===================================================================== *)

Module Tasks.
Import OS.

Local Open Scope string_scope.

Inductive TaskType :=
| TaskTypeDownload
| TaskTypeUpload
| TaskTypeCompress
| TaskTypeExtract.

Inductive TaskStatus :=
| StatusPending
| StatusRunning
| StatusPaused
| StatusCompleted
| StatusFailed
| StatusCanceled.

#[export] Instance TaskStatus_eq_dec : EqDecision TaskStatus.
Proof. solve_decision. Defined.

(** [Task].  [CancelFunc] records whether the field is set; [Canceled] is
    the atomic flag.  The progress fields ([Progress], [Speed],
    [BytesDone]) are written by the progress callbacks only and are left
    out. *)
Record Task := mkTask {
  ID : string;
  Type_ : TaskType;
  Status : TaskStatus;
  Error : Client.error;
  LocalPath : string;
  RemotePath : string;
  FileSize : Z;
  CancelFunc : bool;
  Canceled : bool
}.

Definition setStatus (st : TaskStatus) (t : Task) : Task :=
  mkTask (ID t) (Type_ t) st (Error t) (LocalPath t) (RemotePath t)
         (FileSize t) (CancelFunc t) (Canceled t).

Definition setError (e : Client.error) (t : Task) : Task :=
  mkTask (ID t) (Type_ t) (Status t) e (LocalPath t) (RemotePath t)
         (FileSize t) (CancelFunc t) (Canceled t).

Definition setCancelFunc (t : Task) : Task :=
  mkTask (ID t) (Type_ t) (Status t) (Error t) (LocalPath t) (RemotePath t)
         (FileSize t) true (Canceled t).

Definition storeCanceled (t : Task) : Task :=
  mkTask (ID t) (Type_ t) (Status t) (Error t) (LocalPath t) (RemotePath t)
         (FileSize t) (CancelFunc t) true.

(** The function a task's goroutine runs. *)
Inductive Entry :=
| runDownloadTask
| runUploadTask
| runUploadFolderTask
| runCompressTask (paths : list string) (outputPath format : string).

(** Where the goroutine stands in that function:
    - [AtAcquire]  before [m.semaphore <- struct{}{}];
    - [AtStart]    slot acquired, before [task.Status = StatusRunning];
    - [AtTransfer] before the call into the client;
    - [AtFinish]   the call returned [res], before the status is settled;
    - [AtRelease]  before the deferred [<-m.semaphore];
    - [Exited]     returned. *)
Inductive PC :=
| AtAcquire
| AtStart
| AtTransfer
| AtFinish (res : Client.error)
| AtRelease
| Exited.

(** A task object on the heap together with the goroutine started for
    it; a [*Task] is an index into the heap. *)
Record Goroutine := mkGoroutine {
  task : Task;
  entry : Entry;
  pc : PC
}.

(** [Manager]; [semaphore] is the number of elements buffered in the
    channel, whose capacity is [maxParallel].  [taskQueue] is never used. *)
Record Manager := mkManager {
  client : Client.Client;
  packTransferConfig : Client.PackTransferConfig;
  tasks : gmap string nat;
  maxParallel : Z;
  semaphore : nat
}.

(** [NewManager] *)
Definition NewManager (client : Client.Client) (maxParallel : Z)
    (packConfig : Client.PackTransferConfig) : Manager :=
  let maxParallel := if (maxParallel <=? 0)%Z then 3%Z else maxParallel in
  mkManager client packConfig ∅ maxParallel 0.

Definition holdsSlot (p : PC) : bool :=
  match p with
  | AtStart | AtTransfer | AtFinish _ | AtRelease => true
  | AtAcquire | Exited => false
  end.

(** Between the store of [StatusRunning] and the store of the final
    status. *)
Definition inFlight (p : PC) : bool :=
  match p with
  | AtTransfer | AtFinish _ => true
  | _ => false
  end.

Section Manager.
Context {W : Type}.
Variable env : effect -> W -> outcome * W.
Variable sha256hex : list byte -> string.
Variable osTempDir : string.
Variable decodeStat : list byte -> option (Z * bool).
(** [os.Getpid()] *)
Variable pid : Z.

(** The manager, the task objects with their goroutines, and the world
    with the trace of the calls made so far. *)
Record State := mkState {
  mgr : Manager;
  heap : list Goroutine;
  world : W;
  log : list effect
}.

Definition initial (m : Manager) (w : W) : State := mkState m [] w [].

(** Run a computation on the world of a state. *)
Definition perform {A} (m : IO (W := W) A) (s : State) : A * State :=
  let '(a, (w, tr)) := m (world s, log s) in
  (a, mkState (mgr s) (heap s) w tr).

(** [generateTaskID] *)
Definition generateTaskID : IO (W := W) string :=
  let* t := call env UnixNano in
  ret (pretty (nano t) ++ "-" ++ pretty pid).

(** [m.tasks[task.ID] = task; go m.run...(task)] *)
Definition spawn (t : Task) (e : Entry) (s : State) : State :=
  let m := mgr s in
  mkState
    (mkManager (client m) (packTransferConfig m)
       (<[ID t := length (heap s)]> (tasks m)) (maxParallel m) (semaphore m))
    (heap s ++ [mkGoroutine t e AtAcquire])
    (world s) (log s).

(** [AddDownloadTask] *)
Definition AddDownloadTask (remotePath localPath : string) (s : State)
  : State * Client.error :=
  let (id, s) := perform generateTaskID s in
  (spawn (mkTask id TaskTypeDownload StatusPending None localPath remotePath
            0 false false) runDownloadTask s, None).

(** [AddUploadTask] *)
Definition AddUploadTask (localPath remotePath : string) (s : State)
  : State * Client.error :=
  let (st, s) := perform (call env (Stat localPath)) s in
  match err st with
  | Some e => (s, Some ("stat file: " ++ ErrorString e))
  | None =>
      let (id, s) := perform generateTaskID s in
      (spawn (mkTask id TaskTypeUpload StatusPending None localPath
                remotePath (Size (info st)) false false) runUploadTask s,
       None)
  end.

(** [AddUploadFolderTask]: the size is the sum over the files found by the
    walk. *)
Definition AddUploadFolderTask (localPath remotePath : string) (s : State)
  : State * Client.error :=
  let (wk, s) := perform (call env (WalkDir localPath)) s in
  match err wk with
  | Some e => (s, Some ("walk folder: " ++ ErrorString e))
  | None =>
      let totalSize :=
        fold_left (fun acc '(_, i) =>
                     if IsDir i then acc else Int64.add acc (Size i))
                  (entries wk) 0%Z in
      let (id, s) := perform generateTaskID s in
      (spawn (mkTask id TaskTypeUpload StatusPending None localPath
                remotePath totalSize false false) runUploadFolderTask s,
       None)
  end.

(** [AddCompressTask] *)
Definition AddCompressTask (paths : list string) (outputPath format : string)
    (s : State) : State * Client.error :=
  let (id, s) := perform generateTaskID s in
  (spawn (mkTask id TaskTypeCompress StatusPending None "" outputPath
            0 false false) (runCompressTask paths outputPath format) s, None).

Definition setHeap (h : list Goroutine) (s : State) : State :=
  mkState (mgr s) h (world s) (log s).

Definition setSemaphore (n : nat) (s : State) : State :=
  let m := mgr s in
  mkState (mkManager (client m) (packTransferConfig m) (tasks m)
             (maxParallel m) n)
          (heap s) (world s) (log s).

(** [CancelTask] *)
Definition CancelTask (taskID : string) (s : State) : State * Client.error :=
  match tasks (mgr s) !! taskID with
  | None => (s, Some "task not found")
  | Some p =>
      match heap s !! p with
      | None => (s, Some "task not found")
      | Some g =>
          (setHeap (<[p := mkGoroutine (storeCanceled (task g)) (entry g)
                             (pc g)]> (heap s)) s, None)
      end
  end.

(** [GetTask] *)
Definition GetTask (taskID : string) (s : State) : option Task :=
  match tasks (mgr s) !! taskID with
  | None => None
  | Some p => task <$> heap s !! p
  end.

(** [RemoveTask] *)
Definition RemoveTask (taskID : string) (s : State) : State :=
  let m := mgr s in
  mkState (mkManager (client m) (packTransferConfig m)
             (delete taskID (tasks m)) (maxParallel m) (semaphore m))
          (heap s) (world s) (log s).

(** [SetPackTransferConfig] *)
Definition SetPackTransferConfig (config : Client.PackTransferConfig)
    (s : State) : State :=
  let m := mgr s in
  mkState (mkManager (client m) config (tasks m) (maxParallel m)
             (semaphore m))
          (heap s) (world s) (log s).

(** The call into the client made by the goroutine of entry [e]. *)
Definition transfer (m : Manager) (e : Entry) (t : Task)
  : IO (W := W) Client.error :=
  match e with
  | runDownloadTask =>
      if Client.Enabled (packTransferConfig m)
      then Client.DownloadFilePacked env sha256hex osTempDir decodeStat
             (client m) (RemotePath t) (LocalPath t) (packTransferConfig m)
      else Client.DownloadFile env sha256hex (client m)
             (RemotePath t) (LocalPath t)
  | runUploadTask =>
      if Client.Enabled (packTransferConfig m)
      then Client.UploadFilePacked env osTempDir (client m)
             (LocalPath t) (RemotePath t) (packTransferConfig m)
      else Client.UploadFile env (client m) (LocalPath t) (RemotePath t)
  | runUploadFolderTask =>
      Client.UploadFilePacked env osTempDir (client m)
        (LocalPath t) (RemotePath t) (packTransferConfig m)
  | runCompressTask paths outputPath format =>
      Client.Compress env (client m) paths outputPath format
  end.

(** What follows the call: the status is settled from the cancel flag and
    the result; a canceled download removes its local file. *)
Definition settle (e : Entry) (res : Client.error) (t : Task)
  : IO (W := W) Task :=
  if Canceled t then
    match e with
    | runDownloadTask =>
        let* _ := call env (Remove (LocalPath t)) in
        ret (setStatus StatusCanceled t)
    | _ => ret (setStatus StatusCanceled t)
    end
  else
    match res with
    | Some err => ret (setError (Some err) (setStatus StatusFailed t))
    | None => ret (setStatus StatusCompleted t)
    end.

(** The moves of the system: calls of the API and steps of the
    goroutines. *)
Inductive Label :=
| DoAddDownload (remotePath localPath : string)
| DoAddUpload (localPath remotePath : string)
| DoAddUploadFolder (localPath remotePath : string)
| DoAddCompress (paths : list string) (outputPath format : string)
| DoCancel (taskID : string)
| DoRemove (taskID : string)
| DoSetPack (config : Client.PackTransferConfig)
| Acquire (p : nat)
| Start (p : nat)
| Transfer (p : nat)
| Finish (p : nat)
| Release (p : nat).

Definition update (p : nat) (g : Goroutine) (s : State) : State :=
  setHeap (<[p := g]> (heap s)) s.

(** One move; [None] when the move is not enabled. *)
Definition step (l : Label) (s : State) : option State :=
  match l with
  | DoAddDownload r lp => Some (fst (AddDownloadTask r lp s))
  | DoAddUpload lp r => Some (fst (AddUploadTask lp r s))
  | DoAddUploadFolder lp r => Some (fst (AddUploadFolderTask lp r s))
  | DoAddCompress ps o f => Some (fst (AddCompressTask ps o f s))
  | DoCancel id => Some (fst (CancelTask id s))
  | DoRemove id => Some (RemoveTask id s)
  | DoSetPack c => Some (SetPackTransferConfig c s)
  | Acquire p =>
      match heap s !! p with
      | Some (mkGoroutine t e AtAcquire) =>
          if (Z.of_nat (semaphore (mgr s)) <? maxParallel (mgr s))%Z
          then Some (update p (mkGoroutine t e AtStart)
                       (setSemaphore (S (semaphore (mgr s))) s))
          else None
      | _ => None
      end
  | Start p =>
      match heap s !! p with
      | Some (mkGoroutine t e AtStart) =>
          Some (update p
                  (mkGoroutine (setCancelFunc (setStatus StatusRunning t))
                     e AtTransfer) s)
      | _ => None
      end
  | Transfer p =>
      match heap s !! p with
      | Some (mkGoroutine t e AtTransfer) =>
          let (res, s') := perform (transfer (mgr s) e t) s in
          Some (update p (mkGoroutine t e (AtFinish res)) s')
      | _ => None
      end
  | Finish p =>
      match heap s !! p with
      | Some (mkGoroutine t e (AtFinish res)) =>
          let (t', s') := perform (settle e res t) s in
          Some (update p (mkGoroutine t' e AtRelease) s')
      | _ => None
      end
  | Release p =>
      match heap s !! p with
      | Some (mkGoroutine t e AtRelease) =>
          Some (update p (mkGoroutine t e Exited)
                  (setSemaphore (pred (semaphore (mgr s))) s))
      | _ => None
      end
  end.

(** The states the system reaches from [s0]. *)
Inductive reachable (s0 : State) : State -> Prop :=
| reach_start : reachable s0 s0
| reach_step s l s' :
    reachable s0 s -> step l s = Some s' -> reachable s0 s'.

(** A sequence of moves. *)
Fixpoint steps (ls : list Label) (s : State) : option State :=
  match ls with
  | [] => Some s
  | l :: ls' =>
      match step l s with
      | Some s' => steps ls' s'
      | None => None
      end
  end.

(** The number of task objects whose status is [StatusRunning]. *)
Definition isRunning (g : Goroutine) : bool :=
  match Status (task g) with
  | StatusRunning => true
  | _ => false
  end.

Definition running (s : State) : nat :=
  length (List.filter isRunning (heap s)).

(** The number of goroutines that hold a slot of the semaphore. *)
Definition holders (s : State) : nat :=
  length (List.filter (fun g => holdsSlot (pc g)) (heap s)).

(** The invariant of the admission control, for a capacity [cap]: the
    semaphore counts exactly the goroutines between acquire and release, it
    never exceeds [cap], a running task belongs to a goroutine that is between
    the two stores of its status (and so holds a slot), and a goroutine that has not started its task has left it
    pending. *)
Definition invariant (cap : Z) (s : State) : Prop :=
  maxParallel (mgr s) = cap /\
  semaphore (mgr s) = holders s /\
  (Z.of_nat (semaphore (mgr s)) <= cap)%Z /\
  (forall p g, heap s !! p = Some g ->
     (Status (task g) = StatusRunning -> inFlight (pc g) = true) /\
     (pc g = AtAcquire \/ pc g = AtStart ->
      Status (task g) = StatusPending)).

End Manager.

End Tasks.

(* ===================================================================== *)
(** ** Key derivation (common/kcp.go) *)
(* ===================================================================== *)

(** The sources hold two versions of [GetBlockCrypt]: one that validates
    the key and hashes it first ([Crypto]), and one that falls back to a
    default key ([CryptoDefaultKey]).  The primitives of crypto/sha256,
    crypto/sha1, x/crypto/pbkdf2 and crypto/aes are parameters. *)
Module Crypto.
Import OS.

Local Open Scope string_scope.

(** The hash handed to PBKDF2: [sha1.New] or [sha256.New]. *)
Inductive Hash := SHA1 | SHA256.

(** [kcp.BlockCrypt] as built by [kcp.NewAESBlockCrypt]: AES under a key. *)
Inductive BlockCrypt := AESBlockCrypt (key : list byte).

(** [kcp.NewAESBlockCrypt]: [aes.NewCipher] accepts keys of 16, 24 or 32
    bytes and fails on any other length. *)
Definition NewAESBlockCrypt (key : list byte) : BlockCrypt + string :=
  let n := length key in
  if Nat.eqb n 16 || Nat.eqb n 24 || Nat.eqb n 32
  then inl (AESBlockCrypt key)
  else inr "crypto/aes: invalid key size".

Definition hexDigit (n : N) : ascii :=
  ascii_of_N (if (n <? 10)%N then 48 + n else 87 + n)%N.

(** [fmt.Sprintf("%x", b)] for a byte string. *)
Fixpoint hex (b : list byte) : string :=
  match b with
  | [] => EmptyString
  | x :: rest =>
      let n := Byte.to_N x in
      String (hexDigit (n / 16)%N) (String (hexDigit (n mod 16)%N) (hex rest))
  end.

(** [const Salt = "kcp-file-transfer"] *)
Definition Salt : string := "kcp-file-transfer".

(** [ValidateKey] *)
Definition ValidateKey (key : string) : option string :=
  if String.eqb key "" then Some "encryption key is required" else None.

Section Derivation.
(** [sha256.Sum256] *)
Variable sha256 : list byte -> list byte.
(** [pbkdf2.Key(password, salt, iter, keyLen, h)] *)
Variable pbkdf2_Key : list byte -> list byte -> Z -> Z -> Hash -> list byte.

(** [hashKey] *)
Definition hashKey (key : string) : string := hex (sha256 (bytes key)).

(** [GetBlockCrypt] *)
Definition GetBlockCrypt (key : string) : BlockCrypt + string :=
  match ValidateKey key with
  | Some e => inr e
  | None =>
      let hashedKey := hashKey key in
      let pass := pbkdf2_Key (bytes hashedKey) (bytes Salt) 4096 32 SHA256 in
      NewAESBlockCrypt pass
  end.

End Derivation.

End Crypto.

Module CryptoDefaultKey.
Import OS.

Local Open Scope string_scope.

Definition Salt : string := "kcp-file-transfer".
Definition DefaultKey : string := "your-secret-key".

(** [IsDefaultKey] *)
Definition IsDefaultKey (key : string) : bool :=
  String.eqb key "" || String.eqb key DefaultKey.

(** [GetEffectiveKey] *)
Definition GetEffectiveKey (key : string) : string :=
  if String.eqb key "" then DefaultKey else key.

Section Derivation.
Variable pbkdf2_Key :
  list byte -> list byte -> Z -> Z -> Crypto.Hash -> list byte.

(** [GetBlockCrypt] *)
Definition GetBlockCrypt (key : string) : Crypto.BlockCrypt + string :=
  let effectiveKey := GetEffectiveKey key in
  let pass := pbkdf2_Key (bytes effectiveKey) (bytes Salt) 4096 32
                Crypto.SHA1 in
  Crypto.NewAESBlockCrypt pass.

End Derivation.

End CryptoDefaultKey.

(* ===================================================================== *)
(** ** A file system and a loopback network *)
(* ===================================================================== *)

(** A world to run client and server in: each side has a file system, and a
    request of the client is answered by the server's main handler.  The
    file system keeps regular files by path and a table of open handles.
    Directories are not represented: [MkdirAll] succeeds and changes
    nothing, a path names a regular file or nothing, and [RemoveAll] removes
    the files at or below a path.  Access modes, symbolic links and limits
    on names are not checked.

    A state stands for the file system whose regular files are the entries
    of [files] and whose directories are ["/"] and the proper ancestors of
    those files.  On a path that is a directory of that file system, or that
    has a regular file among its ancestors, or whose parent directory is
    missing, the answers of [kernel] are not those of the operating system:
    [Stat] and [ReadFile] answer [ErrNotExist] for a directory, and
    [MkdirAll], [OpenFile], [WriteFile] and [Rename] do not fail.  The
    predicates [tidy], [isDir], [underFile] and [placeable] below name the
    states and paths on which the two agree. *)
Module Loopback.
Import OS.

Local Open Scope string_scope.

(** An open file: its path and the offset of the next read or write. *)
Record handle := mkHandle {
  h_path : string;
  h_off : Z;
  h_open : bool
}.

Record FS := mkFS {
  files : gmap string (list byte);
  handles : list handle
}.

Definition okFd (n : nat) : outcome :=
  mkOutcome None n noInfo [] [] (mkResponse 0 0 []) 0.

Definition okInfo (i : FileInfo) : outcome :=
  mkOutcome None 0 i [] [] (mkResponse 0 0 []) 0.

Definition okData (d : list byte) : outcome :=
  mkOutcome None 0 noInfo d [] (mkResponse 0 0 []) 0.

Definition okResp (r : Response) : outcome :=
  mkOutcome None 0 noInfo [] [] r 0.

Definition fileInfo (p : string) (d : list byte) : FileInfo :=
  mkFileInfo (GoPath.Base p) (Z.of_nat (length d)) false 420 0.

(** The bytes of [d] from offset [off] on. *)
Definition readFrom (d : list byte) (off : Z) : list byte :=
  drop (Z.to_nat off) d.

(** [d] with [new] written at offset [off]; a gap is filled with zeros. *)
Definition writeAt (d : list byte) (off : Z) (new : list byte) : list byte :=
  (take (Z.to_nat off) d
   ++ replicate (Z.to_nat off - length d) Byte.x00
   ++ new
   ++ drop (Z.to_nat off + length new) d)%list.

(** [k] is [p] or lies below it. *)
Definition under (p k : string) : bool :=
  String.eqb k p || GoPath.HasPrefix k (p ++ "/").

(** The paths of the regular files. *)
Definition names (F : gmap string (list byte)) : list string :=
  (map_to_list F).*1.

(** Every regular file is kept under a clean absolute path, so that a path
    lies below another exactly when it extends it by a slash and more. *)
Definition tidy (F : gmap string (list byte)) : bool :=
  forallb (fun k => GoPath.IsAbs k && String.eqb (GoPath.Clean k) k) (names F).

(** [p] is a directory: it is ["/"], or a regular file lies below it. *)
Definition isDir (F : gmap string (list byte)) (p : string) : bool :=
  String.eqb p "/"
  || existsb (fun k => GoPath.HasPrefix k (p ++ "/")) (names F).

(** A proper ancestor of [p] is a regular file. *)
Definition underFile (F : gmap string (list byte)) (p : string) : bool :=
  existsb (fun k => GoPath.HasPrefix p (k ++ "/")) (names F).

(** [p] can hold a regular file: it is not a directory, and none of its
    ancestors is a regular file. *)
Definition placeable (F : gmap string (list byte)) (p : string) : bool :=
  negb (isDir F p) && negb (underFile F p).

(** Nothing lies at or below [p]. *)
Definition vacant (F : gmap string (list byte)) (p : string) : bool :=
  negb (existsb (under p) (names F)).

Definition bad : OsError := ErrOther "bad file descriptor".

(** Perform a call on an open handle. *)
Definition withHandle (s : FS) (fd : nat)
    (k : handle -> outcome * FS) : outcome * FS :=
  match handles s !! fd with
  | Some h => if h_open h then k h else (failed bad, s)
  | None => (failed bad, s)
  end.

(** Perform a call on an open handle whose file still exists. *)
Definition withFile (s : FS) (fd : nat)
    (k : handle -> list byte -> outcome * FS) : outcome * FS :=
  withHandle s fd (fun h =>
    match files s !! h_path h with
    | Some d => k h d
    | None => (failed ErrNotExist, s)
    end).

Definition setOff (s : FS) (fd : nat) (h : handle) (off : Z) : list handle :=
  <[fd := mkHandle (h_path h) off true]> (handles s).

(** The file system's answer to a call. *)
Definition kernel (e : effect) (s : FS) : outcome * FS :=
  match e with
  | Stat p =>
      match files s !! p with
      | Some d => (okInfo (fileInfo p d), s)
      | None => (failed ErrNotExist, s)
      end
  | MkdirAll _ _ => (ok, s)
  | OpenFile p flag _ =>
      let opened F :=
        (okFd (length (handles s)),
         mkFS F (handles s ++ [mkHandle p 0 true])) in
      match files s !! p with
      | Some _ =>
          if has_flag flag O_TRUNC then opened (<[p := []]> (files s))
          else opened (files s)
      | None =>
          if has_flag flag O_CREATE then opened (<[p := []]> (files s))
          else (failed ErrNotExist, s)
      end
  | Seek fd off =>
      withHandle s fd (fun h =>
        if (off <? 0)%Z then (failed (ErrOther "invalid argument"), s)
        else (ok, mkFS (files s) (setOff s fd h off)))
  | Write fd new =>
      withFile s fd (fun h d =>
        (ok,
         mkFS (<[h_path h := writeAt d (h_off h) new]> (files s))
              (setOff s fd h (h_off h + Z.of_nat (length new)))))
  | ReadAll fd =>
      withFile s fd (fun h d =>
        (okData (readFrom d (h_off h)),
         mkFS (files s)
              (setOff s fd h (Z.max (h_off h) (Z.of_nat (length d))))))
  | ReadN fd n =>
      withFile s fd (fun h d =>
        let got := take (Z.to_nat n) (readFrom d (h_off h)) in
        (okData got,
         mkFS (files s) (setOff s fd h (h_off h + Z.of_nat (length got)))))
  | Sync fd => withHandle s fd (fun _ => (ok, s))
  | Fstat fd => withFile s fd (fun h d => (okInfo (fileInfo (h_path h) d), s))
  | Close fd =>
      withHandle s fd (fun h =>
        (ok,
         mkFS (files s)
              (<[fd := mkHandle (h_path h) (h_off h) false]> (handles s))))
  | Remove p =>
      match files s !! p with
      | Some _ => (ok, mkFS (delete p (files s)) (handles s))
      | None => (failed ErrNotExist, s)
      end
  | RemoveAll p =>
      (ok,
       mkFS (filter (fun kv => under p kv.1 = false) (files s)) (handles s))
  | Rename p q =>
      match files s !! p with
      | Some d => (ok, mkFS (<[q := d]> (delete p (files s))) (handles s))
      | None => (failed ErrNotExist, s)
      end
  | ReadFile p =>
      match files s !! p with
      | Some d => (okData d, s)
      | None => (failed ErrNotExist, s)
      end
  | WriteFile p d _ => (ok, mkFS (<[p := d]> (files s)) (handles s))
  | _ => (failed (ErrOther "not supported"), s)
  end.

(** Both sides of a session. *)
Record World := mkWorld {
  client_fs : FS;
  server_fs : FS
}.

Section Session.
Variable wd : option string.
Variable rootDir : string.
Variable encodeItems : list Server.ListItem -> list byte.
Variable encodeStat : Server.FileStatInfo -> list byte.
Variable sha256hex : list byte -> string.
Variable HandleCopy : Server.FileHandler -> Request -> IO (W := FS) Response.

(** The server's answer to a request: the main handler of [main], run on
    the server's file system. *)
Definition serve (r : Request) (s : FS) : Response * FS :=
  let res :=
    Server.createMainHandler kernel wd encodeItems encodeStat sha256hex
      HandleCopy rootDir
      (Server.NewFileHandler rootDir) (Server.NewUploadHandler rootDir)
      (Server.NewCompressHandler rootDir) (Server.NewEditHandler rootDir)
      r (s, []) in
  (fst res, fst (snd res)).

(** The client's world: file calls go to its own file system, requests to
    the server. *)
Definition net (e : effect) (w : World) : outcome * World :=
  match e with
  | HttpDo r =>
      let res := serve r (server_fs w) in
      (okResp (fst res), mkWorld (client_fs w) (snd res))
  | _ =>
      let res := kernel e (client_fs w) in
      (fst res, mkWorld (snd res) (server_fs w))
  end.

End Session.

(** A server without the copy action. *)
Definition noCopy (h : Server.FileHandler) (r : Request)
  : IO (W := FS) Response :=
  ret (httpError "Not implemented" StatusInternalServerError).

(** *** A small session, to run the embedding on

    The server serves [/srv/files]; the client holds one file.  SHA-256 is a
    parameter of the embedding; the session takes the content itself, as
    text, in its place. *)
Definition plainHash (d : list byte) : string := string_of_list_byte d.

Definition exampleNet : effect -> World -> outcome * World :=
  net (Some "/") "/srv/files" (fun _ => []) (fun _ => []) plainHash noCopy.

Definition exampleClient : Client.Client :=
  Client.mkClient "127.0.0.1:8080" "secret" true.

(** The client holds [/home/user/a.bin] with content [d]; the server holds
    nothing. *)
Definition exampleWorld (d : list byte) : World :=
  mkWorld (mkFS {[ "/home/user/a.bin" := d ]} []) (mkFS ∅ []).

(** The request [uploadChunk] sends for the bytes [body] at offset [start]
    of a file of [total] bytes. *)
Definition chunkPut (remotePath : string) (start total : Z)
    (body : list byte) : Request :=
  mkRequest "PUT" "/" [("action", "upload"); ("path", remotePath)]
    (mkHeader None
       (Some (start, start + Z.of_nat (length body) - 1, total)%Z) "" "")
    body (Z.of_nat (length body)).

(** The server of the session, serving two requests in turn. *)
Definition exampleServe2 (r1 r2 : Request) : FS :=
  let serve :=
    serve (Some "/") "/srv/files" (fun _ => []) (fun _ => []) plainHash
      noCopy in
  snd (serve r2 (snd (serve r1 (mkFS ∅ [])))).

(** The server holds [/srv/files/a.bin] with content [remote]; the client
    holds [/home/user/b.bin] with content [loc]. *)
Definition partialWorld (loc remote : list byte) : World :=
  mkWorld (mkFS {[ "/home/user/b.bin" := loc ]} [])
          (mkFS {[ "/srv/files/a.bin" := remote ]} []).

End Loopback.
(* ===================================================================== *)
(** ** Vocabulary for the further properties *)
(* ===================================================================== *)

Module PathForm.

Local Open Scope string_scope.

(** An element that is not empty. *)
Definition nonEmpty (e : string) : bool := negb (String.eqb e "").

(** A name without the separator [sep]. *)
Definition free (sep : ascii) (e : string) : Prop :=
  GoPath.Split sep e = [e].

(** The path [isPathSafe] answers for [requestPath] when the root is a clean
    absolute path other than ["/"]. *)
Definition serverPath (rootDir requestPath : string) : string :=
  if String.eqb (GoPath.Clean ("/" ++ requestPath)) "/" then rootDir
  else rootDir ++ GoPath.Clean ("/" ++ requestPath).

End PathForm.
(* ===================================================================== *)
(** ** Client GUI: paths dropped on the window (drag and drop handler) *)
(* ===================================================================== *)

Module DragDrop.

Local Open Scope string_scope.

(** The inner loop of [filterNestedPaths]: whether [path], the normalized
    path of index [i], lies below one of [others], the normalized paths from
    index [j] on, its own index left out. *)
Fixpoint isNested (path : string) (i j : nat) (others : list string) : bool :=
  match others with
  | [] => false
  | otherPath :: rest =>
      if Nat.eqb i j then isNested path i (S j) rest
      else if GoPath.HasPrefix path (otherPath ++ GoPath.Separator) then true
      else isNested path i (S j) rest
  end.

(** The outer loop, from index [i] on: [paths] and [normalized] are the
    original and the normalized paths from that index on. *)
Fixpoint keepFrom (normalizedPaths : list string) (i : nat)
    (paths normalized : list string) : list string :=
  match paths, normalized with
  | p :: paths', path :: normalized' =>
      if isNested path i 0 normalizedPaths
      then keepFrom normalizedPaths (S i) paths' normalized'
      else p :: keepFrom normalizedPaths (S i) paths' normalized'
  | _, _ => []
  end.

(** [filterNestedPaths]: the paths that are not children of other paths of
    the list ([filepath.Clean] is [path.Clean] on Unix). *)
Definition filterNestedPaths (paths : list string) : list string :=
  if (length paths <=? 1)%nat then paths
  else
    let normalizedPaths := map GoPath.Clean paths in
    keepFrom normalizedPaths 0 paths normalizedPaths.

(** [p] lies strictly below [q], as the filter tests it. *)
Definition below (p q : string) : bool :=
  GoPath.HasPrefix (GoPath.Clean p) (GoPath.Clean q ++ GoPath.Separator).

End DragDrop.
(* ===================================================================== *)
(** ** Client: file operations on the server (kcpclient/client.go) *)
(* ===================================================================== *)

Module ClientApi.
Import OS Client.

Local Open Scope string_scope.

(** [c.httpClient.Post(url, "application/json", nil)] on an action URL. *)
Definition jsonPost (q : list (string * string)) : Request :=
  actionRequest "POST" q (mkHeader None None "" "application/json") [].

(** [archivePath[:len(archivePath)-len(filepath.Ext(archivePath))]] *)
Definition trimExt (archivePath : string) : string :=
  String.substring 0
    (String.length archivePath - String.length (GoPath.Ext archivePath))
    archivePath.

(** The line end [http.Error] appends to a message. *)
Definition newline : string := String "010" "".

(** [fmt.Errorf("<what> failed (status %d): %s", resp.StatusCode,
    string(body))] *)
Definition statusError (what : string) (r : Response) : string :=
  what ++ " failed (status " ++ pretty (StatusCode r) ++ "): "
       ++ string_of_list_byte (RespBody r).

Section Api.
Context {W : Type}.
Variable env : effect -> W -> outcome * W.

(** The common end of the operations: the request is sent and the answer
    must carry one of the statuses [accepted]. *)
Definition send (req : Request) (accepted : list Z) (what : string)
  : IO (W := W) error :=
  let* o := call env (HttpDo req) in
  match err o with
  | Some e => ret (Some (ErrorString e))
  | None =>
      if existsb (Z.eqb (StatusCode (resp o))) accepted then ret None
      else ret (Some (statusError what (resp o)))
  end.

(** [DeleteFile] *)
Definition DeleteFile (c : Client) (path : string) : IO (W := W) error :=
  if negb (IsConnected c) then ret (Some "not connected")
  else
    send (actionRequest "DELETE" [("action", "delete"); ("path", path)]
            noHeader [])
         [StatusOK] "delete".

(** [CreateDirectory] *)
Definition CreateDirectory (c : Client) (path : string)
  : IO (W := W) error :=
  if negb (IsConnected c) then ret (Some "not connected")
  else
    send (jsonPost [("action", "mkdir"); ("path", path)])
         [StatusCreated; StatusOK] "mkdir".

(** [RenameFile] *)
Definition RenameFile (c : Client) (oldPath newPath : string)
  : IO (W := W) error :=
  if negb (IsConnected c) then ret (Some "not connected")
  else
    send (jsonPost [("action", "rename"); ("old", oldPath);
                    ("new", newPath)])
         [StatusOK] "rename".

(** [CopyFile] *)
Definition CopyFile (c : Client) (srcPath dstPath : string)
  : IO (W := W) error :=
  if negb (IsConnected c) then ret (Some "not connected")
  else
    send (jsonPost [("action", "copy"); ("src", srcPath); ("dst", dstPath)])
         [StatusOK] "copy".

(** [MoveFile] *)
Definition MoveFile (c : Client) (srcPath dstPath : string)
  : IO (W := W) error :=
  RenameFile c srcPath dstPath.

(** [ReadFile]: the content of a text file and the error. *)
Definition ReadFile (c : Client) (path : string)
  : IO (W := W) (string * error) :=
  if negb (IsConnected c) then ret ("", Some "not connected")
  else
    let* o := call env (HttpDo (actionRequest "GET"
                                  [("action", "edit"); ("path", path)]
                                  noHeader [])) in
    match err o with
    | Some e => ret ("", Some (ErrorString e))
    | None =>
        if negb (Z.eqb (StatusCode (resp o)) StatusOK)
        then ret ("", Some (statusError "read" (resp o)))
        else ret (string_of_list_byte (RespBody (resp o)), None)
    end.

(** [SaveFile] *)
Definition SaveFile (c : Client) (path content : string)
  : IO (W := W) error :=
  if negb (IsConnected c) then ret (Some "not connected")
  else
    send (actionRequest "PUT" [("action", "edit"); ("path", path)]
            (mkHeader None None "" "text/plain; charset=utf-8")
            (bytes content))
         [StatusOK] "save".

(** [Extract] *)
Definition Extract (c : Client) (archivePath destPath : string)
  : IO (W := W) error :=
  if negb (IsConnected c) then ret (Some "not connected")
  else
    let dest := if String.eqb destPath "" then trimExt archivePath
                else destPath in
    send (jsonPost [("action", "extract"); ("path", archivePath);
                    ("dest", dest)])
         [StatusOK] "extract".

End Api.

(** *** A small session, to run the operations on

    The server of [Loopback.exampleNet] holds the files [F]; the client
    holds nothing. *)
Definition serverWorld (F : gmap string (list byte)) : Loopback.World :=
  Loopback.mkWorld (Loopback.mkFS ∅ []) (Loopback.mkFS F []).

(** A text of 1 MiB and one byte. *)
Definition largeText : string :=
  string_of_list_byte (repeat Byte.x61 (Z.to_nat (1024 * 1024 + 1))).

(** A world in which every path names a directory. *)
Definition directories : effect -> unit -> outcome * unit :=
  fun e w =>
    match e with
    | Stat p =>
        (Loopback.okInfo (mkFileInfo (GoPath.Base p) 4096 true 493 0), w)
    | _ => (ok, w)
    end.

End ClientApi.
(* ===================================================================== *)
(** ** Archives: extraction of tar streams
       (common/compression.go, server/compress/tar.go) *)
(* ===================================================================== *)

(** The readers of archive/tar and compress/gzip are parameters: a reader
    turns the bytes of an archive into the headers and file contents that
    [tr.Next()] and [io.Copy(file, tr)] deliver, followed by the end of the
    archive or by an error.  The archive is read by one [ReadAll] when it is
    opened. *)
Module Archive.
Import OS.

Local Open Scope string_scope.

(** [tar.TypeReg], [tar.TypeRegA], [tar.TypeDir] *)
Definition TypeReg : ascii := "0".
Definition TypeRegA : ascii := "000".
Definition TypeDir : ascii := "5".

(** What the code reads of a [tar.Header]. *)
Record TarHeader := mkTarHeader {
  Name : string;
  Typeflag : ascii;
  TarMode : Z
}.

(** An entry: its header, the content the reader delivers, and the error
    of the reader when it fails before the content is complete. *)
Record Entry := mkEntry {
  header : TarHeader;
  content : list byte;
  damaged : option string
}.

(** What the code reads of a [zip.File]: its name, [FileInfo().IsDir()],
    [Mode()], the error of [Open()] if it fails, the content its reader
    delivers and the error of that reader when it fails before the content
    is complete. *)
Record ZipFile := mkZipFile {
  zName : string;
  zIsDir : bool;
  zMode : Z;
  zOpen : option string;
  zContent : list byte;
  zDamaged : option string
}.

(** A stream: the entries, then the end of the archive ([None]) or an
    error of the reader. *)
Definition Stream : Type := list Entry * option string.

(** The stream a reader delivers from the bytes read; an error of the read
    is the error of the reader. *)
Definition openStream (reader : list byte -> string + Stream) (rd : outcome)
  : string + Stream :=
  match err rd with
  | Some x => inl (ErrorString x)
  | None => reader (data rd)
  end.

(** The test both extractors make on the absolute path of an entry. *)
Definition escapes (absDest absPath : string) : bool :=
  negb (GoPath.HasPrefix absPath (absDest ++ GoPath.Separator))
  && negb (String.eqb absPath absDest).

Section Extract.
Context {W : Type}.
Variable env : effect -> W -> outcome * W.
Variable wd : option string.
(** The error of [filepath.Abs] when [os.Getwd] fails ([wd] is [None]). *)
Variable getwdError : string.
(** [tar.NewReader(gzip.NewReader(f))], or the error of
    [gzip.NewReader]. *)
Variable readTarGz : list byte -> string + Stream.
(** [tar.NewReader(f)] *)
Variable readTar : list byte -> Stream.
(** [zip.OpenReader]: the files of the central directory, or the error. *)
Variable readZip : list byte -> string + list ZipFile.

(** [io.Copy(file, tr)] followed by the close of the file: one [Write] of
    the content delivered, none when there is nothing to write. *)
Definition copyContent (file : nat) (e : Entry) : IO (W := W) (option string) :=
  let* wr :=
    (match content e with
     | [] => ret ok
     | body => call env (Write file body)
     end) in
  let* _ := call env (Close file) in
  match err wr with
  | Some x => ret (Some (ErrorString x))
  | None => ret (damaged e)
  end.

(** The loop of [DecompressFromTarGz] over the entries. *)
Fixpoint decompressEntries (dstPath absDest : string) (es : list Entry)
    (tail : option string) : IO (W := W) Client.error :=
  match es with
  | [] =>
      match tail with
      | None => ret None
      | Some x => ret (Some ("read tar header: " ++ x))
      end
  | e :: rest =>
      let h := header e in
      let targetPath := GoPath.filepath_Join [dstPath; Name h] in
      match GoPath.Abs wd targetPath with
      | None => ret (Some ("get absolute path: " ++ getwdError))
      | Some absPath =>
          if escapes absDest absPath
          then ret (Some ("illegal file path (tar slip detected): "
                            ++ Name h))
          else if Ascii.eqb (Typeflag h) TypeDir then
            let* m := call env (MkdirAll targetPath (TarMode h)) in
            match err m with
            | Some x => ret (Some ("create directory: " ++ ErrorString x))
            | None => decompressEntries dstPath absDest rest tail
            end
          else if Ascii.eqb (Typeflag h) TypeReg
                  || Ascii.eqb (Typeflag h) TypeRegA then
            let* m := call env (MkdirAll (GoPath.Dir targetPath) 493) in
            match err m with
            | Some x =>
                ret (Some ("create parent directory: " ++ ErrorString x))
            | None =>
                let* f := call env (OpenFile targetPath
                                      (Z.lor (Z.lor O_CREATE O_WRONLY)
                                         O_TRUNC)
                                      (TarMode h)) in
                match err f with
                | Some x => ret (Some ("create file: " ++ ErrorString x))
                | None =>
                    let* c := copyContent (fd f) e in
                    match c with
                    | Some x => ret (Some ("write file content: " ++ x))
                    | None => decompressEntries dstPath absDest rest tail
                    end
                end
            end
          else decompressEntries dstPath absDest rest tail
      end
  end.

(** [DecompressFromTarGz] *)
Definition DecompressFromTarGz (srcPath dstPath : string)
  : IO (W := W) Client.error :=
  let* f := call env (OpenFile srcPath O_RDONLY 0) in
  match err f with
  | Some x => ret (Some ("open source file: " ++ ErrorString x))
  | None =>
      let srcFile := fd f in
      let* rd := call env (ReadAll srcFile) in
      match openStream readTarGz rd with
      | inl x =>
          Client.closeThen env srcFile (Some ("create gzip reader: " ++ x))
      | inr (es, tail) =>
          let* m := call env (MkdirAll dstPath 493) in
          match err m with
          | Some x =>
              Client.closeThen env srcFile
                (Some ("create destination directory: " ++ ErrorString x))
          | None =>
              match GoPath.Abs wd dstPath with
              | None =>
                  Client.closeThen env srcFile
                    (Some ("get absolute dest path: " ++ getwdError))
              | Some absDest =>
                  let* res := decompressEntries dstPath absDest es tail in
                  Client.closeThen env srcFile res
              end
          end
      end
  end.

(** [extractTarFile]: [dest] is the absolute destination. *)
Definition extractTarFile (e : Entry) (dest : string)
  : IO (W := W) Client.error :=
  let h := header e in
  let path := GoPath.filepath_Join [dest; Name h] in
  match GoPath.Abs wd path with
  | None => ret (Some getwdError)
  | Some absPath =>
      if escapes dest absPath
      then ret (Some ("illegal file path: " ++ Name h))
      else if Ascii.eqb (Typeflag h) TypeDir then
        let* m := call env (MkdirAll path (TarMode h)) in
        ret (option_map ErrorString (err m))
      else
        let* m := call env (MkdirAll (GoPath.Dir path) 493) in
        match err m with
        | Some x => ret (Some (ErrorString x))
        | None =>
            let* f := call env (OpenFile path
                                  (Z.lor (Z.lor O_WRONLY O_CREATE) O_TRUNC)
                                  (TarMode h)) in
            match err f with
            | Some x => ret (Some (ErrorString x))
            | None => copyContent (fd f) e
            end
        end
  end.

(** The loop of [ExtractTar] over the entries. *)
Fixpoint extractEntries (absDest : string) (es : list Entry)
    (tail : option string) : IO (W := W) Client.error :=
  match es with
  | [] => ret tail
  | e :: rest =>
      let* r := extractTarFile e absDest in
      match r with
      | Some x => ret (Some x)
      | None => extractEntries absDest rest tail
      end
  end.

(** [ExtractTar] *)
Definition ExtractTar (archive dest : string) : IO (W := W) Client.error :=
  let* f := call env (OpenFile archive O_RDONLY 0) in
  match err f with
  | Some x => ret (Some (ErrorString x))
  | None =>
      let file := fd f in
      match GoPath.Abs wd dest with
      | None => Client.closeThen env file (Some getwdError)
      | Some absDest =>
          let* rd := call env (ReadAll file) in
          let stream :=
            if GoPath.HasSuffix archive ".gz"
               || GoPath.HasSuffix archive ".tgz"
            then openStream readTarGz rd
            else openStream (fun d => inr (readTar d)) rd in
          match stream with
          | inl x => Client.closeThen env file (Some x)
          | inr (es, tail) =>
              let* res := extractEntries absDest es tail in
              Client.closeThen env file res
          end
      end
  end.

(** [extractZipFile]: [dest] is the absolute destination. *)
Definition extractZipFile (file : ZipFile) (dest : string)
  : IO (W := W) Client.error :=
  let path := GoPath.filepath_Join [dest; zName file] in
  match GoPath.Abs wd path with
  | None => ret (Some getwdError)
  | Some absPath =>
      if escapes dest absPath
      then ret (Some ("illegal file path: " ++ zName file))
      else if zIsDir file then
        let* m := call env (MkdirAll path (zMode file)) in
        ret (option_map ErrorString (err m))
      else
        let* m := call env (MkdirAll (GoPath.Dir path) 493) in
        match err m with
        | Some x => ret (Some (ErrorString x))
        | None =>
            match zOpen file with
            | Some x => ret (Some x)
            | None =>
                let* f := call env (OpenFile path
                                      (Z.lor (Z.lor O_WRONLY O_CREATE)
                                         O_TRUNC)
                                      (zMode file)) in
                match err f with
                | Some x => ret (Some (ErrorString x))
                | None =>
                    copyContent (fd f)
                      (mkEntry (mkTarHeader (zName file) TypeReg (zMode file))
                         (zContent file) (zDamaged file))
                end
            end
        end
  end.

(** The loop of [ExtractZip] over the files. *)
Fixpoint extractZipFiles (absDest : string) (files : list ZipFile)
  : IO (W := W) Client.error :=
  match files with
  | [] => ret None
  | file :: rest =>
      let* r := extractZipFile file absDest in
      match r with
      | Some x => ret (Some x)
      | None => extractZipFiles absDest rest
      end
  end.

(** [ExtractZip] *)
Definition ExtractZip (archive dest : string) : IO (W := W) Client.error :=
  let* f := call env (OpenFile archive O_RDONLY 0) in
  match err f with
  | Some x => ret (Some (ErrorString x))
  | None =>
      let zipReader := fd f in
      let* rd := call env (ReadAll zipReader) in
      match err rd with
      | Some x => Client.closeThen env zipReader (Some (ErrorString x))
      | None =>
          match readZip (data rd) with
          | inl x => Client.closeThen env zipReader (Some x)
          | inr files =>
              match GoPath.Abs wd dest with
              | None => Client.closeThen env zipReader (Some getwdError)
              | Some absDest =>
                  let* res := extractZipFiles absDest files in
                  Client.closeThen env zipReader res
              end
          end
      end
  end.

End Extract.

(** *** Specification vocabulary *)

(** [p] lies at or below the absolute directory [absDest]. *)
Definition inside (wd : option string) (absDest p : string) : Prop :=
  exists absPath,
    GoPath.Abs wd p = Some absPath /\
    (GoPath.HasPrefix absPath (absDest ++ GoPath.Separator) = true
     \/ absPath = absDest).

(** Every path a call names lies inside [absDest], or is the parent
    directory of a path that does. *)
Definition contained (wd : option string) (absDest : string) (e : effect)
  : Prop :=
  Forall (fun p => inside wd absDest p
                   \/ exists q, inside wd absDest q /\ p = GoPath.Dir q)
         (paths_of e).

(** [tr'] extends [tr] by calls that satisfy [P]. *)
Definition grows (P : effect -> Prop) (tr tr' : list effect) : Prop :=
  exists l, tr' = (tr ++ l)%list /\ Forall P l.

(** Whether [DecompressFromTarGz] acts on an entry of this type. *)
Definition supported (e : Entry) : bool :=
  Ascii.eqb (Typeflag (header e)) TypeDir
  || Ascii.eqb (Typeflag (header e)) TypeReg
  || Ascii.eqb (Typeflag (header e)) TypeRegA.

(** Entries to run the extractors on: a regular file, a symbolic link and
    an entry that points out of the destination. *)
Definition exampleFile : Entry :=
  mkEntry (mkTarHeader "docs/readme.txt" TypeReg 420) (bytes "hello") None.

Definition exampleLink : Entry :=
  mkEntry (mkTarHeader "docs/link" "2" 511) [] None.

Definition exampleEscape : Entry :=
  mkEntry (mkTarHeader "../../etc/passwd" TypeReg 420) (bytes "root") None.

End Archive.
(* ===================================================================== *)
(** ** Task manager: vocabulary for the life of a task *)
(* ===================================================================== *)

Module TaskLife.
Import Tasks.

(** How far a status is on the way from Pending to a final status. *)
Definition rank (st : TaskStatus) : nat :=
  match st with
  | StatusPending => 0
  | StatusRunning | StatusPaused => 1
  | StatusCompleted | StatusFailed | StatusCanceled => 2
  end.

(** The final statuses. *)
Definition settled (st : TaskStatus) : bool :=
  match st with
  | StatusCompleted | StatusFailed | StatusCanceled => true
  | _ => false
  end.

(** The status of a task follows the place of its goroutine: Pending until
    the goroutine has stored Running, Running until it has settled the
    result, final afterwards. *)
Definition lifecycle (g : Goroutine) : Prop :=
  match pc g with
  | AtAcquire | AtStart => Status (task g) = StatusPending
  | AtTransfer | AtFinish _ => Status (task g) = StatusRunning
  | AtRelease | Exited => settled (Status (task g)) = true
  end.

End TaskLife.
(* ===================================================================== *)
(** ** Pack transfer: a server to run the download on *)
(* ===================================================================== *)

(** A world without files whose server answers the stat request with 200,
    the compress request with the status [compressStatus], and every other
    request with 200 and the one-byte body ["A"]. *)
Module PackExample.
Import OS.

Local Open Scope string_scope.

Definition server (compressStatus : Z) : effect -> unit -> outcome * unit :=
  fun e w =>
    match e with
    | HttpDo r =>
        let action := QueryGet (Query r) "action" in
        if String.eqb action "stat"
        then (Loopback.okResp (respond StatusOK []), w)
        else if String.eqb action "compress"
        then (Loopback.okResp (respond compressStatus []), w)
        else (Loopback.okResp (respond StatusOK (bytes "A")), w)
    | _ => (ok, w)
    end.

(** The stat answer says: a directory. *)
Definition decodeStat (body : list byte) : option (Z * bool) := Some (0, true).

(** Every content has the hash ["A"]. *)
Definition hash (d : list byte) : string := "A".

Definition enabled : Client.PackTransferConfig :=
  Client.mkPackTransferConfig true (10 * 1024 * 1024).

Definition client : Client.Client :=
  Client.mkClient "127.0.0.1:8080" "secret" true.

End PackExample.
(* ===================================================================== *)
(** * Part II: properties *)
(* ===================================================================== *)

(** ** int64 arithmetic inside its range *)

Lemma wrap_small z : Int64.in_range z -> Int64.wrap z = z.
Proof.
  unfold Int64.in_range, Int64.min_int, Int64.max_int, Int64.wrap. intros Hz.
  rewrite Z.mod_small; lia.
Qed.

Lemma wrap_in_range z : Int64.in_range (Int64.wrap z).
Proof.
  unfold Int64.in_range, Int64.min_int, Int64.max_int, Int64.wrap.
  pose proof (Z.mod_pos_bound (z + 2 ^ 63) (2 ^ 64)). lia.
Qed.

Lemma add_small a b : Int64.in_range (a + b) -> Int64.add a b = a + b.
Proof. apply wrap_small. Qed.

Lemma sub_small a b : Int64.in_range (a - b) -> Int64.sub a b = a - b.
Proof. apply wrap_small. Qed.

Lemma mul_small a b : Int64.in_range (a * b) -> Int64.mul a b = a * b.
Proof. apply wrap_small. Qed.

Lemma quot_small a b :
  0 <= a -> 0 < b -> Int64.in_range a -> Int64.quot a b = a / b.
Proof.
  intros Ha Hb Hr. unfold Int64.quot.
  rewrite Z.quot_div_nonneg by lia.
  apply wrap_small. unfold Int64.in_range, Int64.min_int, Int64.max_int in *.
  pose proof (Z.div_pos a b Ha Hb).
  assert (a / b <= a) by (apply Z.div_le_upper_bound; nia).
  lia.
Qed.

(** An intermediate overflow is harmless when the final value fits:
    [(a + b) - c] computed in int64 is [a + b - c] reduced once. *)
Lemma sub_add_wrap a b c :
  Int64.sub (Int64.add a b) c = Int64.wrap (a + b - c).
Proof.
  unfold Int64.sub, Int64.add, Int64.wrap. f_equal.
  replace ((a + b + 2 ^ 63) mod 2 ^ 64 - 2 ^ 63 - c + 2 ^ 63)
    with ((a + b + 2 ^ 63) mod 2 ^ 64 - c) by lia.
  rewrite Zminus_mod_idemp_l. f_equal. lia.
Qed.

(** ** Chunk plan *)

Section ChunkFacts.
Import Chunks.

(** The code's [(a + b - 1) / b] is the ceiling of [a / b]. *)
Lemma ceil_div_formula a b : 0 < b -> (a + b - 1) / b = ceil_div a b.
Proof.
  intros Hb. unfold ceil_div.
  pose proof (Z.div_mod (a + b - 1) b ltac:(lia)) as H1.
  pose proof (Z.mod_pos_bound (a + b - 1) b Hb) as H2.
  pose proof (Z.div_mod (- a) b ltac:(lia)) as H3.
  pose proof (Z.mod_pos_bound (- a) b Hb) as H4.
  nia.
Qed.

Lemma ceil_div_bounds a b :
  0 < b -> (ceil_div a b - 1) * b < a <= ceil_div a b * b.
Proof.
  intros Hb. unfold ceil_div.
  pose proof (Z.div_mod (- a) b ltac:(lia)) as H3.
  pose proof (Z.mod_pos_bound (- a) b Hb) as H4.
  nia.
Qed.

Lemma ceil_div_pos a b : 0 < a -> 0 < b -> 0 < ceil_div a b.
Proof. intros Ha Hb. pose proof (ceil_div_bounds a b Hb). nia. Qed.

Lemma ceil_div_le_self a b : 0 <= a -> 0 < b -> ceil_div a b <= a.
Proof.
  intros Ha Hb. pose proof (ceil_div_bounds a b Hb).
  destruct (Z.eq_dec a 0) as [->|]; [nia|]. nia.
Qed.

Lemma chunkSizeFor_eight sz :
  0 <= sz -> sz + 7 <= Int64.max_int ->
  chunkSizeFor 8 sz = Z.max (ceil_div sz 8) defaultChunkSize.
Proof.
  intros H0 Hfit. unfold chunkSizeFor.
  assert (Hr : forall z, 0 <= z <= sz + 7 -> Int64.in_range z)
    by (unfold Int64.in_range, Int64.min_int, Int64.max_int in *; lia).
  rewrite sub_add_wrap, wrap_small by (apply Hr; lia).
  rewrite quot_small by (try apply Hr; lia).
  rewrite ceil_div_formula by lia.
  destruct (Z.ltb_spec (ceil_div sz 8) defaultChunkSize); lia.
Qed.

Lemma fits_plus_seven sz : 0 <= sz -> fits sz -> sz + 7 <= Int64.max_int.
Proof. unfold fits, defaultChunkSize. intros. lia. Qed.

Lemma numChunksFor_ceil sz cs :
  0 <= sz -> 0 < cs -> sz + cs - 1 <= Int64.max_int ->
  numChunksFor sz cs = ceil_div sz cs.
Proof.
  intros H0 Hcs Hfit. unfold numChunksFor.
  assert (Hr : forall z, 0 <= z <= sz + cs - 1 -> Int64.in_range z)
    by (unfold Int64.in_range, Int64.min_int, Int64.max_int in *; lia).
  rewrite sub_add_wrap, wrap_small by (apply Hr; lia).
  rewrite quot_small by (try apply Hr; lia).
  now apply ceil_div_formula.
Qed.

(** The range a worker computes, inside the no-overflow window. *)
Lemma chunkRange_spec sz cs i :
  0 <= sz -> 0 < cs -> sz + cs - 1 <= Int64.max_int ->
  0 <= i < ceil_div sz cs ->
  chunkRange sz cs i = mkChunk i (i * cs) (Z.min ((i + 1) * cs) sz).
Proof.
  intros H0 Hcs Hfit Hi. unfold chunkRange.
  pose proof (ceil_div_bounds sz cs Hcs) as Hb.
  assert (i * cs < sz) by nia.
  assert (Hr : forall z, 0 <= z <= sz + cs - 1 -> Int64.in_range z)
    by (unfold Int64.in_range, Int64.min_int, Int64.max_int in *; lia).
  rewrite mul_small by (apply Hr; nia).
  rewrite add_small by (apply Hr; nia).
  f_equal.
  destruct (Z.gtb_spec (i * cs + cs) sz); lia.
Qed.

Lemma spec_plan_chain sz cs (m : nat) k :
  0 < cs -> 0 <= k -> k + Z.of_nat m = ceil_div sz cs ->
  k * cs < sz \/ (m = 0%nat /\ sz <= k * cs) ->
  chain (Z.min (k * cs) sz) (spec_plan sz cs k (Z.of_nat m)) sz.
Proof.
  intros Hcs. unfold spec_plan. revert k.
  induction m as [|m IH]; intros k Hk Hn Hlt.
  - simpl. pose proof (ceil_div_bounds sz cs Hcs). lia.
  - rewrite seqZ_cons by lia. simpl map. cbn [chain start end_].
    pose proof (ceil_div_bounds sz cs Hcs) as Hb.
    destruct Hlt as [Hlt|[? _]]; [|discriminate].
    split; [lia|]. split; [nia|].
    replace (Z.pred (Z.of_nat (Datatypes.S m))) with (Z.of_nat m) by lia.
    replace (Z.succ k) with (k + 1) by lia.
    apply IH; [lia|lia|].
    destruct m as [|m]; [right; split; [reflexivity|] | left]; nia.
Qed.

(** *** What a chain gives *)

Lemma chain_le a l b : chain a l b -> a <= b.
Proof.
  revert a. induction l as [|c l IH]; simpl; intros a H; [lia|].
  destruct H as (? & ? & H). apply IH in H. lia.
Qed.

Lemma chain_cover a l b x :
  chain a l b -> a <= x < b -> exists c, c ∈ l /\ start c <= x < end_ c.
Proof.
  revert a. induction l as [|c l IH]; simpl; intros a H Hx; [lia|].
  destruct H as (Hs & Hlt & H).
  destruct (Z_lt_dec x (end_ c)) as [Hin|Hout].
  - exists c. split; [left | lia].
  - destruct (IH _ H ltac:(lia)) as (c' & Hc' & Hr).
    exists c'. split; [now right | exact Hr].
Qed.

Lemma chain_inside a l b c :
  chain a l b -> c ∈ l -> a <= start c /\ end_ c <= b.
Proof.
  revert a. induction l as [|c0 l IH]; simpl; intros a H Hc.
  - inversion Hc.
  - destruct H as (Hs & Hlt & H). pose proof (chain_le _ _ _ H).
    apply elem_of_cons in Hc as [->|Hc]; [lia|].
    destruct (IH _ H Hc). lia.
Qed.

Lemma chain_ordered a l b (i j : nat) ci cj :
  chain a l b -> l !! i = Some ci -> l !! j = Some cj -> (i < j)%nat ->
  end_ ci <= start cj.
Proof.
  revert a i j. induction l as [|c0 l IH]; simpl; intros a i j H Hi Hj Hlt.
  - discriminate.
  - destruct H as (Hs & Hl & H). destruct j as [|j]; [lia|]. simpl in Hj.
    destruct i as [|i]; simpl in Hi.
    + injection Hi as <-.
      apply list_elem_of_lookup_2 in Hj.
      now destruct (chain_inside _ _ _ _ H Hj).
    + eapply IH; eauto. lia.
Qed.

Lemma chain_last a l b c : chain a l b -> last l = Some c -> end_ c = b.
Proof.
  revert a. induction l as [|c0 l IH]; simpl; intros a H Hl; [discriminate|].
  destruct H as (_ & _ & H). destruct l as [|c1 l].
  - simpl in H. now injection Hl as <-.
  - eapply IH; eauto.
Qed.

Lemma spec_plan_index sz cs n (i : nat) c :
  spec_plan sz cs 0 n !! i = Some c -> index c = Z.of_nat i.
Proof.
  unfold spec_plan. rewrite list_lookup_fmap.
  destruct (seqZ 0 n !! i) as [z|] eqn:Hz; simpl; [|discriminate].
  apply lookup_seqZ in Hz as [-> _]. intros [= <-]. simpl. lia.
Qed.

Lemma spec_plan_length sz cs n :
  0 <= n -> Z.of_nat (length (spec_plan sz cs 0 n)) = n.
Proof. intros. unfold spec_plan. rewrite length_map, length_seqZ. lia. Qed.

Lemma planFor_spec sz :
  defaultChunkSize <= sz -> fits sz ->
  planFor 8 sz
  = spec_plan sz (Z.max (ceil_div sz 8) defaultChunkSize) 0
      (ceil_div sz (Z.max (ceil_div sz 8) defaultChunkSize)).
Proof.
  intros Hsz Hfit. unfold planFor.
  assert (0 <= sz) by (unfold defaultChunkSize in *; lia).
  rewrite chunkSizeFor_eight by auto using fits_plus_seven.
  set (cs := Z.max (ceil_div sz 8) defaultChunkSize).
  assert (0 < cs) by (unfold cs, defaultChunkSize; lia).
  rewrite numChunksFor_ceil by (auto; exact Hfit).
  unfold spec_plan. apply map_ext_in. intros i Hi.
  apply list_elem_of_In, elem_of_seqZ in Hi.
  apply chunkRange_spec; auto; first [exact Hfit | lia].
Qed.

End ChunkFacts.
(** C2 (as amended): for every file size [sz] at or above the 4 MiB
    threshold that stays inside the int64 no-overflow window ([fits]), the
    parallel upload and download paths compute
    [chunkSize = max(ceil(sz/8), 4 MiB)] and [numChunks = ceil(sz/chunkSize)];
    the chunk of index [i] is [i*chunkSize, min((i+1)*chunkSize, sz)); taken
    by index the ranges are non-empty, start at 0, each starts where the
    previous one ends (no gap, no overlap), every offset of [0, sz) lies in a
    chunk, and the final chunk ends at [sz]. *)
Theorem chunk_plan_partitions (sz : Z) :
  Chunks.defaultChunkSize <= sz -> Chunks.fits sz ->
  let cs := Z.max (Chunks.ceil_div sz 8) Chunks.defaultChunkSize in
  let n := Chunks.ceil_div sz cs in
  let plan := Chunks.spec_plan sz cs 0 n in
  Chunks.chunkSizeFor Chunks.numWorkers sz = cs /\
  Chunks.chunkSizeFor Chunks.maxWorkers sz = cs /\
  Chunks.numChunksFor sz cs = n /\
  Chunks.uploadChunks sz = plan /\
  Chunks.downloadChunks sz = plan /\
  Z.of_nat (length plan) = n /\
  Chunks.chain 0 plan sz /\
  (forall x, 0 <= x < sz ->
     exists c, c ∈ plan /\ Chunks.start c <= x < Chunks.end_ c) /\
  (forall (i j : nat) ci cj,
     plan !! i = Some ci -> plan !! j = Some cj -> (i < j)%nat ->
     Chunks.index ci < Chunks.index cj /\ Chunks.end_ ci <= Chunks.start cj) /\
  (exists c, last plan = Some c /\ Chunks.end_ c = sz).
Proof.
  intros Hsz Hfit cs n plan.
  assert (H0 : 0 < sz) by (unfold Chunks.defaultChunkSize in *; lia).
  assert (Hcs : 0 < cs) by (unfold cs, Chunks.defaultChunkSize; lia).
  assert (Hn : 0 < n) by (apply ceil_div_pos; lia).
  assert (Hchain : Chunks.chain 0 plan sz).
  { unfold plan.
    replace 0 with (Z.min (0 * cs) sz) at 1 by lia.
    replace n with (Z.of_nat (Z.to_nat n)) by lia.
    apply spec_plan_chain; [lia | lia | fold n; lia | left; lia]. }
  assert (Hlen : Z.of_nat (length plan) = n)
    by (apply spec_plan_length; lia).
  split; [apply chunkSizeFor_eight; [lia | apply fits_plus_seven; [lia|auto]]|].
  split; [apply chunkSizeFor_eight; [lia | apply fits_plus_seven; [lia|auto]]|].
  split; [apply numChunksFor_ceil; [lia | lia | exact Hfit]|].
  split; [now apply planFor_spec|].
  split; [now apply planFor_spec|].
  split; [exact Hlen|].
  split; [exact Hchain|].
  split; [intros x Hx; now apply (chain_cover 0 plan sz)|].
  split.
  - intros i j ci cj Hi Hj Hij. split.
    + rewrite (spec_plan_index _ _ _ _ _ Hi), (spec_plan_index _ _ _ _ _ Hj).
      lia.
    + eapply chain_ordered; eauto.
  - destruct (last plan) as [c|] eqn:Hl.
    + exists c. split; [reflexivity|]. eapply chain_last; eauto.
    + apply last_None in Hl. rewrite Hl in Hlen. simpl in Hlen. lia.
Qed.

(** A 10 MiB file: two chunks of 4 MiB and one of 2 MiB. *)
Lemma chunk_plan_partitions_witness :
  Chunks.defaultChunkSize <= 10485760 /\ Chunks.fits 10485760 /\
  Chunks.uploadChunks 10485760
  = [Chunks.mkChunk 0 0 4194304; Chunks.mkChunk 1 4194304 8388608;
     Chunks.mkChunk 2 8388608 10485760] /\
  Chunks.chain 0 (Chunks.uploadChunks 10485760) 10485760.
Proof.
  assert (H1 : Chunks.defaultChunkSize <= 10485760) by (vm_compute; discriminate).
  assert (H2 : Chunks.fits 10485760) by (vm_compute; discriminate).
  destruct (chunk_plan_partitions 10485760 H1 H2)
    as (_ & _ & _ & Hup & _ & _ & Hch & _).
  split; [exact H1|]. split; [exact H2|].
  split; [reflexivity|]. rewrite Hup. exact Hch.
Defined.

(** C2 (as stated) fails at the top of the int64 range: for a size of
    [2^63 - 1] bytes the additions wrap, the computed chunk count is negative,
    no worker is started and nothing of [0, sz) is covered. *)
Lemma chunk_plan_overflow_counterexample :
  let sz := 9223372036854775807 in
  Chunks.defaultChunkSize <= sz /\ Int64.in_range sz /\
  Chunks.chunkSizeFor Chunks.numWorkers sz = Chunks.defaultChunkSize /\
  Chunks.numChunksFor sz Chunks.defaultChunkSize = -2199023255551 /\
  Chunks.uploadChunks sz = [] /\ Chunks.downloadChunks sz = [] /\
  ~ Chunks.chain 0 (Chunks.uploadChunks sz) sz.
Proof.
  cbv zeta. split; [vm_compute; discriminate|].
  split; [split; vm_compute; discriminate|].
  split; [reflexivity|]. split; [vm_compute; reflexivity|].
  split; [reflexivity|]. split; [reflexivity|].
  change (Chunks.uploadChunks 9223372036854775807) with (@nil Chunks.Chunk).
  simpl. discriminate.
Qed.

(** ** Server upload handler *)

Section UploadFacts.
Import OS Server.
Context {W : Type}.
Variable env : effect -> W -> outcome * W.
Variable wd : option string.

Lemma removeArchive_trace n path (st : W * list effect) :
  exists l, snd (snd (removeArchive env n path st)) = (snd st ++ l)%list /\
            Forall (fun e => afterSync e = true) l.
Proof.
  revert st. induction n as [|n IH]; intros [w tr]; simpl.
  - exists []. simpl. rewrite app_nil_r. auto.
  - unfold bind, call. simpl. destruct (env (Remove path) w) as [o w1]. simpl.
    destruct (err o) as [e|].
    + destruct (IsNotExist e).
      * exists [Remove path]. split; [reflexivity|]. repeat constructor.
      * destruct (IH (w1, (tr ++ [Remove path])%list)) as (l & Hl & Hf).
        exists (Remove path :: l). rewrite Hl. simpl.
        rewrite <- app_assoc. split; [reflexivity|]. constructor; auto.
    + exists [Remove path]. split; [reflexivity|]. repeat constructor.
Qed.

Local Arguments removeArchive : simpl never.

Lemma HandleUpload_trace (h : UploadHandler) (r : Request)
    (st : W * list effect) (resp : Response) (w' : W) (tr' : list effect) :
  HandleUpload env wd h r st = (resp, (w', tr')) ->
  StatusCode resp = StatusOK ->
  exists cleanPath file rest,
    isPathSafe wd (up_fileHandler h) (QueryGet (Query r) "path")
    = (cleanPath, true) /\
    tr' = (snd st
           ++ MkdirAll (GoPath.Dir cleanPath) 493
           :: (if startOffsetOf r >? 0
               then [OpenFile cleanPath (Z.lor O_CREATE O_RDWR) 420;
                     Seek file (startOffsetOf r)]
               else [OpenFile cleanPath
                       (Z.lor (Z.lor O_CREATE O_WRONLY) O_TRUNC) 420])
           ++ [Write file (Body r); Sync file; Fstat file] ++ rest)%list /\
    Forall (fun e => afterSync e = true) rest.
Proof.
  destruct st as [w tr]. unfold HandleUpload.
  destruct (negb _); [intros [= <- _ _]; discriminate|].
  destruct (String.eqb _ ""); [intros [= <- _ _]; discriminate|].
  destruct (isPathSafe _ _ _) as [cleanPath [|]];
    [|intros [= <- _ _]; discriminate].
  unfold bind, call, ret, closing. simpl.
  destruct (env (MkdirAll _ _) w) as [m w1]. simpl.
  destruct (err m); [intros [= <- _ _]; discriminate|].
  destruct (startOffsetOf r >? 0) eqn:Hoff; simpl.
  - destruct (env (OpenFile _ _ _) w1) as [f w2]. simpl.
    destruct (err f); [intros [= <- _ _]; discriminate|].
    unfold bind, call, ret. simpl.
    destruct (env (Seek _ _) w2) as [sk w3]. simpl.
    destruct (err sk); simpl.
    { destruct (env (Close _) w3). simpl. intros [= <- _ _]; discriminate. }
    destruct (env (Write _ _) w3) as [wr w4]. simpl.
    destruct (err wr); simpl.
    { destruct (env (Close _) w4). simpl. intros [= <- _ _]; discriminate. }
    destruct (env (Sync _) w4) as [sy w5]. simpl.
    destruct (err sy); simpl.
    { destruct (env (Close _) w5). simpl. intros [= <- _ _]; discriminate. }
    destruct (env (Fstat _) w5) as [fs w6]. simpl.
    destruct (err fs); simpl.
    { destruct (env (Close _) w6). simpl. intros [= <- _ _]; discriminate. }
    destruct (_ && _); simpl.
    + destruct (env (Close _) w6) as [? w7]. simpl.
      destruct (env (DecompressFromTarGz _ _) w7) as [x w8]. simpl.
      destruct (err x); simpl.
      { destruct (env (Close _) w8). simpl. intros [= <- _ _]; discriminate. }
      match goal with |- context [removeArchive env 5 cleanPath ?s0] =>
        destruct (removeArchive_trace 5 cleanPath s0) as (l & Hl & Hf);
        destruct (removeArchive env 5 cleanPath s0) as [u [w9 tr9]]
      end. simpl in Hl. simpl.
      destruct (env (Close _) w9) as [? w10]. simpl.
      intros [= _ _ <-] _. subst tr9.
      exists cleanPath, (fd f),
        (Close (fd f) :: DecompressFromTarGz cleanPath (GoPath.Dir cleanPath)
           :: l ++ [Close (fd f)])%list.
      split; [reflexivity|]. split.
      * rewrite <- !app_assoc. reflexivity.
      * constructor; [reflexivity|]. constructor; [reflexivity|].
        apply Forall_app. split; [exact Hf|]. repeat constructor.
    + destruct (env (Close _) w6) as [? w7]. simpl.
      intros [= _ _ <-] _.
      exists cleanPath, (fd f), [Close (fd f)].
      split; [reflexivity|]. split.
      * rewrite <- !app_assoc. reflexivity.
      * repeat constructor.
  - destruct (env (OpenFile _ _ _) w1) as [f w2]. simpl.
    destruct (err f); [intros [= <- _ _]; discriminate|].
    unfold bind, call, ret. simpl.
    destruct (env (Write _ _) w2) as [wr w4]. simpl.
    destruct (err wr); simpl.
    { destruct (env (Close _) w4). simpl. intros [= <- _ _]; discriminate. }
    destruct (env (Sync _) w4) as [sy w5]. simpl.
    destruct (err sy); simpl.
    { destruct (env (Close _) w5). simpl. intros [= <- _ _]; discriminate. }
    destruct (env (Fstat _) w5) as [fs w6]. simpl.
    destruct (err fs); simpl.
    { destruct (env (Close _) w6). simpl. intros [= <- _ _]; discriminate. }
    destruct (_ && _); simpl.
    + destruct (env (Close _) w6) as [? w7]. simpl.
      destruct (env (DecompressFromTarGz _ _) w7) as [x w8]. simpl.
      destruct (err x); simpl.
      { destruct (env (Close _) w8). simpl. intros [= <- _ _]; discriminate. }
      match goal with |- context [removeArchive env 5 cleanPath ?s0] =>
        destruct (removeArchive_trace 5 cleanPath s0) as (l & Hl & Hf);
        destruct (removeArchive env 5 cleanPath s0) as [u [w9 tr9]]
      end. simpl in Hl. simpl.
      destruct (env (Close _) w9) as [? w10]. simpl.
      intros [= _ _ <-] _. subst tr9.
      exists cleanPath, (fd f),
        (Close (fd f) :: DecompressFromTarGz cleanPath (GoPath.Dir cleanPath)
           :: l ++ [Close (fd f)])%list.
      split; [reflexivity|]. split.
      * rewrite <- !app_assoc. reflexivity.
      * constructor; [reflexivity|]. constructor; [reflexivity|].
        apply Forall_app. split; [exact Hf|]. repeat constructor.
    + destruct (env (Close _) w6) as [? w7]. simpl.
      intros [= _ _ <-] _.
      exists cleanPath, (fd f), [Close (fd f)].
      split; [reflexivity|]. split.
      * rewrite <- !app_assoc. reflexivity.
      * repeat constructor.
Qed.

(** C9: a request whose Content-Range start is greater than 0 opens the
    destination with [O_CREATE|O_RDWR] (no truncation) and seeks to that
    offset before writing; a request without the header, or with start 0,
    opens it with [O_CREATE|O_WRONLY|O_TRUNC].  In both cases a request that is
    answered with 200 has written the body, then synced the file, and made no
    further write.  The table of per-file mutexes plays no part: the handler
    behaves the same whatever locks are held. *)
Theorem upload_handler_file_protocol (h : UploadHandler) (r : Request)
    (st : W * list effect) :
  (forall locks,
     HandleUpload env wd (mkUploadHandler (up_fileHandler h) locks) r st
     = HandleUpload env wd h r st) /\
  has_flag (Z.lor O_CREATE O_RDWR) O_TRUNC = false /\
  has_flag (Z.lor (Z.lor O_CREATE O_WRONLY) O_TRUNC) O_TRUNC = true /\
  (forall resp w' tr',
     HandleUpload env wd h r st = (resp, (w', tr')) ->
     StatusCode resp = StatusOK ->
     exists cleanPath file rest,
       isPathSafe wd (up_fileHandler h) (QueryGet (Query r) "path")
       = (cleanPath, true) /\
       tr' = (snd st
              ++ MkdirAll (GoPath.Dir cleanPath) 493
              :: (if startOffsetOf r >? 0
                  then [OpenFile cleanPath (Z.lor O_CREATE O_RDWR) 420;
                        Seek file (startOffsetOf r)]
                  else [OpenFile cleanPath
                          (Z.lor (Z.lor O_CREATE O_WRONLY) O_TRUNC) 420])
              ++ [Write file (Body r); Sync file; Fstat file] ++ rest)%list /\
       Forall (fun e => afterSync e = true) rest).
Proof.
  split; [reflexivity|]. split; [reflexivity|]. split; [reflexivity|].
  intros resp w' tr'. apply HandleUpload_trace.
Qed.

End UploadFacts.

(** A chunk of a parallel upload (bytes 4194304-8388607 of 10485760) sent
    to a server whose calls all succeed. *)
Lemma upload_handler_file_protocol_witness :
  let h := Server.NewUploadHandler "/srv/files" in
  let r := OS.mkRequest "PUT" "/"
             [("action", "upload"); ("path", "/video.bin")]%string
             (OS.mkHeader None (Some (4194304, 8388607, 10485760)) "" "")
             [Byte.x01; Byte.x02] 2 in
  exists resp tr',
    Server.HandleUpload OS.idle (Some "/"%string) h r (tt, [])
    = (resp, (tt, tr')) /\
    OS.StatusCode resp = OS.StatusOK /\
    tr' = [OS.MkdirAll "/srv/files" 493;
           OS.OpenFile "/srv/files/video.bin" 66 420;
           OS.Seek 0 4194304; OS.Write 0 [Byte.x01; Byte.x02];
           OS.Sync 0; OS.Fstat 0; OS.Close 0].
Proof.
  cbv zeta. eexists. eexists.
  split; [vm_compute; reflexivity|]. split; [reflexivity|].
  destruct (upload_handler_file_protocol OS.idle (Some "/"%string)
              (Server.NewUploadHandler "/srv/files")
              (OS.mkRequest "PUT" "/"
                 [("action", "upload"); ("path", "/video.bin")]%string
                 (OS.mkHeader None (Some (4194304, 8388607, 10485760)) "" "")
                 [Byte.x01; Byte.x02] 2) (tt, []))
    as (_ & _ & _ & Htrace).
  destruct (Htrace _ _ _ ltac:(vm_compute; reflexivity) eq_refl)
    as (cleanPath & file & rest & Hsafe & Htr & _).
  reflexivity.
Defined.


(** ** Path safety of the server *)

Section CleanFacts.
Import GoPath.
Local Open Scope string_scope.

Lemma Split_nonempty sep s : Split sep s <> [].
Proof.
  destruct s as [|c s]; simpl; [discriminate|].
  destruct (Ascii.eqb c sep); [discriminate|].
  destruct (Split sep s); discriminate.
Qed.

Lemma Split_plain s : Forall plain (Split "/" s).
Proof.
  induction s as [|c s IH]; simpl.
  - constructor; [reflexivity|constructor].
  - destruct (Ascii.eqb c "/") eqn:Hc.
    + constructor; [reflexivity | exact IH].
    + destruct (Split "/" s) as [|x xs] eqn:Hs.
      * now destruct (Split_nonempty "/" s).
      * inversion IH as [|? ? Hx Hxs]; subst. constructor; [|exact Hxs].
        unfold plain in *. simpl. rewrite Hc, Hx. reflexivity.
Qed.

Lemma Split_plain_app e s :
  plain e -> Split "/" (e ++ "/" ++ s) = e :: Split "/" s.
Proof.
  unfold plain. revert s. induction e as [|c e IH]; intros s He; simpl.
  - reflexivity.
  - simpl in He. destruct (Ascii.eqb c "/") eqn:Hc; [discriminate|].
    destruct (Split "/" e) as [|x xs] eqn:Hs.
    + now destruct (Split_nonempty "/" e).
    + injection He as -> ->. rewrite (IH s eq_refl). reflexivity.
Qed.

Lemma Split_Join l :
  Forall plain l -> l <> [] -> Split "/" (Join l "/") = l.
Proof.
  induction l as [|e l IH]; intros Hl Hne; [contradiction|].
  inversion Hl as [|? ? He Hl']; subst.
  destruct l as [|e' l].
  - simpl. exact He.
  - change (Join (e :: e' :: l) "/") with (e ++ "/" ++ Join (e' :: l) "/").
    rewrite Split_plain_app by exact He. f_equal. apply IH; [exact Hl'|discriminate].
Qed.

Lemma cleanElem_kept out elem :
  Forall kept out -> plain elem -> Forall kept (cleanElem true out elem).
Proof.
  intros Hout He. unfold cleanElem.
  destruct (String.eqb_spec elem ""); simpl; [exact Hout|].
  destruct (String.eqb_spec elem "."); simpl; [exact Hout|].
  destruct (String.eqb_spec elem "..").
  - destruct out as [|top rest]; [constructor|].
    inversion Hout as [|? ? Ht Hr]; subst.
    destruct (String.eqb_spec top ".."); [|exact Hr].
    destruct Ht as (_ & _ & _ & Hd). contradiction.
  - constructor; [|exact Hout]. repeat split; assumption.
Qed.

Lemma fold_cleanElem_kept l out :
  Forall plain l -> Forall kept out ->
  Forall kept (fold_left (cleanElem true) l out).
Proof.
  revert out. induction l as [|e l IH]; intros out Hl Hout; simpl;
    [exact Hout|].
  inversion Hl; subst. apply IH; [assumption|]. now apply cleanElem_kept.
Qed.

Lemma elements_kept l : Forall kept l -> elements ("/" ++ Join l "/") = l.
Proof.
  intros Hl. unfold elements.
  assert (Hf : forall l, Forall kept l ->
                filter (fun e : string => e <> "") l = l).
  { clear. induction l as [|e l IH]; intros Hl; [reflexivity|].
    inversion Hl as [|? ? (_ & Hne & _) Hl']; subst.
    rewrite filter_cons. destruct (decide (e <> "")); [|contradiction].
    f_equal. auto. }
  destruct l as [|e l].
  - reflexivity.
  - change ("/" ++ Join (e :: l) "/") with ("" ++ "/" ++ Join (e :: l) "/").
    rewrite Split_plain_app by reflexivity.
    rewrite Split_Join.
    + rewrite filter_cons. destruct (decide ("" <> "")); [contradiction|].
      now apply Hf.
    + eapply Forall_impl; [exact Hl|]. now intros ? [? _].
    + discriminate.
Qed.

(** Cleaning a request path against the root ["/"] leaves no [".."]. *)
Lemma Clean_rooted_elements p :
  exists l, Clean ("/" ++ p) = "/" ++ Join l "/" /\
            elements (Clean ("/" ++ p)) = l /\ Forall kept l.
Proof.
  assert (Habs : IsAbs ("/" ++ p) = true)
    by (unfold IsAbs, HasPrefix; simpl; now destruct p).
  unfold Clean. rewrite Habs.
  change (String.eqb ("/" ++ p) "") with false. cbv iota.
  set (out := fold_left (cleanElem true) (Split "/" ("/" ++ p)) []).
  assert (Hk : Forall kept (rev out)).
  { apply Forall_rev. apply fold_cleanElem_kept; [apply Split_plain|constructor]. }
  exists (rev out). split; [reflexivity|]. split; [|exact Hk].
  now apply elements_kept.
Qed.

End CleanFacts.

Section PathSafety.
Import OS Server.
Context {W : Type}.
Variable env : effect -> W -> outcome * W.
Variable wd : option string.
Variable encodeItems : list ListItem -> list byte.
Variable encodeStat : FileStatInfo -> list byte.
Variable sha256hex : list byte -> string.


Lemma isPathSafeIn_reject root requestPath full :
  isPathSafeIn wd root requestPath = (full, false) -> full = ""%string.
Proof.
  unfold isPathSafeIn.
  destruct (GoPath.Abs wd root) as [absRoot|]; [|now intros [= <-]].
  destruct (GoPath.Abs wd _) as [absPath|]; [|now intros [= <-]].
  destruct (_ && _); [now intros [= <-] | discriminate].
Qed.


Lemma confined_within root e :
  Forall (within wd root) (paths_of e) -> confined wd root e.
Proof. intros H. now left. Qed.

Lemma confined_nopath root e : paths_of e = [] -> confined wd root e.
Proof. intros H. left. rewrite H. constructor. Qed.

Lemma confined_dir root q perm :
  within wd root q -> confined wd root (MkdirAll (GoPath.Dir q) perm).
Proof. intros H. right. left. eauto. Qed.

Lemma confined_extract root q :
  within wd root q ->
  confined wd root (DecompressFromTarGz q (GoPath.Dir q)).
Proof. intros H. right. right. eauto. Qed.

Lemma extends_refl root tr : extends wd root tr tr.
Proof. exists []. rewrite app_nil_r. auto. Qed.

Lemma extends_snoc root tr tr' e :
  extends wd root tr tr' -> confined wd root e ->
  extends wd root tr (tr' ++ [e]).
Proof.
  intros (l & -> & Hl) He. exists (l ++ [e])%list.
  rewrite app_assoc. split; [reflexivity|].
  apply Forall_app. auto.
Qed.


Ltac confine :=
  first
    [ apply confined_within; simpl;
      repeat (apply List.Forall_cons; [assumption|]); apply List.Forall_nil
    | apply confined_dir; assumption
    | apply confined_extract; assumption ].

Ltac traced :=
  repeat first
    [ apply extends_refl
    | apply extends_snoc; [|confine] ].

Ltac walk :=
  repeat first
    [ match goal with
      | |- context [env ?e ?w0] =>
          let o := fresh "o" in
          let w' := fresh "w" in
          destruct (env e w0) as [o w']; simpl
      | |- context [match err ?o with _ => _ end] => destruct (err o); simpl
      | |- context [if ?b then _ else _] => destruct b; simpl
      end ].




(** None of the listed paths was rejected. *)
Ltac accepted :=
  let Hrej := fresh "Hrej" in
  intros Hrej; unfold isPathSafe in *;
  repeat (apply Exists_cons in Hrej as [Hrej|Hrej];
          [ match goal with
            | Hs : isPathSafeIn _ _ ?p = (_, true) |- _ =>
                rewrite Hs in Hrej; discriminate
            end | ]);
  inversion Hrej.

Ltac calls := split; [unfold bind, call, ret; simpl; walk; traced | accepted].











Local Arguments removeArchive : simpl never.






End PathSafety.

(* ===================================================================== *)
(** ** Downloads: integrity check and resume *)
(* ===================================================================== *)

Section DownloadFacts.
Import OS Client.
Context {W : Type}.
Variable env : effect -> W -> outcome * W.
Variable sha256hex : list byte -> string.

Lemma verifyChecksum_spec c remotePath localPath w tr o w1 f w2 d w3 x w4 :
  env (HttpDo (checksumRequest remotePath)) w = (o, w1) -> err o = None ->
  env (OpenFile localPath O_RDONLY 0) w1 = (f, w2) -> err f = None ->
  env (ReadAll (fd f)) w2 = (d, w3) -> err d = None ->
  env (Close (fd f)) w3 = (x, w4) ->
  verifyChecksum env sha256hex c remotePath localPath (w, tr)
  = (if String.eqb (string_of_list_byte (RespBody (resp o)))
                   (sha256hex (data d))
     then None else Some "checksum mismatch"%string,
     (w4, (tr ++ [HttpDo (checksumRequest remotePath);
                  OpenFile localPath O_RDONLY 0;
                  ReadAll (fd f); Close (fd f)])%list)).
Proof.
  intros Ho Hoe Hf Hfe Hd Hde Hx.
  unfold checksumRequest, fileRequest, O_RDONLY in *.
  unfold verifyChecksum, calcFileChecksum, fileRequest, O_RDONLY,
    bind, call, ret. simpl.
  rewrite Ho. simpl. rewrite Hoe. simpl. rewrite Hf. simpl.
  rewrite Hfe. simpl. rewrite Hd. simpl. rewrite Hx. simpl. rewrite Hde.
  rewrite <- !app_assoc. simpl.
  destruct (String.eqb _ _); reflexivity.
Qed.

Lemma verifyChecksum_nil c remotePath localPath st st' :
  verifyChecksum env sha256hex c remotePath localPath st = (None, st') ->
  verified env sha256hex remotePath localPath st.
Proof.
  destruct st as [w tr].
  unfold verifyChecksum, calcFileChecksum, bind, call, ret, verified,
    checksumRequest. simpl.
  destruct (env (HttpDo _) w) as [o w1] eqn:Ho. simpl.
  destruct (err o) eqn:Hoe; [discriminate|]. simpl.
  destruct (env (OpenFile _ _ _) w1) as [f w2] eqn:Hf. simpl.
  destruct (err f) eqn:Hfe; [discriminate|]. simpl.
  destruct (env (ReadAll _) w2) as [d w3] eqn:Hd. simpl.
  destruct (env (Close _) w3) as [x w4]. simpl.
  destruct (err d) eqn:Hde; [discriminate|]. simpl.
  destruct (String.eqb_spec (string_of_list_byte (RespBody (resp o)))
              (sha256hex (data d))) as [Heq|]; simpl; [|discriminate].
  intros _. exists o, w1, f, w2, d, w3. auto 10.
Qed.

Lemma firstError_nil results :
  firstError results = None -> Forall (fun r : Z * error => snd r = None) results.
Proof.
  induction results as [|[i [e|]] rest IH]; simpl; intros H;
    [constructor | discriminate | constructor; auto].
Qed.

Lemma mergeFrom_nil tempDir finalFile outFile i n st st' :
  mergeFrom env tempDir finalFile outFile i n st = (None, st') ->
  exists datas, length datas = n /\
    snd st' = (snd st ++ mergeTrace tempDir outFile i datas)%list.
Proof.
  revert i st. induction n as [|n IH]; intros i [w tr]; simpl.
  - intros [= <-]. exists []. simpl. now rewrite app_nil_r.
  - unfold bind, call, ret. simpl.
    destruct (env (ReadFile _) w) as [rd w1]. simpl.
    destruct (err rd); simpl.
    { destruct (env (Close _) w1); simpl. destruct (env (Remove _) _); simpl.
      discriminate. }
    destruct (env (Write _ _) w1) as [wr w2]. simpl.
    destruct (err wr); simpl.
    { destruct (env (Close _) w2); simpl. destruct (env (Remove _) _); simpl.
      discriminate. }
    intros H. apply IH in H as (datas & Hlen & Htr).
    exists (data rd :: datas). simpl. split; [now f_equal|].
    rewrite Htr. simpl. rewrite <- !app_assoc. reflexivity.
Qed.

Lemma workers_index (work : Chunks.Chunk -> IO (W := W) error) plan st
    results st' :
  workers work plan st = (results, st') ->
  map fst results = map Chunks.index plan.
Proof.
  revert st results st'.
  induction plan as [|ch plan IH]; intros st results st'; simpl.
  - intros [= <- _]. reflexivity.
  - unfold bind, ret. destruct (work ch st) as [e s1].
    destruct (workers work plan s1) as [es s2] eqn:Hw.
    intros [= <- _]. simpl. f_equal. eapply IH; eauto.
Qed.

Local Arguments workers : simpl never.
Local Arguments mergeFrom : simpl never.
Local Arguments verifyChecksum : simpl never.

Lemma mergeChunks_nil c tempDir finalFile numChunks st st' :
  mergeChunks env c tempDir finalFile numChunks st = (None, st') ->
  exists f datas, length datas = Z.to_nat numChunks /\
    snd st' = (snd st
               ++ OpenFile finalFile (Z.lor (Z.lor O_RDWR O_CREATE) O_TRUNC) 438
               :: mergeTrace tempDir f 0 datas ++ [Close f])%list.
Proof.
  destruct st as [w tr]. unfold mergeChunks, bind, call, ret, closeThen. simpl.
  destruct (env (OpenFile _ _ _) w) as [f w1]. simpl.
  destruct (err f); [discriminate|].
  destruct (mergeFrom _ _ _ _ _ _ _) as [res [w2 tr2]] eqn:Hm.
  unfold bind, call, ret. simpl.
  destruct (env (Close _) w2) as [x w3]. simpl.
  intros [= -> <-].
  apply mergeFrom_nil in Hm as (datas & Hlen & Htr). simpl in Htr.
  exists (fd f), datas. split; [exact Hlen|]. simpl. rewrite Htr.
  rewrite <- !app_assoc. reflexivity.
Qed.

(** A parallel download that returns nil has fetched every chunk, merged
    the chunk files by index and verified the result. *)
Lemma downloadFileParallel_nil c remotePath localPath fileSize st st' :
  downloadFileParallel env sha256hex c remotePath localPath fileSize st
  = (None, st') ->
  exists (results : list (Z * error)) (st0 st1 st2 : W * list effect)
         (f : nat) (datas : list (list byte)),
    Forall (fun r : Z * error => snd r = None) results /\
    map fst results = map Chunks.index (Chunks.downloadChunks fileSize) /\
    length datas
    = Z.to_nat (Chunks.numChunksFor fileSize
                  (Chunks.chunkSizeFor Chunks.maxWorkers fileSize)) /\
    snd st1
    = (snd st0
       ++ OpenFile localPath (Z.lor (Z.lor O_RDWR O_CREATE) O_TRUNC) 438
       :: mergeTrace
            (GoPath.Dir localPath ++ "/.tmp_" ++ GoPath.Base localPath)
            f 0 datas ++ [Close f])%list /\
    verifyChecksum env sha256hex c remotePath localPath st1 = (None, st2) /\
    verified env sha256hex remotePath localPath st1.
Proof.
  destruct st as [w tr].
  unfold downloadFileParallel, bind, call, ret. simpl.
  destruct (env (MkdirAll _ _) w) as [m w1]. simpl.
  destruct (err m); [discriminate|]. simpl.
  destruct (env (RemoveAll _) w1) as [x w2]. simpl.
  destruct (env (MkdirAll _ _) w2) as [t w3]. simpl.
  destruct (err t); [discriminate|]. simpl.
  destruct (workers _ _ _) as [results st0] eqn:Hw.
  destruct (firstError results) eqn:Hfe; simpl.
  { destruct (env (RemoveAll _) _); simpl. discriminate. }
  destruct (mergeChunks _ _ _ _ _ st0) as [mg st1] eqn:Hm.
  destruct mg; simpl.
  { destruct (env (RemoveAll _) _); simpl. discriminate. }
  destruct (verifyChecksum _ _ _ _ _ st1) as [res st2] eqn:Hv.
  destruct (env (RemoveAll _) _); simpl. intros [= -> <-].
  apply mergeChunks_nil in Hm as (f & datas & Hlen & Htr).
  exists results, st0, st1, st2, f, datas.
  split; [now apply firstError_nil|].
  split; [eapply workers_index; eauto|].
  split; [exact Hlen|]. split; [exact Htr|]. split; [exact Hv|].
  eapply verifyChecksum_nil; eauto.
Qed.

(** A single-stream download that returns nil either found the local file
    at or beyond the expected size, or wrote the body and verified it. *)
Lemma downloadFileSingle_nil c remotePath localPath st st' :
  downloadFileSingle env sha256hex c remotePath localPath st = (None, st') ->
  (exists sto w1 hd w2,
     env (Stat localPath) (fst st) = (sto, w1) /\
     env (HttpDo (fileRequest "HEAD" remotePath [] noHeader)) w1 = (hd, w2) /\
     RespContentLength (resp hd)
     <= match err sto with None => Size (info sto) | Some _ => 0 end /\
     st' = (w2, (snd st ++ [Stat localPath;
                            HttpDo (fileRequest "HEAD" remotePath []
                                      noHeader)])%list)) \/
  (exists st1 st2 : W * list effect,
     verifyChecksum env sha256hex c remotePath localPath st1 = (None, st2) /\
     verified env sha256hex remotePath localPath st1).
Proof.
  destruct st as [w tr].
  unfold downloadFileSingle, bind, call, ret, closeThen. simpl.
  destruct (env (Stat _) w) as [sto w1] eqn:Hs. simpl.
  destruct (env (HttpDo _) w1) as [hd w2] eqn:Hh. simpl.
  destruct (err hd); [discriminate|].
  set (startByte := match err sto with
                    | None => Size (info sto) | Some _ => 0 end).
  destruct (Z.geb_spec startByte (RespContentLength (resp hd))) as [Hge|Hlt].
  { intros [= <-]. left. exists sto, w1, hd, w2.
    rewrite <- !app_assoc. simpl. auto with zarith. }
  unfold bind, call, ret. simpl.
  destruct (env (MkdirAll _ _) w2) as [m w3]. simpl.
  destruct (err m); [discriminate|]. simpl.
  destruct (startByte >? 0)%Z; simpl;
    (destruct (env (OpenFile _ _ _) w3) as [f w4]; simpl;
     destruct (err f); [discriminate|]; simpl;
     destruct (env (HttpDo _) w4) as [o w5]; simpl;
     destruct (err o); simpl;
     [destruct (env (Close _) w5); simpl; discriminate|];
     destruct (_ && _); simpl;
     [destruct (env (Close _) w5); simpl; discriminate|]).
  - destruct (env (Seek _ _) w5) as [sk w6]. simpl.
    destruct (err sk); simpl;
      [destruct (env (Close _) w6); simpl; discriminate|].
    destruct (RespBody (resp o)) as [|b body]; unfold ret, call; simpl.
    + destruct (verifyChecksum _ _ _ _ _ _) as [res st2] eqn:Hv. simpl.
      destruct (env (Close _) _); simpl. intros [= -> _]. right.
      eexists _, _. split; [exact Hv|]. eapply verifyChecksum_nil; eauto.
    + destruct (env (Write _ _) w6) as [wr w7]. simpl.
      destruct (err wr); simpl;
        [destruct (env (Close _) w7); simpl; discriminate|].
      destruct (verifyChecksum _ _ _ _ _ _) as [res st2] eqn:Hv. simpl.
      destruct (env (Close _) _); simpl. intros [= -> _]. right.
      eexists _, _. split; [exact Hv|]. eapply verifyChecksum_nil; eauto.
  - destruct (RespBody (resp o)) as [|b body]; unfold ret, call; simpl.
    + destruct (verifyChecksum _ _ _ _ _ _) as [res st2] eqn:Hv. simpl.
      destruct (env (Close _) _); simpl. intros [= -> _]. right.
      eexists _, _. split; [exact Hv|]. eapply verifyChecksum_nil; eauto.
    + destruct (env (Write _ _) w5) as [wr w7]. simpl.
      destruct (err wr); simpl;
        [destruct (env (Close _) w7); simpl; discriminate|].
      destruct (verifyChecksum _ _ _ _ _ _) as [res st2] eqn:Hv. simpl.
      destruct (env (Close _) _); simpl. intros [= -> _]. right.
      eexists _, _. split; [exact Hv|]. eapply verifyChecksum_nil; eauto.
Qed.

Lemma firstError_all_nil results :
  Forall (fun r : Z * error => snd r = None) results ->
  firstError results = None.
Proof.
  induction 1 as [|[i e] rest He _ IH]; simpl in *; [reflexivity|].
  now subst e.
Qed.

(** Once every chunk is fetched and merged, the answer of a parallel
    download is the answer of the check. *)
Lemma downloadFileParallel_run c remotePath localPath fileSize w tr
    m w1 x w2 t w3 results st0 st1 res st2 :
  let tempDir :=
    (GoPath.Dir localPath ++ "/.tmp_" ++ GoPath.Base localPath)%string in
  env (MkdirAll (GoPath.Dir localPath) 493) w = (m, w1) -> err m = None ->
  env (RemoveAll tempDir) w1 = (x, w2) ->
  env (MkdirAll tempDir 493) w2 = (t, w3) -> err t = None ->
  workers (fun ch =>
             downloadChunkToFile env c remotePath
               (chunkFileName tempDir (Chunks.index ch))
               (Chunks.start ch) (Chunks.end_ ch))
          (Chunks.downloadChunks fileSize)
          (w3, (tr ++ [MkdirAll (GoPath.Dir localPath) 493;
                       RemoveAll tempDir; MkdirAll tempDir 493])%list)
  = (results, st0) ->
  Forall (fun r : Z * error => snd r = None) results ->
  mergeChunks env c tempDir localPath
    (Chunks.numChunksFor fileSize
       (Chunks.chunkSizeFor Chunks.maxWorkers fileSize)) st0 = (None, st1) ->
  verifyChecksum env sha256hex c remotePath localPath st1 = (res, st2) ->
  downloadFileParallel env sha256hex c remotePath localPath fileSize (w, tr)
  = (res, (snd (env (RemoveAll tempDir) (fst st2)),
           (snd st2 ++ [RemoveAll tempDir])%list)).
Proof.
  intros tempDir Hm Hme Hx Ht Hte Hw Hall Hmg Hv. subst tempDir.
  unfold downloadFileParallel, bind, call, ret. simpl.
  rewrite Hm. simpl. rewrite Hme. simpl. rewrite Hx. simpl. rewrite Ht.
  simpl. rewrite Hte. rewrite <- !app_assoc. simpl. rewrite Hw.
  rewrite (firstError_all_nil _ Hall). rewrite Hmg. rewrite Hv.
  destruct st2 as [w5 tr5]. simpl. clear.
  destruct (env (RemoveAll _) w5). reflexivity.
Qed.

Lemma downloadFileSingle_run c remotePath localPath w tr
    sto w1 hd w2 m w3 f w4 o w5 sk w6 wr w7 res st2 :
  let startByte :=
    match err sto with None => Size (info sto) | Some _ => 0 end in
  env (Stat localPath) w = (sto, w1) ->
  env (HttpDo (fileRequest "HEAD" remotePath [] noHeader)) w1 = (hd, w2) ->
  err hd = None ->
  startByte < RespContentLength (resp hd) ->
  env (MkdirAll (GoPath.Dir localPath) 493) w2 = (m, w3) -> err m = None ->
  env (OpenFile localPath (singleFlag startByte) 420) w3 = (f, w4) ->
  err f = None ->
  env (HttpDo (fileRequest "GET" remotePath [] (singleHeader startByte))) w4
  = (o, w5) ->
  err o = None ->
  StatusCode (resp o) = StatusOK
  \/ StatusCode (resp o) = StatusPartialContent ->
  (if (startByte >? 0)%Z then env (Seek (fd f) startByte) w5 else (ok, w5))
  = (sk, w6) ->
  err sk = None ->
  match RespBody (resp o) with
  | [] => (ok, w6)
  | body => env (Write (fd f) body) w6
  end = (wr, w7) ->
  err wr = None ->
  verifyChecksum env sha256hex c remotePath localPath
    (w7, (tr ++ singleTrace remotePath localPath startByte (fd f)
                  (RespBody (resp o)))%list) = (res, st2) ->
  downloadFileSingle env sha256hex c remotePath localPath (w, tr)
  = (res, (snd (env (Close (fd f)) (fst st2)),
           (snd st2 ++ [Close (fd f)])%list)).
Proof.
  intros startByte Hs Hh Hhe Hlt Hm Hme Hf Hfe Ho Hoe Hcode Hsk Hske Hwr
    Hwre Hv.
  unfold downloadFileSingle, bind, call, ret, closeThen. simpl.
  rewrite Hs. simpl. rewrite Hh. simpl. rewrite Hhe.
  fold startByte.
  destruct (Z.geb_spec startByte (RespContentLength (resp hd))); [lia|].
  unfold bind, call, ret. simpl. rewrite Hm. simpl. rewrite Hme.
  unfold singleTrace, singleFlag, singleHeader in *.
  assert (Hc : negb (StatusCode (resp o) =? StatusOK)
               && negb (StatusCode (resp o) =? StatusPartialContent)
               = false).
  { destruct Hcode as [-> | ->]; reflexivity. }
  destruct (startByte >? 0)%Z; simpl; simpl in Hf; rewrite Hf; simpl;
    rewrite Hfe; simpl; simpl in Ho; rewrite Ho; simpl; rewrite Hoe, Hc;
    simpl.
  - rewrite Hsk. simpl. rewrite Hske.
    destruct (RespBody (resp o)) as [|b body]; unfold call, ret; simpl.
    + injection Hwr as <- <-. simpl.
      rewrite <- !app_assoc in *. simpl in *. rewrite Hv.
      destruct st2 as [w8 tr8]. simpl.
      destruct (env (Close _) w8). reflexivity.
    + rewrite Hwr. simpl. rewrite Hwre.
      rewrite <- !app_assoc in *. simpl in *. rewrite Hv.
      destruct st2 as [w8 tr8]. simpl.
      destruct (env (Close _) w8). reflexivity.
  - injection Hsk as <- <-. simpl.
    destruct (RespBody (resp o)) as [|b body]; unfold call, ret; simpl.
    + injection Hwr as <- <-. simpl.
      rewrite <- !app_assoc in *. simpl in *. rewrite Hv.
      destruct st2 as [w8 tr8]. simpl.
      destruct (env (Close _) w8). reflexivity.
    + rewrite Hwr. simpl. rewrite Hwre.
      rewrite <- !app_assoc in *. simpl in *. rewrite Hv.
      destruct st2 as [w8 tr8]. simpl.
      destruct (env (Close _) w8). reflexivity.
Qed.

(** The local file is already as long as the remote one: nothing is
    fetched. *)
Lemma downloadFileSingle_complete c remotePath localPath w tr sto w1 hd w2 :
  env (Stat localPath) w = (sto, w1) ->
  env (HttpDo (fileRequest "HEAD" remotePath [] noHeader)) w1 = (hd, w2) ->
  err hd = None ->
  RespContentLength (resp hd)
  <= match err sto with None => Size (info sto) | Some _ => 0 end ->
  downloadFileSingle env sha256hex c remotePath localPath (w, tr)
  = (None, (w2, (tr ++ [Stat localPath;
                        HttpDo (fileRequest "HEAD" remotePath []
                                  noHeader)])%list)).
Proof.
  intros Hs Hh Hhe Hle.
  unfold downloadFileSingle, bind, call, ret. simpl.
  rewrite Hs. simpl. rewrite Hh. simpl. rewrite Hhe.
  destruct (Z.geb_spec
              (match err sto with None => Size (info sto) | Some _ => 0 end)
              (RespContentLength (resp hd))); [|lia].
  rewrite <- !app_assoc. reflexivity.
Qed.



(** C3: once the data of a download is transferred -- every chunk of a
    parallel download fetched and the chunk files merged by index, or the
    body of a single-stream download written -- the client requests the
    remote content hash, hashes the local file, and answers with the outcome
    of the comparison: when the two hashes differ the download fails with
    "checksum mismatch" although every transfer succeeded.  Conversely a
    download answers nil only after a check that passed (or, on the
    single-stream path, when the local file was already complete). *)
Theorem download_checksum_enforced c remotePath localPath :
  (* the check *)
  (forall w tr o w1 f w2 d w3 x w4,
     env (HttpDo (checksumRequest remotePath)) w = (o, w1) -> err o = None ->
     env (OpenFile localPath O_RDONLY 0) w1 = (f, w2) -> err f = None ->
     env (ReadAll (fd f)) w2 = (d, w3) -> err d = None ->
     env (Close (fd f)) w3 = (x, w4) ->
     verifyChecksum env sha256hex c remotePath localPath (w, tr)
     = (if String.eqb (string_of_list_byte (RespBody (resp o)))
                      (sha256hex (data d))
        then None else Some "checksum mismatch"%string,
        (w4, (tr ++ [HttpDo (checksumRequest remotePath);
                     OpenFile localPath O_RDONLY 0;
                     ReadAll (fd f); Close (fd f)])%list))) /\
  (* parallel download: every chunk fetched and merged, then the check *)
  (forall fileSize w tr m w1 x w2 t w3 results st0 st1 res st2,
     let tempDir :=
       (GoPath.Dir localPath ++ "/.tmp_" ++ GoPath.Base localPath)%string in
     env (MkdirAll (GoPath.Dir localPath) 493) w = (m, w1) -> err m = None ->
     env (RemoveAll tempDir) w1 = (x, w2) ->
     env (MkdirAll tempDir 493) w2 = (t, w3) -> err t = None ->
     workers (fun ch =>
                downloadChunkToFile env c remotePath
                  (chunkFileName tempDir (Chunks.index ch))
                  (Chunks.start ch) (Chunks.end_ ch))
             (Chunks.downloadChunks fileSize)
             (w3, (tr ++ [MkdirAll (GoPath.Dir localPath) 493;
                          RemoveAll tempDir; MkdirAll tempDir 493])%list)
     = (results, st0) ->
     Forall (fun r : Z * error => snd r = None) results ->
     mergeChunks env c tempDir localPath
       (Chunks.numChunksFor fileSize
          (Chunks.chunkSizeFor Chunks.maxWorkers fileSize)) st0
     = (None, st1) ->
     verifyChecksum env sha256hex c remotePath localPath st1 = (res, st2) ->
     downloadFileParallel env sha256hex c remotePath localPath fileSize
       (w, tr)
     = (res, (snd (env (RemoveAll tempDir) (fst st2)),
              (snd st2 ++ [RemoveAll tempDir])%list))) /\
  (forall fileSize st st',
     downloadFileParallel env sha256hex c remotePath localPath fileSize st
     = (None, st') ->
     exists (results : list (Z * error)) (st0 st1 st2 : W * list effect)
            (f : nat) (datas : list (list byte)),
       Forall (fun r : Z * error => snd r = None) results /\
       map fst results = map Chunks.index (Chunks.downloadChunks fileSize) /\
       length datas
       = Z.to_nat (Chunks.numChunksFor fileSize
                     (Chunks.chunkSizeFor Chunks.maxWorkers fileSize)) /\
       snd st1
       = (snd st0
          ++ OpenFile localPath (Z.lor (Z.lor O_RDWR O_CREATE) O_TRUNC) 438
          :: mergeTrace
               (GoPath.Dir localPath ++ "/.tmp_" ++ GoPath.Base localPath)
               f 0 datas ++ [Close f])%list /\
       verifyChecksum env sha256hex c remotePath localPath st1 = (None, st2)
       /\ verified env sha256hex remotePath localPath st1) /\
  (* single-stream download: the body written, then the check *)
  (forall w tr sto w1 hd w2 m w3 f w4 o w5 sk w6 wr w7 res st2,
     let startByte :=
       match err sto with None => Size (info sto) | Some _ => 0 end in
     env (Stat localPath) w = (sto, w1) ->
     env (HttpDo (fileRequest "HEAD" remotePath [] noHeader)) w1 = (hd, w2) ->
     err hd = None ->
     startByte < RespContentLength (resp hd) ->
     env (MkdirAll (GoPath.Dir localPath) 493) w2 = (m, w3) ->
     err m = None ->
     env (OpenFile localPath (singleFlag startByte) 420) w3 = (f, w4) ->
     err f = None ->
     env (HttpDo (fileRequest "GET" remotePath [] (singleHeader startByte)))
       w4 = (o, w5) ->
     err o = None ->
     StatusCode (resp o) = StatusOK
     \/ StatusCode (resp o) = StatusPartialContent ->
     (if (startByte >? 0)%Z then env (Seek (fd f) startByte) w5
      else (ok, w5)) = (sk, w6) ->
     err sk = None ->
     match RespBody (resp o) with
     | [] => (ok, w6)
     | body => env (Write (fd f) body) w6
     end = (wr, w7) ->
     err wr = None ->
     verifyChecksum env sha256hex c remotePath localPath
       (w7, (tr ++ singleTrace remotePath localPath startByte (fd f)
                     (RespBody (resp o)))%list) = (res, st2) ->
     downloadFileSingle env sha256hex c remotePath localPath (w, tr)
     = (res, (snd (env (Close (fd f)) (fst st2)),
              (snd st2 ++ [Close (fd f)])%list))) /\
  (forall st st',
     downloadFileSingle env sha256hex c remotePath localPath st
     = (None, st') ->
     (exists sto w1 hd w2,
        env (Stat localPath) (fst st) = (sto, w1) /\
        env (HttpDo (fileRequest "HEAD" remotePath [] noHeader)) w1
        = (hd, w2) /\
        RespContentLength (resp hd)
        <= match err sto with None => Size (info sto) | Some _ => 0 end /\
        st' = (w2, (snd st ++ [Stat localPath;
                               HttpDo (fileRequest "HEAD" remotePath []
                                         noHeader)])%list)) \/
     (exists st1 st2 : W * list effect,
        verifyChecksum env sha256hex c remotePath localPath st1 = (None, st2)
        /\ verified env sha256hex remotePath localPath st1)).
Proof.
  split; [|split; [|split; [|split]]].
  - intros. eapply verifyChecksum_spec; eauto.
  - intros. eapply downloadFileParallel_run; eauto.
  - intros. eapply downloadFileParallel_nil; eauto.
  - intros. eapply downloadFileSingle_run; eauto.
  - intros. eapply downloadFileSingle_nil; eauto.
Qed.

(** C5: on the single-stream path, when the local file is already as long
    as the remote file the download answers nil after the [Stat] and the
    [HEAD] request alone: no content is requested.  Otherwise it opens the
    local file, requests the content from the local size on ([Range:
    bytes=<size>-] when the size is positive, the whole content when it is
    0), seeks to that offset and writes the body there. *)
Theorem single_stream_resume c remotePath localPath :
  (forall w tr sto w1 hd w2,
     env (Stat localPath) w = (sto, w1) ->
     env (HttpDo (fileRequest "HEAD" remotePath [] noHeader)) w1 = (hd, w2) ->
     err hd = None ->
     RespContentLength (resp hd)
     <= match err sto with None => Size (info sto) | Some _ => 0 end ->
     downloadFileSingle env sha256hex c remotePath localPath (w, tr)
     = (None, (w2, (tr ++ [Stat localPath;
                           HttpDo (fileRequest "HEAD" remotePath []
                                     noHeader)])%list))) /\
  (forall w tr sto w1 hd w2 m w3 f w4 o w5 sk w6 wr w7 res st2,
     let startByte :=
       match err sto with None => Size (info sto) | Some _ => 0 end in
     env (Stat localPath) w = (sto, w1) ->
     env (HttpDo (fileRequest "HEAD" remotePath [] noHeader)) w1 = (hd, w2) ->
     err hd = None ->
     startByte < RespContentLength (resp hd) ->
     env (MkdirAll (GoPath.Dir localPath) 493) w2 = (m, w3) ->
     err m = None ->
     env (OpenFile localPath (singleFlag startByte) 420) w3 = (f, w4) ->
     err f = None ->
     env (HttpDo (fileRequest "GET" remotePath [] (singleHeader startByte)))
       w4 = (o, w5) ->
     err o = None ->
     StatusCode (resp o) = StatusOK
     \/ StatusCode (resp o) = StatusPartialContent ->
     (if (startByte >? 0)%Z then env (Seek (fd f) startByte) w5
      else (ok, w5)) = (sk, w6) ->
     err sk = None ->
     match RespBody (resp o) with
     | [] => (ok, w6)
     | body => env (Write (fd f) body) w6
     end = (wr, w7) ->
     err wr = None ->
     verifyChecksum env sha256hex c remotePath localPath
       (w7, (tr ++ singleTrace remotePath localPath startByte (fd f)
                     (RespBody (resp o)))%list) = (res, st2) ->
     downloadFileSingle env sha256hex c remotePath localPath (w, tr)
     = (res, (snd (env (Close (fd f)) (fst st2)),
              (snd st2 ++ [Close (fd f)])%list))) /\
  (forall size file b body,
     0 < size ->
     singleTrace remotePath localPath size file (b :: body)
     = [Stat localPath;
        HttpDo (fileRequest "HEAD" remotePath [] noHeader);
        MkdirAll (GoPath.Dir localPath) 493;
        OpenFile localPath O_RDWR 420;
        HttpDo (fileRequest "GET" remotePath []
                  (mkHeader (Some (size, None)) None "" ""));
        Seek file size;
        Write file (b :: body)]) /\
  (forall file b body,
     singleTrace remotePath localPath 0 file (b :: body)
     = [Stat localPath;
        HttpDo (fileRequest "HEAD" remotePath [] noHeader);
        MkdirAll (GoPath.Dir localPath) 493;
        OpenFile localPath (Z.lor (Z.lor O_CREATE O_WRONLY) O_TRUNC) 420;
        HttpDo (fileRequest "GET" remotePath [] noHeader);
        Write file (b :: body)]).
Proof.
  split; [|split; [|split]].
  - intros. eapply downloadFileSingle_complete; eauto.
  - intros. eapply downloadFileSingle_run; eauto.
  - intros size file b body Hs.
    unfold singleTrace, singleFlag, singleHeader.
    destruct (Z.gtb_spec size 0); [reflexivity | lia].
  - reflexivity.
Qed.

End DownloadFacts.
(** ** Pack transfer policy *)

Section PackPolicy.
Import OS Client.
Context {W : Type}.
Variable env : effect -> W -> outcome * W.
Variable sha256hex : list byte -> string.
Variable osTempDir : string.
Variable decodeStat : list byte -> option (Z * bool).

Lemma shouldCompressUpload_spec config info :
  shouldCompressUpload config info
  = IsDir info || (ThresholdBytes config <=? Size info).
Proof.
  unfold shouldCompressUpload. rewrite Z.geb_leb.
  destruct (IsDir info), (ThresholdBytes config <=? Size info); reflexivity.
Qed.

Lemma shouldCompressDownload_spec config size isDir :
  shouldCompressDownload config size isDir
  = Enabled config && (isDir || (ThresholdBytes config <=? size)).
Proof.
  unfold shouldCompressDownload. rewrite Z.geb_leb.
  destruct (Enabled config), isDir, (ThresholdBytes config <=? size);
    reflexivity.
Qed.

(** The archive is made before anything is sent: the compressed branch
    starts by naming and writing the archive, and every request it sends
    afterwards is the upload of that archive, flagged for extraction. *)
Lemma uploadCompressed_trace c localPath remotePath (st : W * list effect) :
  exists tempFile rest,
    snd (snd (uploadCompressed env osTempDir c localPath remotePath st))
    = (snd st ++ UnixNano :: CompressToTarGz localPath tempFile :: rest)%list
    /\
    forall req, HttpDo req ∈ rest ->
      Method req = "PUT"%string /\
      QueryGet (Query req) "path" = (remotePath ++ ".tar.gz")%string /\
      XAutoExtract (ReqHeader req) = "1"%string.
Proof.
  destruct st as [w tr]. unfold uploadCompressed, bind, call, ret. simpl.
  destruct (env UnixNano w) as [t w1]. simpl.
  destruct (env (CompressToTarGz _ _) w1) as [z w2] eqn:Ez. simpl.
  eexists.
  assert (Hclose : forall tr' : list effect,
    (exists rest,
       tr' = (tr ++ UnixNano :: CompressToTarGz localPath
                (GoPath.filepath_Join
                   [osTempDir;
                    ("pack_upload_" ++ pretty (nano t) ++ ".tar.gz")%string])
                :: rest)%list /\
       forall req, HttpDo req ∈ rest ->
         req = mkRequest "PUT" "/"
                 [("action"%string, "upload"%string);
                  ("path"%string, (remotePath ++ ".tar.gz")%string)]
                 (mkHeader None None "1" "") (Body req) (ContentLength req)) ->
    exists rest,
      tr' = (tr ++ UnixNano :: CompressToTarGz localPath
               (GoPath.filepath_Join
                  [osTempDir;
                   ("pack_upload_" ++ pretty (nano t) ++ ".tar.gz")%string])
               :: rest)%list /\
      forall req, HttpDo req ∈ rest ->
        Method req = "PUT"%string /\
        QueryGet (Query req) "path" = (remotePath ++ ".tar.gz")%string /\
        XAutoExtract (ReqHeader req) = "1"%string).
  { intros tr' (rest & -> & Hreq). exists rest. split; [reflexivity|].
    intros req Hin. rewrite (Hreq req Hin). simpl. auto. }
  repeat first
    [ match goal with
      | |- context [env ?e ?w0] =>
          let o := fresh "o" in
          let w' := fresh "w" in
          destruct (env e w0) as [o w']; simpl
      | |- context [match err ?o with _ => _ end] => destruct (err o); simpl
      | |- context [if ?b then _ else _] => destruct b; simpl
      end ];
    apply Hclose; eexists; rewrite <- ?app_assoc; simpl;
    (split; [reflexivity|]); intros req Hin;
    repeat (apply elem_of_cons in Hin as [Hin|Hin]; [try discriminate|]);
    try (inversion Hin; fail);
    injection Hin as ->; reflexivity.
Qed.

(** The compressed branch of a download, call by call. *)
Lemma downloadCompressed_steps c remotePath localPath isDir
    (st : W * list effect) :
  let run := downloadCompressed env sha256hex osTempDir c remotePath
               localPath isDir st in
  exists z st1,
    call env (HttpDo (packCompressRequest remotePath)) st = (z, st1) /\
    match err z with
    | Some e =>
        run = (Some ("request compression: " ++ ErrorString e)%string, st1)
    | None =>
        if negb (StatusCode (resp z) =? StatusOK)
        then run = DownloadFile env sha256hex c remotePath localPath st1
        else
          exists t st2,
            call env UnixNano st1 = (t, st2) /\
            let tempTarGz :=
              GoPath.filepath_Join
                [osTempDir;
                 ("pack_download_" ++ pretty (nano t) ++ ".tar.gz")%string] in
            exists d st3,
              DownloadFile env sha256hex c (remotePath ++ ".tar.gz")
                tempTarGz st2 = (d, st3) /\
              match d with
              | Some e =>
                  run = (Some ("download compressed file: " ++ e)%string, st3)
              | None =>
                  exists x st4,
                    call env (DecompressFromTarGz tempTarGz
                                (extractDestOf remotePath localPath isDir))
                      st3 = (x, st4) /\
                    match err x with
                    | Some e =>
                        run = (Some ("extract downloaded file: "
                                       ++ ErrorString e)%string, st4)
                    | None =>
                        fst run = None /\
                        snd (snd run)
                        = (snd st4
                           ++ [Remove tempTarGz;
                               HttpDo (packDeleteRequest remotePath)])%list
                    end
              end
    end.
Proof.
  intros run.
  assert (Hrun : run = downloadCompressed env sha256hex osTempDir c remotePath
                         localPath isDir st) by reflexivity.
  clearbody run. unfold downloadCompressed in Hrun.
  change (HttpDo (actionRequest "POST" _ _ _))
    with (HttpDo (packCompressRequest remotePath)) in Hrun.
  fold (extractDestOf remotePath localPath isDir) in Hrun.
  unfold bind in Hrun.
  destruct (call env (HttpDo (packCompressRequest remotePath)) st)
    as [z st1].
  exists z, st1. split; [reflexivity|].
  destruct (err z); [exact Hrun|].
  destruct (negb (StatusCode (resp z) =? StatusOK)); [exact Hrun|].
  destruct (call env UnixNano st1) as [t st2].
  exists t, st2. split; [reflexivity|]. cbv zeta.
  destruct (DownloadFile env sha256hex c (remotePath ++ ".tar.gz") _ st2)
    as [d st3].
  exists d, st3. split; [reflexivity|].
  destruct d; [exact Hrun|].
  destruct (call env (DecompressFromTarGz _ _) st3) as [x st4].
  exists x, st4. split; [reflexivity|].
  destruct (err x); [exact Hrun|].
  unfold call, ret in Hrun. destruct st4 as [w4 tr4]. simpl in Hrun.
  destruct (env (Remove _) w4) as [o5 w5]. simpl in Hrun.
  destruct (env (HttpDo _) w5) as [o6 w6]. simpl in Hrun.
  subst run. split; [reflexivity|]. simpl. now rewrite <- app_assoc.
Qed.


(** C8 (as amended).  On upload, with pack transfer enabled a directory
    is always compressed before it is sent, whatever its size, and a file is
    compressed exactly when its size is at or above the threshold; with pack
    transfer disabled the source is transferred as it is.  The decision is
    taken once, from one stat of the top-level source: [UploadFilePacked] is
    that stat followed by either the compressed branch (one archive of the
    whole source, sent for extraction) or a plain [UploadFile].  On download
    the client asks the server once for the stat of the path; when that
    request fails, is not answered 200 or cannot be decoded, the path is
    downloaded as it is, whatever the configuration; otherwise the compressed
    branch is taken exactly when pack transfer is enabled and the answer says
    directory or a size at or above the threshold.  The compressed branch
    orders the archive from the server and, when that order is not answered
    200, falls back to the plain download of the path; only after a 200 does
    it download the archive, extract it, remove the local copy and ask the
    server to delete the archive. *)
Theorem pack_transfer_policy (c : Client) (localPath remotePath : string)
    (config : PackTransferConfig) :
  (forall info,
     shouldCompressUpload config info
     = IsDir info || (ThresholdBytes config <=? Size info)) /\
  (forall size isDir,
     shouldCompressDownload config size isDir
     = Enabled config && (isDir || (ThresholdBytes config <=? size))) /\
  (forall name mode mtime,
     shouldCompressUpload config
       (mkFileInfo name (ThresholdBytes config) false mode mtime) = true /\
     shouldCompressUpload config
       (mkFileInfo name (ThresholdBytes config - 1) false mode mtime) = false /\
     shouldCompressDownload config (ThresholdBytes config) false
     = Enabled config /\
     shouldCompressDownload config (ThresholdBytes config - 1) false = false) /\
  (forall st,
     Enabled config = false ->
     UploadFilePacked env osTempDir c localPath remotePath config st
     = UploadFile env c localPath remotePath st) /\
  (forall st,
     Enabled config = true ->
     UploadFilePacked env osTempDir c localPath remotePath config st
     = (let* s := call env (Stat localPath) in
        match err s with
        | Some e => ret (Some ("stat path: " ++ ErrorString e)%string)
        | None =>
            if IsDir (info s) || (ThresholdBytes config <=? Size (info s))
            then uploadCompressed env osTempDir c localPath remotePath
            else UploadFile env c localPath remotePath
        end) st) /\
  (forall st, exists tempFile rest,
     snd (snd (uploadCompressed env osTempDir c localPath remotePath st))
     = (snd st ++ UnixNano :: CompressToTarGz localPath tempFile :: rest)%list
     /\
     forall req, HttpDo req ∈ rest ->
       Method req = "PUT"%string /\
       QueryGet (Query req) "path" = (remotePath ++ ".tar.gz")%string /\
       XAutoExtract (ReqHeader req) = "1"%string) /\
  (forall st,
     IsConnected c = false ->
     DownloadFilePacked env sha256hex osTempDir decodeStat c remotePath
       localPath config st
     = (Some "not connected"%string, st)) /\
  (forall st,
     IsConnected c = true ->
     exists s st',
       call env (HttpDo (packStatRequest remotePath)) st = (s, st') /\
       DownloadFilePacked env sha256hex osTempDir decodeStat c remotePath
         localPath config st
       = match err s with
         | Some _ => DownloadFile env sha256hex c remotePath localPath st'
         | None =>
             if negb (StatusCode (resp s) =? StatusOK)
             then DownloadFile env sha256hex c remotePath localPath st'
             else
               match decodeStat (RespBody (resp s)) with
               | None => DownloadFile env sha256hex c remotePath localPath st'
               | Some (size, isDir) =>
                   if Enabled config
                      && (isDir || (ThresholdBytes config <=? size))
                   then downloadCompressed env sha256hex osTempDir c
                          remotePath localPath isDir st'
                   else DownloadFile env sha256hex c remotePath localPath st'
               end
         end) /\
  (forall isDir st,
     let run := downloadCompressed env sha256hex osTempDir c remotePath
                  localPath isDir st in
     exists z st1,
       call env (HttpDo (packCompressRequest remotePath)) st = (z, st1) /\
       match err z with
       | Some e =>
           run = (Some ("request compression: " ++ ErrorString e)%string, st1)
       | None =>
           if negb (StatusCode (resp z) =? StatusOK)
           then run = DownloadFile env sha256hex c remotePath localPath st1
           else
             exists t st2,
               call env UnixNano st1 = (t, st2) /\
               let tempTarGz :=
                 GoPath.filepath_Join
                   [osTempDir;
                    ("pack_download_" ++ pretty (nano t) ++ ".tar.gz")%string] in
               exists d st3,
                 DownloadFile env sha256hex c (remotePath ++ ".tar.gz")
                   tempTarGz st2 = (d, st3) /\
                 match d with
                 | Some e =>
                     run = (Some ("download compressed file: " ++ e)%string, st3)
                 | None =>
                     exists x st4,
                       call env (DecompressFromTarGz tempTarGz
                                   (extractDestOf remotePath localPath isDir))
                         st3 = (x, st4) /\
                       match err x with
                       | Some e =>
                           run = (Some ("extract downloaded file: "
                                          ++ ErrorString e)%string, st4)
                       | None =>
                           fst run = None /\
                           snd (snd run)
                           = (snd st4
                              ++ [Remove tempTarGz;
                                  HttpDo (packDeleteRequest remotePath)])%list
                       end
                 end
       end).
Proof.
  split; [intros; apply shouldCompressUpload_spec|].
  split; [intros; apply shouldCompressDownload_spec|].
  split.
  { intros name mode mtime.
    rewrite !shouldCompressUpload_spec, !shouldCompressDownload_spec. simpl.
    rewrite Z.leb_refl.
    destruct (Z.leb_spec (ThresholdBytes config) (ThresholdBytes config - 1));
      [lia|].
    destruct (Enabled config); auto. }
  split.
  { intros st He. unfold UploadFilePacked. now rewrite He. }
  split.
  { intros st He. unfold UploadFilePacked. rewrite He. simpl.
    unfold bind. destruct (call env (Stat localPath) st) as [s st1].
    destruct (err s); [reflexivity|].
    now rewrite shouldCompressUpload_spec. }
  split; [intros; apply uploadCompressed_trace|].
  split.
  { intros st Hc. unfold DownloadFilePacked. now rewrite Hc. }
  split.
  { intros st Hc. unfold DownloadFilePacked. rewrite Hc. simpl.
    change (HttpDo (actionRequest "GET" _ _ _))
      with (HttpDo (packStatRequest remotePath)).
    unfold bind.
    destruct (call env (HttpDo (packStatRequest remotePath)) st) as [s st'].
    exists s, st'. split; [reflexivity|].
    destruct (err s); [reflexivity|].
    destruct (negb (StatusCode (resp s) =? StatusOK)); [reflexivity|].
    destruct (decodeStat (RespBody (resp s))) as [[size isDir]|];
      [|reflexivity].
    rewrite shouldCompressDownload_spec.
    destruct (Enabled config && _); reflexivity. }
  intros isDir st. apply downloadCompressed_steps.
Qed.

End PackPolicy.

(** A directory is downloaded from a server that answers the order to
    compress with 200: the archive is downloaded, extracted and removed on
    both sides. *)
Lemma pack_transfer_policy_witness :
  let run := Client.DownloadFilePacked (PackExample.server 200)
               PackExample.hash "/tmp" PackExample.decodeStat
               PackExample.client "/photos" "/home/user/photos"
               PackExample.enabled (tt, []) in
  fst run = None /\
  exists calls,
    snd (snd run)
    = (OS.HttpDo (Client.packStatRequest "/photos")
       :: OS.HttpDo (Client.packCompressRequest "/photos")
       :: OS.UnixNano :: calls
       ++ [OS.DecompressFromTarGz "/tmp/pack_download_0.tar.gz" "/home/user";
           OS.Remove "/tmp/pack_download_0.tar.gz";
           OS.HttpDo (Client.packDeleteRequest "/photos")])%list.
Proof.
  cbv zeta.
  destruct (pack_transfer_policy (PackExample.server 200) PackExample.hash
              "/tmp" PackExample.decodeStat PackExample.client
              "/home/user/photos" "/photos" PackExample.enabled)
    as (_ & _ & _ & _ & _ & _ & _ & Hstat & Hsteps).
  destruct (Hstat (tt, []) eq_refl) as (s & st' & Es & Erun).
  vm_compute in Es. injection Es as <- <-.
  assert (Ebranch :
    Client.DownloadFilePacked (PackExample.server 200) PackExample.hash
      "/tmp" PackExample.decodeStat PackExample.client "/photos"
      "/home/user/photos" PackExample.enabled (tt, [])
    = Client.downloadCompressed (PackExample.server 200) PackExample.hash
        "/tmp" PackExample.client "/photos" "/home/user/photos" true
        (tt, [OS.HttpDo (Client.packStatRequest "/photos")]))
    by (rewrite Erun; reflexivity).
  rewrite Ebranch. clear Erun Ebranch.
  destruct (Hsteps true (tt, [OS.HttpDo (Client.packStatRequest "/photos")]))
    as (z & st1 & Ez & Hz).
  vm_compute in Ez. injection Ez as <- <-.
  cbn [OS.err OS.resp Loopback.okResp OS.StatusCode OS.respond negb Z.eqb
       OS.StatusOK Pos.eqb] in Hz.
  destruct Hz as (t & st2 & Et & d & st3 & Ed & Hd).
  vm_compute in Et. injection Et as <- <-.
  vm_compute in Ed. injection Ed as <- <-.
  destruct Hd as (x & st4 & Ex & Hx).
  vm_compute in Ex. injection Ex as <- <-.
  cbn [OS.err OS.ok] in Hx. destruct Hx as [Hres Htrace].
  split; [exact Hres|].
  rewrite Htrace.
  match goal with
  | |- exists c, ?t = @?r c =>
      let v := eval vm_compute in t in
      match v with
      | _ :: _ :: _ :: ?rest =>
          exists (List.firstn (length rest - 3) rest)
      end
  end.
  vm_compute. reflexivity.
Defined.

(** C8 (as stated) fails on download: with pack transfer enabled and a stat
    answer that says directory, a server that answers the order to compress
    with 500 makes the client download the path as it is.  No archive is
    asked for and nothing is extracted. *)
Lemma pack_download_fallback_counterexample :
  let run := Client.DownloadFilePacked (PackExample.server 500)
               PackExample.hash "/tmp" PackExample.decodeStat
               PackExample.client "/photos" "/home/user/photos"
               PackExample.enabled (tt, []) in
  Client.shouldCompressDownload PackExample.enabled 0 true = true /\
  run
  = Client.DownloadFile (PackExample.server 500) PackExample.hash
      PackExample.client "/photos" "/home/user/photos"
      (tt, [OS.HttpDo (Client.packStatRequest "/photos");
            OS.HttpDo (Client.packCompressRequest "/photos")]) /\
  fst run = None /\
  Forall (fun e => match e with
                   | OS.DecompressFromTarGz _ _ => False
                   | OS.HttpDo r => OS.URLPath r <> "/photos.tar.gz"%string
                   | _ => True
                   end) (snd (snd run)).
Proof.
  cbv zeta. split; [reflexivity|]. split; [vm_compute; reflexivity|].
  split; [vm_compute; reflexivity|].
  vm_compute. repeat constructor; discriminate.
Qed.
(** ** Task manager *)

Section FilterLength.
Context {A : Type} (f : A -> bool).

Lemma filter_length_snoc (l : list A) (x : A) :
  length (List.filter f (l ++ [x]))
  = (length (List.filter f l) + if f x then 1 else 0)%nat.
Proof.
  rewrite List.filter_app, length_app. simpl.
  destruct (f x); reflexivity.
Qed.

Lemma filter_length_insert (l : list A) (i : nat) (x y : A) :
  l !! i = Some x ->
  (length (List.filter f (<[i := y]> l)) + (if f x then 1 else 0)
   = length (List.filter f l) + (if f y then 1 else 0))%nat.
Proof.
  revert i. induction l as [|a l IH]; intros i Hi; [discriminate|].
  destruct i as [|i]; simpl in Hi.
  - injection Hi as ->. simpl. destruct (f x), (f y); simpl; lia.
  - simpl. specialize (IH i Hi). destruct (f a); simpl; lia.
Qed.

Lemma filter_length_mono (g : A -> bool) (l : list A) :
  (forall x, x ∈ l -> f x = true -> g x = true) ->
  (length (List.filter f l) <= length (List.filter g l))%nat.
Proof.
  induction l as [|a l IH]; intros Himp; [reflexivity|]. simpl.
  assert (Hl : forall x, x ∈ l -> f x = true -> g x = true)
    by (intros x Hx; apply Himp; now right).
  specialize (IH Hl).
  destruct (f a) eqn:Hf.
  - rewrite (Himp a) by (auto; left). simpl. lia.
  - destruct (g a); simpl; lia.
Qed.

End FilterLength.

Section TaskFacts.
Import OS Tasks.
Context {W : Type}.
Variable env : effect -> W -> outcome * W.
Variable sha256hex : list byte -> string.
Variable osTempDir : string.
Variable decodeStat : list byte -> option (Z * bool).
Variable pid : Z.

Abbreviation step := (Tasks.step env sha256hex osTempDir decodeStat pid).
Abbreviation reachable := (Tasks.reachable env sha256hex osTempDir decodeStat pid).

Lemma perform_mgr {A} (m : IO A) (s : State (W := W)) :
  mgr (snd (perform m s)) = mgr s /\ heap (snd (perform m s)) = heap s.
Proof.
  unfold perform. destruct (m (world s, log s)) as [a [w tr]]. split; reflexivity.
Qed.

Lemma perform_fst {A} (m : IO A) (s : State (W := W)) :
  fst (perform m s) = fst (m (world s, log s)).
Proof.
  unfold perform. destruct (m (world s, log s)) as [a [w tr]]. reflexivity.
Qed.

Lemma settle_status e res t st :
  let t' := fst (settle env e res t st) in
  Status t' = (if Canceled t then StatusCanceled
               else match res with
                    | Some _ => StatusFailed
                    | None => StatusCompleted
                    end).
Proof.
  unfold settle. destruct (Canceled t).
  - destruct e; unfold bind, call, ret; simpl;
      try destruct (env _ _); reflexivity.
  - destruct res; reflexivity.
Qed.

Lemma spawn_invariant cap t e (s : State (W := W)) :
  Status t = StatusPending ->
  invariant cap s -> invariant cap (spawn t e s).
Proof.
  intros Ht (Hm & Hs & Hc & Hg). unfold invariant, spawn, holders in *. simpl.
  split; [exact Hm|]. split.
  - rewrite filter_length_snoc. simpl. lia.
  - split; [exact Hc|]. intros p g Hp.
    apply lookup_app_Some in Hp as [Hp|[_ Hp]]; [now apply (Hg p)|].
    apply list_lookup_singleton_Some in Hp as [_ <-]. simpl.
    split; [congruence | auto].
Qed.

Lemma invariant_ext cap (s s' : State (W := W)) :
  maxParallel (mgr s') = maxParallel (mgr s) ->
  semaphore (mgr s') = semaphore (mgr s) ->
  heap s' = heap s -> invariant cap s -> invariant cap s'.
Proof.
  unfold invariant, holders. intros -> -> ->. auto.
Qed.

Lemma perform_invariant {A} cap (m : IO A) (s : State (W := W)) :
  invariant cap s -> invariant cap (snd (perform m s)).
Proof.
  destruct (perform_mgr m s) as [Hm Hh]. apply invariant_ext; now rewrite ?Hm.
Qed.

Lemma replace_invariant cap (s : State (W := W)) p g g' n :
  invariant cap s -> heap s !! p = Some g ->
  (n + (if holdsSlot (pc g) then 1 else 0)
   = semaphore (mgr s) + (if holdsSlot (pc g') then 1 else 0))%nat ->
  Z.of_nat n <= cap ->
  (Status (task g') = StatusRunning -> inFlight (pc g') = true) ->
  (pc g' = AtAcquire \/ pc g' = AtStart -> Status (task g') = StatusPending) ->
  invariant cap (update p g' (setSemaphore n s)).
Proof.
  intros (Hm & Hs & Hc & Hg) Hp Hn Hcap Hr Hq.
  unfold invariant, update, setHeap, setSemaphore, holders in *. simpl.
  split; [exact Hm|]. split; [|split; [exact Hcap|]].
  - pose proof (filter_length_insert
                  (fun g => holdsSlot (pc g)) (heap s) p g g' Hp) as Hf.
    lia.
  - intros q h Hq'.
    destruct (decide (p = q)) as [->|Hne].
    + rewrite list_lookup_insert_eq in Hq' by (eapply lookup_lt_Some; eauto).
      injection Hq' as <-. auto.
    + rewrite list_lookup_insert_ne in Hq' by exact Hne. now apply (Hg q).
Qed.

Lemma setSemaphore_same (s : State (W := W)) :
  setSemaphore (semaphore (mgr s)) s = s.
Proof. destruct s as [[] ? ? ?]. reflexivity. Qed.

Lemma step_invariant cap l (s s' : State (W := W)) :
  invariant cap s -> step l s = Some s' -> invariant cap s'.
Proof.
  intros Hinv Hstep. destruct l; simpl in Hstep.
  - injection Hstep as <-. unfold AddDownloadTask.
    destruct (perform _ s) as [id s1] eqn:E. simpl.
    apply spawn_invariant; [reflexivity|].
    change s1 with (snd (id, s1)). rewrite <- E. now apply perform_invariant.
  - injection Hstep as <-. unfold AddUploadTask.
    destruct (perform _ s) as [st s1] eqn:E.
    assert (invariant cap s1)
      by (change s1 with (snd (st, s1)); rewrite <- E;
          now apply perform_invariant).
    destruct (err st); simpl; [assumption|].
    destruct (perform _ s1) as [id s2] eqn:E2. simpl.
    apply spawn_invariant; [reflexivity|].
    change s2 with (snd (id, s2)). rewrite <- E2. now apply perform_invariant.
  - injection Hstep as <-. unfold AddUploadFolderTask.
    destruct (perform _ s) as [st s1] eqn:E.
    assert (invariant cap s1)
      by (change s1 with (snd (st, s1)); rewrite <- E;
          now apply perform_invariant).
    destruct (err st); simpl; [assumption|].
    destruct (perform _ s1) as [id s2] eqn:E2. simpl.
    apply spawn_invariant; [reflexivity|].
    change s2 with (snd (id, s2)). rewrite <- E2. now apply perform_invariant.
  - injection Hstep as <-. unfold AddCompressTask.
    destruct (perform _ s) as [id s1] eqn:E. simpl.
    apply spawn_invariant; [reflexivity|].
    change s1 with (snd (id, s1)). rewrite <- E. now apply perform_invariant.
  - injection Hstep as <-. unfold CancelTask.
    destruct (tasks (mgr s) !! taskID) as [p|]; [|exact Hinv].
    destruct (heap s !! p) as [g|] eqn:Hp; [|exact Hinv]. simpl.
    rewrite <- (setSemaphore_same s) at 1.
    pose proof Hinv as (Hm & Hs & Hc & Hg).
    apply (replace_invariant cap s p g); auto; simpl; try lia;
      apply (Hg p g Hp).
  - injection Hstep as <-. revert Hinv. apply invariant_ext; reflexivity.
  - injection Hstep as <-. revert Hinv. apply invariant_ext; reflexivity.
  - destruct (heap s !! p) as [[t e []]|] eqn:Hp; try discriminate.
    destruct (Z.ltb_spec (Z.of_nat (semaphore (mgr s))) (maxParallel (mgr s)));
      [|discriminate].
    injection Hstep as <-.
    pose proof Hinv as (Hm & _ & _ & Hg).
    apply (replace_invariant cap s p _ _ _ Hinv Hp); simpl; try lia.
    + intros Hr. destruct (Hg p _ Hp) as [_ Hx]. simpl in Hx.
      rewrite Hx in Hr by auto. discriminate.
    + intros _. apply (Hg p _ Hp). simpl. auto.
  - destruct (heap s !! p) as [[t e []]|] eqn:Hp; try discriminate.
    injection Hstep as <-.
    pose proof Hinv as (Hm & _ & Hc & Hg).
    rewrite <- (setSemaphore_same s) at 1.
    apply (replace_invariant cap s p _ _ _ Hinv Hp); simpl; try lia; auto.
    intros [?|?]; discriminate.
  - destruct (heap s !! p) as [[t e []]|] eqn:Hp; try discriminate.
    destruct (perform _ s) as [res s1] eqn:E. injection Hstep as <-.
    pose proof (perform_mgr (transfer env sha256hex osTempDir decodeStat
                               (mgr s) e t) s) as [Hm1 Hh1].
    rewrite E in Hm1, Hh1. simpl in Hm1, Hh1.
    assert (Hinv1 : invariant cap s1)
      by (revert Hinv; apply invariant_ext; now rewrite ?Hm1).
    pose proof Hinv as (Hm & _ & Hc & Hg).
    rewrite <- (setSemaphore_same s1) at 1.
    rewrite <- Hh1 in Hp.
    apply (replace_invariant cap s1 p _ _ _ Hinv1 Hp); simpl; try lia; auto.
    + rewrite Hm1. lia.
    + intros [?|?]; discriminate.
  - destruct (heap s !! p) as [[t e []]|] eqn:Hp; try discriminate.
    destruct (perform _ s) as [t' s1] eqn:E. injection Hstep as <-.
    pose proof (perform_mgr (settle env e res t) s) as [Hm1 Hh1].
    rewrite E in Hm1, Hh1. simpl in Hm1, Hh1.
    assert (Hinv1 : invariant cap s1)
      by (revert Hinv; apply invariant_ext; now rewrite ?Hm1).
    pose proof Hinv as (Hm & _ & Hc & Hg).
    rewrite <- (setSemaphore_same s1) at 1.
    rewrite <- Hh1 in Hp.
    apply (replace_invariant cap s1 p _ _ _ Hinv1 Hp); simpl; try lia; auto.
    + rewrite Hm1. lia.
    + intros Hr. exfalso.
      pose proof (settle_status e res t (world s, log s)) as Hst.
      rewrite <- perform_fst, E in Hst. simpl in Hst. rewrite Hst in Hr.
      destruct (Canceled t); [discriminate|]. destruct res; discriminate.
    + intros [?|?]; discriminate.
  - destruct (heap s !! p) as [[t e []]|] eqn:Hp; try discriminate.
    injection Hstep as <-.
    pose proof Hinv as (Hm & Hs & Hc & Hg).
    assert (1 <= semaphore (mgr s))%nat.
    { rewrite Hs. unfold holders.
      pose proof (filter_length_insert (fun g => holdsSlot (pc g))
                    (heap s) p _ (mkGoroutine t e Exited) Hp) as Hf.
      simpl in Hf. lia. }
    apply (replace_invariant cap s p _ _ _ Hinv Hp); simpl; try lia.
    + intros Hr. destruct (Hg p _ Hp) as [Hx _]. simpl in Hx. auto.
    + intros [?|?]; discriminate.
Qed.

Lemma reachable_invariant cap (s0 s : State (W := W)) :
  invariant cap s0 -> reachable s0 s -> invariant cap s.
Proof.
  intros H0 Hr. induction Hr as [|s l s' _ IH Hstep]; [exact H0|].
  eapply step_invariant; eauto.
Qed.

Lemma initial_invariant c mp cfg (w : W) :
  invariant (if mp <=? 0 then 3 else mp) (initial (NewManager c mp cfg) w).
Proof.
  unfold invariant, initial, NewManager, holders. simpl.
  split; [reflexivity|]. split; [reflexivity|]. split.
  - destruct (Z.leb_spec mp 0); lia.
  - intros p g Hp. discriminate.
Qed.

Lemma running_le_holders (s : State (W := W)) cap :
  invariant cap s -> (running s <= holders s)%nat.
Proof.
  intros (_ & _ & _ & Hg). unfold running, holders.
  apply filter_length_mono. intros g Hin Hr.
  apply list_elem_of_lookup in Hin as [p Hp].
  destruct (Hg p g Hp) as [Hf _].
  unfold isRunning in Hr.
  destruct (Status (task g)) eqn:Hs; try discriminate.
  specialize (Hf eq_refl). destruct (pc g); simpl in *; congruence.
Qed.

(** How a move changes the task object at [p]. *)
Lemma step_at l (s s' : State (W := W)) p g :
  step l s = Some s' -> heap s !! p = Some g ->
  exists g', heap s' !! p = Some g' /\ entry g' = entry g /\
    LocalPath (task g') = LocalPath (task g) /\
    (Canceled (task g) = true -> Canceled (task g') = true) /\
    (Status (task g') = Status (task g) /\
       (pc g' = pc g \/ l = Acquire p /\ pc g = AtAcquire /\ pc g' = AtStart
        \/ l = Transfer p /\ pc g = AtTransfer /\ inFlight (pc g') = true
        \/ l = Release p /\ pc g = AtRelease /\ pc g' = Exited)
     \/ l = Start p /\ pc g = AtStart /\ pc g' = AtTransfer /\
        Status (task g') = StatusRunning
     \/ l = Finish p /\ pc g' = AtRelease /\
        exists res, pc g = AtFinish res /\
          Status (task g') =
            (if Canceled (task g) then StatusCanceled
             else match res with
                  | Some _ => StatusFailed
                  | None => StatusCompleted
                  end)).
Proof.
  intros Hstep Hp.
  assert (Hsame : forall s1 : State (W := W), heap s1 = heap s ->
            exists g', heap s1 !! p = Some g' /\ entry g' = entry g /\
              LocalPath (task g') = LocalPath (task g) /\
              (Canceled (task g) = true -> Canceled (task g') = true) /\
              Status (task g') = Status (task g) /\ pc g' = pc g).
  { intros s1 ->. exists g. auto 10. }
  assert (Hgrow : forall (s1 : State (W := W)) t e, heap s1 = heap s ->
            exists g', heap (spawn t e s1) !! p = Some g' /\
              entry g' = entry g /\
              LocalPath (task g') = LocalPath (task g) /\
              (Canceled (task g) = true -> Canceled (task g') = true) /\
              Status (task g') = Status (task g) /\ pc g' = pc g).
  { intros s1 t e Hh. exists g. unfold spawn. simpl. rewrite Hh.
    rewrite lookup_app_l by (eapply lookup_lt_Some; eauto). auto 10. }
  assert (Hupd : forall (s1 : State (W := W)) q g1, heap s1 = heap s -> q <> p ->
            exists g', heap (update q g1 s1) !! p = Some g' /\
              entry g' = entry g /\
              LocalPath (task g') = LocalPath (task g) /\
              (Canceled (task g) = true -> Canceled (task g') = true) /\
              Status (task g') = Status (task g) /\ pc g' = pc g).
  { intros s1 q g1 Hh Hq. exists g. unfold update, setHeap. simpl.
    rewrite Hh, list_lookup_insert_ne by exact Hq. auto 10. }
  assert (Hlt : (p < length (heap s))%nat) by (eapply lookup_lt_Some; eauto).
  destruct l; simpl in Hstep.
  - injection Hstep as <-. unfold AddDownloadTask.
    destruct (perform _ s) as [id s1] eqn:E. simpl.
    destruct (Hgrow s1 (mkTask id TaskTypeDownload StatusPending None localPath
                          remotePath 0 false false) runDownloadTask)
      as (g' & ? & ? & ? & ? & ? & ?).
    { pose proof (perform_mgr (generateTaskID env pid) s) as [_ Hh].
      now rewrite E in Hh. }
    exists g'. auto 10.
  - injection Hstep as <-. unfold AddUploadTask.
    destruct (perform _ s) as [st s1] eqn:E.
    assert (Hh1 : heap s1 = heap s).
    { pose proof (perform_mgr (call env (Stat localPath)) s) as [_ Hh].
      now rewrite E in Hh. }
    destruct (err st); simpl.
    + destruct (Hsame s1 Hh1) as (g' & ? & ? & ? & ? & ? & ?).
      exists g'. auto 10.
    + destruct (perform _ s1) as [id s2] eqn:E2. simpl.
      destruct (Hgrow s2 (mkTask id TaskTypeUpload StatusPending None
                            localPath remotePath (Size (info st)) false false)
                  runUploadTask)
        as (g' & ? & ? & ? & ? & ? & ?).
      { pose proof (perform_mgr (generateTaskID env pid) s1) as [_ Hh].
        rewrite E2 in Hh. simpl in Hh. congruence. }
      exists g'. auto 10.
  - injection Hstep as <-. unfold AddUploadFolderTask.
    destruct (perform _ s) as [st s1] eqn:E.
    assert (Hh1 : heap s1 = heap s).
    { pose proof (perform_mgr (call env (WalkDir localPath)) s) as [_ Hh].
      now rewrite E in Hh. }
    destruct (err st); simpl.
    + destruct (Hsame s1 Hh1) as (g' & ? & ? & ? & ? & ? & ?).
      exists g'. auto 10.
    + destruct (perform _ s1) as [id s2] eqn:E2. cbn [fst].
      match goal with |- context [spawn ?t ?e s2] =>
        destruct (Hgrow s2 t e) as (g' & ? & ? & ? & ? & ? & ?) end.
      { pose proof (perform_mgr (generateTaskID env pid) s1) as [_ Hh].
        rewrite E2 in Hh. simpl in Hh. congruence. }
      exists g'. auto 10.
  - injection Hstep as <-. unfold AddCompressTask.
    destruct (perform _ s) as [id s1] eqn:E. cbn [fst].
    match goal with |- context [spawn ?t ?e s1] =>
      destruct (Hgrow s1 t e) as (g' & ? & ? & ? & ? & ? & ?) end.
    { pose proof (perform_mgr (generateTaskID env pid) s) as [_ Hh].
      now rewrite E in Hh. }
    exists g'. auto 10.
  - injection Hstep as <-. unfold CancelTask.
    destruct (tasks (mgr s) !! taskID) as [q|].
    2:{ simpl. destruct (Hsame s eq_refl) as (g' & ? & ? & ? & ? & ? & ?).
        exists g'. auto 10. }
    destruct (heap s !! q) as [gq|] eqn:Hq.
    2:{ simpl. destruct (Hsame s eq_refl) as (g' & ? & ? & ? & ? & ? & ?).
        exists g'. auto 10. }
    simpl. destruct (decide (q = p)) as [->|Hne].
    + rewrite Hp in Hq. injection Hq as <-.
      rewrite list_lookup_insert_eq by exact Hlt.
      eexists. split; [reflexivity|]. simpl. auto 10.
    + destruct (Hupd s q (mkGoroutine (storeCanceled (task gq)) (entry gq)
                            (pc gq)) eq_refl Hne)
        as (g' & ? & ? & ? & ? & ? & ?).
      exists g'. auto 10.
  - injection Hstep as <-.
    destruct (Hsame (RemoveTask taskID s) eq_refl)
      as (g' & ? & ? & ? & ? & ? & ?).
    exists g'. auto 10.
  - injection Hstep as <-.
    destruct (Hsame (SetPackTransferConfig config s) eq_refl)
      as (g' & ? & ? & ? & ? & ? & ?).
    exists g'. auto 10.
  - destruct (heap s !! p0) as [[t e []]|] eqn:Hq; try discriminate.
    destruct (Z.ltb_spec (Z.of_nat (semaphore (mgr s))) (maxParallel (mgr s)));
      [|discriminate].
    injection Hstep as <-. destruct (decide (p0 = p)) as [->|Hne].
    + rewrite Hp in Hq. injection Hq as ->. unfold update, setHeap. simpl.
      rewrite list_lookup_insert_eq by exact Hlt.
      eexists. split; [reflexivity|]. simpl. auto 12.
    + match goal with |- context [update p0 ?g1 ?s1] =>
        destruct (Hupd s1 p0 g1 eq_refl Hne) as (g' & ? & ? & ? & ? & ? & ?)
      end.
      exists g'. auto 10.
  - destruct (heap s !! p0) as [[t e []]|] eqn:Hq; try discriminate.
    injection Hstep as <-. destruct (decide (p0 = p)) as [->|Hne].
    + rewrite Hp in Hq. injection Hq as ->. unfold update, setHeap. simpl.
      rewrite list_lookup_insert_eq by exact Hlt.
      eexists. split; [reflexivity|]. simpl. auto 12.
    + match goal with |- context [update p0 ?g1 ?s1] =>
        destruct (Hupd s1 p0 g1 eq_refl Hne) as (g' & ? & ? & ? & ? & ? & ?)
      end.
      exists g'. auto 10.
  - destruct (heap s !! p0) as [[t e []]|] eqn:Hq; try discriminate.
    destruct (perform _ s) as [res s1] eqn:E. injection Hstep as <-.
    assert (Hh1 : heap s1 = heap s).
    { pose proof (perform_mgr (transfer env sha256hex osTempDir decodeStat
                                 (mgr s) e t) s) as [_ Hh].
      now rewrite E in Hh. }
    destruct (decide (p0 = p)) as [->|Hne].
    + rewrite Hp in Hq. injection Hq as ->. unfold update, setHeap. simpl.
      rewrite Hh1, list_lookup_insert_eq by exact Hlt.
      eexists. split; [reflexivity|]. simpl. auto 12.
    + match goal with |- context [update p0 ?g1 ?s1] =>
        destruct (Hupd s1 p0 g1 Hh1 Hne) as (g' & ? & ? & ? & ? & ? & ?)
      end.
      exists g'. auto 10.
  - destruct (heap s !! p0) as [[t e []]|] eqn:Hq; try discriminate.
    destruct (perform _ s) as [t' s1] eqn:E. injection Hstep as <-.
    assert (Hh1 : heap s1 = heap s).
    { pose proof (perform_mgr (settle env e res t) s) as [_ Hh].
      now rewrite E in Hh. }
    destruct (decide (p0 = p)) as [->|Hne].
    + rewrite Hp in Hq. injection Hq as ->. unfold update, setHeap. simpl.
      rewrite Hh1, list_lookup_insert_eq by exact Hlt.
      eexists. split; [reflexivity|]. simpl.
      pose proof (settle_status e res t (world s, log s)) as Hst.
      rewrite <- perform_fst, E in Hst. simpl in Hst.
      assert (Ht' : LocalPath t' = LocalPath t /\
                    (Canceled t = true -> Canceled t' = true)).
      { pose proof (perform_fst (settle env e res t) s) as Hf.
        rewrite E in Hf. simpl in Hf. rewrite Hf. unfold settle.
        destruct (Canceled t) eqn:Hc.
        - destruct e; unfold bind, call, ret; simpl;
            try destruct (env _ _); simpl; auto.
        - destruct res; simpl; split; auto; discriminate. }
      destruct Ht'. split; [reflexivity|]. split; [assumption|].
      split; [assumption|]. right. right. split; [reflexivity|].
      split; [reflexivity|]. exists res. auto.
    + match goal with |- context [update p0 ?g1 ?s1] =>
        destruct (Hupd s1 p0 g1 Hh1 Hne) as (g' & ? & ? & ? & ? & ? & ?)
      end.
      exists g'. auto 10.
  - destruct (heap s !! p0) as [[t e []]|] eqn:Hq; try discriminate.
    injection Hstep as <-. destruct (decide (p0 = p)) as [->|Hne].
    + rewrite Hp in Hq. injection Hq as ->. unfold update, setHeap. simpl.
      rewrite list_lookup_insert_eq by exact Hlt.
      eexists. split; [reflexivity|]. simpl. auto 12.
    + match goal with |- context [update p0 ?g1 ?s1] =>
        destruct (Hupd s1 p0 g1 eq_refl Hne) as (g' & ? & ? & ? & ? & ? & ?)
      end.
      exists g'. auto 10.
Qed.

(** The cancel flag, the entry and the local path of a task object are
    stable. *)
Lemma reachable_at (s s' : State (W := W)) p g :
  reachable s s' -> heap s !! p = Some g ->
  exists g', heap s' !! p = Some g' /\ entry g' = entry g /\
    LocalPath (task g') = LocalPath (task g) /\
    (Canceled (task g) = true -> Canceled (task g') = true).
Proof.
  intros Hr Hp. induction Hr as [|s1 l s2 _ IH Hstep].
  - exists g. auto.
  - destruct IH as (g1 & Hp1 & He1 & Hl1 & Hc1).
    destruct (step_at l s1 s2 p g1 Hstep Hp1) as (g2 & Hp2 & He2 & Hl2 & Hc2 & _).
    exists g2. split; [assumption|]. split; [congruence|].
    split; [congruence|]. auto.
Qed.

(** Once the final status is stored it stays. *)
Lemma settled_stays (s s' : State (W := W)) p g :
  reachable s s' -> heap s !! p = Some g ->
  pc g = AtRelease \/ pc g = Exited ->
  exists g', heap s' !! p = Some g' /\ Status (task g') = Status (task g) /\
    (pc g' = AtRelease \/ pc g' = Exited).
Proof.
  intros Hr Hp Hpc. induction Hr as [|s1 l s2 _ IH Hstep].
  - exists g. auto.
  - destruct IH as (g1 & Hp1 & Hs1 & Hpc1).
    destruct (step_at l s1 s2 p g1 Hstep Hp1)
      as (g2 & Hp2 & _ & _ & _ & Hcase).
    exists g2. split; [assumption|].
    destruct Hcase as [[Hst Hmv]|[(_ & Hx & _)|(_ & _ & res & Hx & _)]].
    + split; [congruence|].
      destruct Hmv as [Hmv|[(_ & Hx & _)|[(_ & Hx & _)|(_ & _ & Hx)]]].
      * rewrite Hmv. exact Hpc1.
      * destruct Hpc1; congruence.
      * destruct Hpc1; congruence.
      * now right.
    + destruct Hpc1; congruence.
    + destruct Hpc1; congruence.
Qed.

(** The calls made by the step that settles a canceled task. *)
Lemma finish_canceled_log (s s' : State (W := W)) p g :
  step (Finish p) s = Some s' -> heap s !! p = Some g ->
  Canceled (task g) = true ->
  (entry g = runDownloadTask ->
   log s' = (log s ++ [Remove (LocalPath (task g))])%list) /\
  (entry g <> runDownloadTask -> log s' = log s /\ world s' = world s).
Proof.
  intros Hstep Hp Hc. simpl in Hstep. rewrite Hp in Hstep.
  destruct g as [t e k]. simpl in *. destruct k; try discriminate.
  unfold perform, settle in Hstep. rewrite Hc in Hstep.
  destruct e; unfold bind, call, ret in Hstep; simpl in Hstep;
    try destruct (env _ _) as [o w'] eqn:E; simpl in Hstep;
    injection Hstep as <-; simpl; split; intros; try congruence; auto.
Qed.

Lemma steps_reachable ls (s s' : State (W := W)) :
  steps env sha256hex osTempDir decodeStat pid ls s = Some s' ->
  reachable s s'.
Proof.
  revert s'. induction ls as [|l ls IH] using rev_ind; intros s' H.
  - simpl in H. injection H as <-. constructor.
  - assert (Hsplit : exists s1,
              steps env sha256hex osTempDir decodeStat pid ls s = Some s1 /\
              step l s1 = Some s').
    { clear IH. revert s H. induction ls as [|a ls IH2]; intros s H; simpl in *.
      - destruct (step l s) as [s1|] eqn:E; [|discriminate].
        injection H as <-. eauto.
      - destruct (step a s) as [s1|]; [|discriminate]. now apply IH2. }
    destruct Hsplit as (s1 & H1 & H2).
    eapply reach_step; [apply IH; exact H1 | exact H2].
Qed.

(** C6: at every reachable state of the task manager at most [maxParallel]
    tasks (3 when constructed with [maxParallel <= 0]) are Running: the
    semaphore counts the goroutines that hold a slot and never exceeds the
    capacity, a Running task belongs to a goroutine that holds a slot, a task
    turns from Pending to Running only by the [Start] step of a goroutine that
    has acquired a slot, a goroutine waiting for a slot leaves its task
    Pending, and no slot is granted while the semaphore is full. *)
Theorem running_tasks_bounded (c : Client.Client) (mp : Z)
    (cfg : Client.PackTransferConfig) (w : W) (s : State (W := W)) :
  reachable (initial (NewManager c mp cfg) w) s ->
  let cap := if mp <=? 0 then 3 else mp in
  maxParallel (mgr s) = cap /\
  Z.of_nat (running s) <= cap /\
  (forall p g, heap s !! p = Some g -> Status (task g) = StatusRunning ->
     holdsSlot (pc g) = true) /\
  semaphore (mgr s) = holders s /\
  Z.of_nat (holders s) <= cap /\
  (forall p g, heap s !! p = Some g -> pc g = AtAcquire ->
     Status (task g) = StatusPending) /\
  (Z.of_nat (semaphore (mgr s)) = cap ->
   forall p, step (Acquire p) s = None) /\
  (forall l s' p g g',
     step l s = Some s' -> heap s !! p = Some g -> heap s' !! p = Some g' ->
     Status (task g) = StatusPending -> Status (task g') = StatusRunning ->
     l = Start p /\ pc g = AtStart /\ holdsSlot (pc g) = true).
Proof.
  intros Hr cap.
  pose proof (reachable_invariant cap _ _ (initial_invariant c mp cfg w) Hr)
    as Hinv.
  pose proof (running_le_holders s cap Hinv) as Hle.
  pose proof Hinv as (Hm & Hs & Hc & Hg).
  split; [exact Hm|]. split; [lia|]. split.
  { intros p g Hp Hrun. destruct (Hg p g Hp) as [Hf _].
    specialize (Hf Hrun). destruct (pc g); simpl in *; congruence. }
  split; [exact Hs|]. split; [lia|]. split.
  { intros p g Hp Hpc. destruct (Hg p g Hp) as [_ Hq]. auto. }
  split.
  { intros Hfull p. simpl.
    destruct (heap s !! p) as [[t e []]|]; try reflexivity.
    destruct (Z.ltb_spec (Z.of_nat (semaphore (mgr s))) (maxParallel (mgr s)));
      [lia | reflexivity]. }
  intros l s' p g g' Hstep Hp Hp' Hpend Hrun.
  destruct (step_at l s s' p g Hstep Hp) as (g2 & Hp2 & _ & _ & _ & Hcase).
  rewrite Hp' in Hp2. injection Hp2 as <-.
  destruct Hcase as [[Hst _]|[(Hl & Hpc & _)|(_ & _ & res & Hpc & Hst)]].
  - congruence.
  - rewrite Hpc. auto.
  - destruct (Hg p g Hp) as [_ Hq]. rewrite Hst in Hrun.
    destruct (Canceled (task g)); [discriminate|]. destruct res; discriminate.
Qed.

(** C7: [CancelTask] on an id that is not in the registry returns an error
    and changes nothing.  On a registered task it returns nil and only stores
    the cancel flag; whatever happens afterwards, when the goroutine of the
    task settles the result of its transfer the task becomes Canceled and
    stays so; for a download that step calls [os.Remove] on the local output
    path, for an upload (or compress) task it makes no call at all, so any
    partial output is left in place.  That step is always there to take: a
    goroutine that has started runs its transfer, and one whose transfer has
    returned settles the result. *)
Theorem cancel_task_semantics (s : State (W := W)) (id : string) :
  (tasks (mgr s) !! id = None ->
   CancelTask id s = (s, Some "task not found"%string)) /\
  (forall p g,
     tasks (mgr s) !! id = Some p -> heap s !! p = Some g ->
     exists s1,
       CancelTask id s = (s1, None) /\
       mgr s1 = mgr s /\ world s1 = world s /\ log s1 = log s /\
       heap s1
       = <[p := mkGoroutine (storeCanceled (task g)) (entry g) (pc g)]>
           (heap s) /\
       forall s2, reachable s1 s2 ->
       forall s3, step (Finish p) s2 = Some s3 ->
         exists g3,
           heap s3 !! p = Some g3 /\ Status (task g3) = StatusCanceled /\
           (entry g = runDownloadTask ->
            log s3 = (log s2 ++ [Remove (LocalPath (task g))])%list) /\
           (entry g <> runDownloadTask ->
            log s3 = log s2 /\ world s3 = world s2) /\
           forall s4, reachable s3 s4 ->
             exists g4, heap s4 !! p = Some g4 /\
                        Status (task g4) = StatusCanceled) /\
  (forall p g,
     heap s !! p = Some g ->
     (pc g = AtTransfer -> exists s', step (Transfer p) s = Some s') /\
     (forall res, pc g = AtFinish res ->
                  exists s', step (Finish p) s = Some s')).
Proof.
  split; [|split].
  - intros Hnone. unfold CancelTask. now rewrite Hnone.
  - intros p g Hid Hp. unfold CancelTask. rewrite Hid, Hp.
    eexists. split; [reflexivity|]. simpl.
    do 4 (split; [reflexivity|]).
    intros s2 Hr s3 Hfin.
    set (s1 := setHeap _ s) in Hr.
    assert (Hp1 : heap s1 !! p
                  = Some (mkGoroutine (storeCanceled (task g)) (entry g) (pc g))).
    { unfold s1, setHeap. simpl. apply list_lookup_insert_eq.
      eapply lookup_lt_Some; eauto. }
    destruct (reachable_at s1 s2 p _ Hr Hp1) as (g2 & Hp2 & He2 & Hl2 & Hc2).
    simpl in He2, Hl2, Hc2. specialize (Hc2 eq_refl).
    destruct (step_at (Finish p) s2 s3 p g2 Hfin Hp2)
      as (g3 & Hp3 & _ & _ & _ & Hcase).
    destruct (finish_canceled_log s2 s3 p g2 Hfin Hp2 Hc2) as [Hd Hu].
    rewrite He2, Hl2 in Hd. rewrite He2 in Hu.
    assert (Hfinal : Status (task g3) = StatusCanceled /\ pc g3 = AtRelease).
    { destruct Hcase as [[_ Hmv]|[(Hx & _)|(_ & Hpc & res & _ & Hst)]].
      - destruct Hmv as [Hmv|[(Hx & _)|[(Hx & _)|(Hx & _)]]];
          try discriminate.
        exfalso. simpl in Hfin. rewrite Hp2 in Hfin.
        destruct g2 as [t2 e2 k2]. destruct g3 as [t3 e3 k3]. simpl in *.
        destruct k2; try discriminate.
        destruct (perform _ s2) as [t' sx] eqn:E. injection Hfin as <-.
        unfold update, setHeap in Hp3. simpl in Hp3.
        pose proof (perform_mgr (settle env e2 res t2) s2) as [_ Hh].
        rewrite E in Hh. simpl in Hh.
        rewrite list_lookup_insert_eq in Hp3
          by (rewrite Hh; eapply lookup_lt_Some; eauto).
        injection Hp3 as _ _ <-. discriminate.
      - discriminate.
      - rewrite Hc2 in Hst. auto. }
    destruct Hfinal as [Hst3 Hpc3].
    exists g3. split; [exact Hp3|]. split; [exact Hst3|].
    split; [exact Hd|]. split; [exact Hu|].
    intros s4 Hr4.
    destruct (settled_stays s3 s4 p g3 Hr4 Hp3 (or_introl Hpc3))
      as (g4 & Hp4 & Hst4 & _).
    exists g4. split; [exact Hp4 | congruence].
  - intros p g Hp. simpl. rewrite Hp. destruct g as [t e k]. simpl.
    split.
    + intros ->. destruct (perform _ s). eauto.
    + intros res ->. destruct (perform _ s). eauto.
Qed.

End TaskFacts.

(** A manager of capacity one with two download tasks: the first one is
    admitted and runs, the second one cannot acquire a slot. *)
Lemma running_tasks_bounded_witness :
  let c := Client.mkClient "127.0.0.1:8080" "secret" true in
  let cfg := Client.DefaultPackTransferConfig in
  let s0 := Tasks.initial (Tasks.NewManager c 1 cfg) tt in
  let run := Tasks.steps OS.idle (fun _ => ""%string) "/tmp"
               (fun _ => None) 4242 in
  exists s,
    run [Tasks.DoAddDownload "/a" "a"; Tasks.DoAddDownload "/b" "b";
         Tasks.Acquire 0; Tasks.Start 0] s0 = Some s /\
    Tasks.running s = 1%nat /\
    Z.of_nat (Tasks.running s) <= 1 /\
    Tasks.step OS.idle (fun _ => ""%string) "/tmp" (fun _ => None) 4242
      (Tasks.Acquire 1) s = None.
Proof.
  cbv zeta. eexists. split; [vm_compute; reflexivity|].
  split; [vm_compute; reflexivity|].
  match goal with |- Z.of_nat (Tasks.running ?s) <= 1 /\ _ =>
    assert (Hr : Tasks.reachable OS.idle (fun _ => ""%string) "/tmp"
                   (fun _ => None) 4242
                   (Tasks.initial
                      (Tasks.NewManager
                         (Client.mkClient "127.0.0.1:8080" "secret" true) 1
                         Client.DefaultPackTransferConfig) tt) s)
      by (apply (steps_reachable OS.idle (fun _ => ""%string) "/tmp"
                   (fun _ => None) 4242
                   [Tasks.DoAddDownload "/a" "a"; Tasks.DoAddDownload "/b" "b";
                    Tasks.Acquire 0; Tasks.Start 0]);
          vm_compute; reflexivity)
  end.
  destruct (running_tasks_bounded OS.idle (fun _ => ""%string) "/tmp"
              (fun _ => None) 4242 _ _ _ _ _ Hr)
    as (_ & Hle & _ & _ & _ & _ & Hfull & _).
  split; [exact Hle|]. apply Hfull. vm_compute. reflexivity.
Defined.

(** One download task, canceled while it is running: its goroutine ends by
    storing Canceled and removing the local file ["a"]. *)
Lemma cancel_task_semantics_witness :
  let c := Client.mkClient "127.0.0.1:8080" "secret" true in
  let cfg := Client.DefaultPackTransferConfig in
  let s0 := Tasks.initial (Tasks.NewManager c 3 cfg) tt in
  let run := Tasks.steps OS.idle (fun _ => ""%string) "/tmp"
               (fun _ => None) 4242 in
  exists s s1 s2 s3 g,
    run [Tasks.DoAddDownload "/a" "a"; Tasks.Acquire 0; Tasks.Start 0] s0
    = Some s /\
    Tasks.tasks (Tasks.mgr s) !! "0-4242"%string = Some 0%nat /\
    Tasks.heap s !! 0%nat = Some g /\
    Tasks.Status (Tasks.task g) = Tasks.StatusRunning /\
    Tasks.entry g = Tasks.runDownloadTask /\
    Tasks.LocalPath (Tasks.task g) = "a"%string /\
    Tasks.CancelTask "0-4242" s = (s1, None) /\
    run [Tasks.Transfer 0] s1 = Some s2 /\
    Tasks.step OS.idle (fun _ => ""%string) "/tmp" (fun _ => None) 4242
      (Tasks.Finish 0) s2 = Some s3 /\
    exists g3,
      Tasks.heap s3 !! 0%nat = Some g3 /\
      Tasks.Status (Tasks.task g3) = Tasks.StatusCanceled /\
      Tasks.log s3 = (Tasks.log s2 ++ [OS.Remove "a"])%list.
Proof.
  cbv zeta.
  set (run := Tasks.steps OS.idle (fun _ => ""%string) "/tmp"
                (fun _ => None) 4242).
  set (s0 := Tasks.initial _ tt).
  let v := eval vm_compute in
    (run [Tasks.DoAddDownload "/a" "a"; Tasks.Acquire 0; Tasks.Start 0] s0) in
  match v with Some ?x => pose (s := x) end.
  let v := eval vm_compute in (Tasks.heap s !! 0%nat) in
  match v with Some ?x => pose (g := x) end.
  let v := eval vm_compute in (Tasks.CancelTask "0-4242" s) in
  match v with (?x, _) => pose (s1 := x) end.
  let v := eval vm_compute in (run [Tasks.Transfer 0] s1) in
  match v with Some ?x => pose (s2 := x) end.
  let v := eval vm_compute in (run [Tasks.Finish 0] s2) in
  match v with Some ?x => pose (s3 := x) end.
  assert (Hs : run [Tasks.DoAddDownload "/a" "a"; Tasks.Acquire 0;
                    Tasks.Start 0] s0 = Some s) by (vm_compute; reflexivity).
  assert (Hid : Tasks.tasks (Tasks.mgr s) !! "0-4242"%string = Some 0%nat)
    by (vm_compute; reflexivity).
  assert (Hg : Tasks.heap s !! 0%nat = Some g) by (vm_compute; reflexivity).
  assert (Hc : Tasks.CancelTask "0-4242" s = (s1, None))
    by (vm_compute; reflexivity).
  assert (H2 : run [Tasks.Transfer 0] s1 = Some s2)
    by (vm_compute; reflexivity).
  assert (H3 : Tasks.step OS.idle (fun _ => ""%string) "/tmp" (fun _ => None)
                 4242 (Tasks.Finish 0) s2 = Some s3)
    by (vm_compute; reflexivity).
  exists s, s1, s2, s3, g.
  do 3 (split; [assumption|]).
  do 3 (split; [reflexivity|]).
  do 3 (split; [assumption|]).
  destruct (cancel_task_semantics OS.idle (fun _ => ""%string) "/tmp"
              (fun _ => None) 4242 s "0-4242") as (_ & Hcancel & _).
  destruct (Hcancel 0%nat g Hid Hg) as (s1' & Hc' & _ & _ & _ & _ & Hlater).
  rewrite Hc in Hc'. injection Hc' as <-.
  destruct (Hlater s2 (steps_reachable _ _ _ _ _ _ _ _ H2) s3 H3)
    as (g3 & Hp3 & Hst3 & Hlog & _).
  exists g3. split; [exact Hp3|]. split; [exact Hst3|].
  exact (Hlog eq_refl).
Defined.

(** ** Key derivation *)

Section KeyDerivation.
Import OS.
Variable sha256 : list byte -> list byte.
Variable pbkdf2_Key :
  list byte -> list byte -> Z -> Z -> Crypto.Hash -> list byte.
(** [pbkdf2.Key] returns [keyLen] bytes. *)
Hypothesis pbkdf2_Key_length :
  forall password salt iter keyLen h,
    length (pbkdf2_Key password salt iter keyLen h) = Z.to_nat keyLen.

Lemma NewAESBlockCrypt_32 (k : list byte) :
  length k = 32%nat ->
  Crypto.NewAESBlockCrypt k = inl (Crypto.AESBlockCrypt k).
Proof. unfold Crypto.NewAESBlockCrypt. intros ->. reflexivity. Qed.

(** C10 (as amended): in the version of common/kcp.go that validates the
    key, derivation fails exactly on the empty passphrase, and a non-empty
    passphrase is hashed with SHA-256 (hex form), stretched by PBKDF2 with
    the salt "kcp-file-transfer", 4096 iterations, 32 bytes of output and
    HMAC-SHA-256, and the AES cipher is built from the result; in the version
    with a default key, derivation never fails: an empty passphrase stands
    for "your-secret-key", the passphrase is not hashed first and PBKDF2
    runs with HMAC-SHA-1 (same salt, iteration count and length).  Either
    way the cipher is a function of the passphrase alone. *)
Theorem key_derivation (key : string) :
  ((exists e, Crypto.GetBlockCrypt sha256 pbkdf2_Key key = inr e)
   <-> key = ""%string) /\
  (key <> ""%string ->
   Crypto.GetBlockCrypt sha256 pbkdf2_Key key
   = inl (Crypto.AESBlockCrypt
            (pbkdf2_Key (bytes (Crypto.hex (sha256 (bytes key))))
               (bytes "kcp-file-transfer") 4096 32 Crypto.SHA256))) /\
  CryptoDefaultKey.GetBlockCrypt pbkdf2_Key key
  = inl (Crypto.AESBlockCrypt
           (pbkdf2_Key
              (bytes (if String.eqb key "" then "your-secret-key"%string
                      else key))
              (bytes "kcp-file-transfer") 4096 32 Crypto.SHA1)) /\
  CryptoDefaultKey.GetBlockCrypt pbkdf2_Key ""
  = CryptoDefaultKey.GetBlockCrypt pbkdf2_Key "your-secret-key".
Proof.
  assert (Hok : key <> ""%string ->
    Crypto.GetBlockCrypt sha256 pbkdf2_Key key
    = inl (Crypto.AESBlockCrypt
             (pbkdf2_Key (bytes (Crypto.hex (sha256 (bytes key))))
                (bytes "kcp-file-transfer") 4096 32 Crypto.SHA256))).
  { intros Hne. unfold Crypto.GetBlockCrypt, Crypto.ValidateKey.
    destruct (String.eqb_spec key ""); [contradiction|].
    apply NewAESBlockCrypt_32. now rewrite pbkdf2_Key_length. }
  split; [split|split; [exact Hok|split]].
  - intros [e He]. destruct (String.eqb_spec key ""); [assumption|].
    rewrite Hok in He by assumption. discriminate.
  - intros ->. eexists. reflexivity.
  - unfold CryptoDefaultKey.GetBlockCrypt, CryptoDefaultKey.GetEffectiveKey.
    apply NewAESBlockCrypt_32. now rewrite pbkdf2_Key_length.
  - reflexivity.
Qed.

End KeyDerivation.

(** With stand-ins for the hash and for PBKDF2 (constant output of the
    requested length), on the passphrase "abc". *)
Lemma key_derivation_witness :
  let sha256 := fun _ : list Byte.byte => repeat Byte.x00 32 in
  let pbkdf2 :=
    fun (_ _ : list Byte.byte) (_ keyLen : Z) (_ : Crypto.Hash) =>
      repeat Byte.x00 (Z.to_nat keyLen) in
  (forall p s i n h, length (pbkdf2 p s i n h) = Z.to_nat n) /\
  Crypto.GetBlockCrypt sha256 pbkdf2 "abc"
  = inl (Crypto.AESBlockCrypt (repeat Byte.x00 32)) /\
  ((exists e, Crypto.GetBlockCrypt sha256 pbkdf2 "" = inr e)
   <-> ""%string = ""%string).
Proof.
  cbv zeta.
  assert (Hlen : forall (p s : list Byte.byte) (i n : Z) (h : Crypto.Hash),
             length (repeat Byte.x00 (Z.to_nat n)) = Z.to_nat n)
    by (intros; apply repeat_length).
  split; [exact Hlen|].
  split.
  - destruct (key_derivation (fun _ => repeat Byte.x00 32)
                (fun _ _ _ n _ => repeat Byte.x00 (Z.to_nat n)) Hlen "abc")
      as (_ & Hok & _).
    rewrite Hok by discriminate. reflexivity.
  - exact (proj1 (key_derivation (fun _ => repeat Byte.x00 32)
                    (fun _ _ _ n _ => repeat Byte.x00 (Z.to_nat n)) Hlen "")).
Defined.

(** C10 (as stated) fails on the version with a default key: the empty
    passphrase is accepted and yields the cipher of "your-secret-key", and
    PBKDF2 is asked for HMAC-SHA-1 on the unhashed passphrase. *)
Lemma default_key_counterexample :
  let pbkdf2 :=
    fun (password _ : list Byte.byte) (_ keyLen : Z) (h : Crypto.Hash) =>
      match h with
      | Crypto.SHA1 => firstn (Z.to_nat keyLen) (password ++ repeat Byte.x00 32)
      | Crypto.SHA256 => repeat Byte.xff (Z.to_nat keyLen)
      end in
  (forall p s i n h, 0 <= n <= 32 -> length (pbkdf2 p s i n h) = Z.to_nat n) /\
  CryptoDefaultKey.GetBlockCrypt pbkdf2 ""
  = inl (Crypto.AESBlockCrypt
           (OS.bytes "your-secret-key" ++ repeat Byte.x00 17)) /\
  CryptoDefaultKey.GetBlockCrypt pbkdf2 ""
  = CryptoDefaultKey.GetBlockCrypt pbkdf2 "your-secret-key".
Proof.
  cbv zeta. split.
  - intros p s i n h Hn. destruct h.
    + rewrite length_take, length_app, repeat_length. lia.
    + apply repeat_length.
  - split; reflexivity.
Qed.

(* ===================================================================== *)
(** ** Round trips over the loopback network *)
(* ===================================================================== *)

Section KernelFacts.
Import OS Loopback.

Implicit Types (F : gmap string (list byte)) (H : list handle).

Lemma lookup_last H (h : handle) : (H ++ [h]) !! length H = Some h.
Proof. apply list_lookup_middle. reflexivity. Qed.

Lemma insert_last H (h h' : handle) :
  <[length H := h']> (H ++ [h]) = H ++ [h'].
Proof.
  rewrite insert_app_r_alt by lia. now rewrite Nat.sub_diag.
Qed.

Lemma kernel_open_existing F H p flag perm d :
  F !! p = Some d -> has_flag flag O_TRUNC = false ->
  kernel (OpenFile p flag perm) (mkFS F H)
  = (okFd (length H), mkFS F (H ++ [mkHandle p 0 true])).
Proof. intros Hp Hf. unfold kernel. simpl. now rewrite Hp, Hf. Qed.

Lemma kernel_open_fresh F H p flag perm :
  has_flag flag O_CREATE = true -> has_flag flag O_TRUNC = true ->
  kernel (OpenFile p flag perm) (mkFS F H)
  = (okFd (length H), mkFS (<[p := []]> F) (H ++ [mkHandle p 0 true])).
Proof.
  intros Hc Ht. unfold kernel. simpl. rewrite Hc, Ht.
  now destruct (F !! p).
Qed.

Lemma kernel_fstat F H p off d :
  F !! p = Some d ->
  kernel (Fstat (length H)) (mkFS F (H ++ [mkHandle p off true]))
  = (okInfo (fileInfo p d), mkFS F (H ++ [mkHandle p off true])).
Proof.
  intros Hp. unfold kernel, withFile, withHandle. simpl.
  rewrite lookup_last. simpl. now rewrite Hp.
Qed.

Lemma kernel_sync F H p off :
  kernel (Sync (length H)) (mkFS F (H ++ [mkHandle p off true]))
  = (ok, mkFS F (H ++ [mkHandle p off true])).
Proof.
  unfold kernel, withHandle. simpl. now rewrite lookup_last.
Qed.

Lemma kernel_seek F H p off to :
  0 <= to ->
  kernel (Seek (length H) to) (mkFS F (H ++ [mkHandle p off true]))
  = (ok, mkFS F (H ++ [mkHandle p to true])).
Proof.
  intros Hto. unfold kernel, withHandle, setOff. simpl.
  rewrite lookup_last. simpl.
  destruct (Z.ltb_spec to 0); [lia|]. now rewrite insert_last.
Qed.

Lemma kernel_readall F H p off d :
  F !! p = Some d ->
  kernel (ReadAll (length H)) (mkFS F (H ++ [mkHandle p off true]))
  = (okData (readFrom d off),
     mkFS F (H ++ [mkHandle p (Z.max off (Z.of_nat (length d))) true])).
Proof.
  intros Hp. unfold kernel, withFile, withHandle, setOff. simpl.
  rewrite lookup_last. simpl. rewrite Hp. now rewrite insert_last.
Qed.

Lemma kernel_readn F H p off n d :
  F !! p = Some d ->
  kernel (ReadN (length H) n) (mkFS F (H ++ [mkHandle p off true]))
  = (okData (take (Z.to_nat n) (readFrom d off)),
     mkFS F (H ++ [mkHandle p
                     (off + Z.of_nat (length (take (Z.to_nat n)
                                                (readFrom d off))))
                     true])).
Proof.
  intros Hp. unfold kernel, withFile, withHandle, setOff. simpl.
  rewrite lookup_last. simpl. rewrite Hp. now rewrite insert_last.
Qed.

Lemma kernel_write F H p off d new :
  F !! p = Some d ->
  kernel (Write (length H) new) (mkFS F (H ++ [mkHandle p off true]))
  = (ok,
     mkFS (<[p := writeAt d off new]> F)
          (H ++ [mkHandle p (off + Z.of_nat (length new)) true])).
Proof.
  intros Hp. unfold kernel, withFile, withHandle, setOff. simpl.
  rewrite lookup_last. simpl. rewrite Hp. now rewrite insert_last.
Qed.

Lemma kernel_stat_absent F H p :
  F !! p = None -> kernel (Stat p) (mkFS F H) = (failed ErrNotExist, mkFS F H).
Proof. intros Hp. unfold kernel. simpl. now rewrite Hp. Qed.

Lemma kernel_stat_file F H p d :
  F !! p = Some d ->
  kernel (Stat p) (mkFS F H) = (okInfo (fileInfo p d), mkFS F H).
Proof. intros Hp. unfold kernel. simpl. now rewrite Hp. Qed.

Lemma kernel_mkdirall (s : FS) p perm : kernel (MkdirAll p perm) s = (ok, s).
Proof. reflexivity. Qed.

Lemma kernel_readfile F H p d :
  F !! p = Some d -> kernel (ReadFile p) (mkFS F H) = (okData d, mkFS F H).
Proof. intros Hp. unfold kernel. simpl. now rewrite Hp. Qed.

Lemma kernel_removeall F H p :
  kernel (RemoveAll p) (mkFS F H)
  = (ok, mkFS (filter (fun kv => under p kv.1 = false) F) H).
Proof. reflexivity. Qed.

Lemma kernel_close F H fd :
  exists o H', kernel (Close fd) (mkFS F H) = (o, mkFS F H').
Proof.
  unfold kernel, withHandle. simpl.
  destruct (H !! fd) as [h|]; [destruct (h_open h)|]; eauto.
Qed.

Lemma readFrom_0 (d : list byte) : readFrom d 0 = d.
Proof. reflexivity. Qed.

Lemma writeAt_empty (new : list byte) : writeAt [] 0 new = new.
Proof.
  unfold writeAt. simpl. rewrite drop_nil. now rewrite app_nil_r.
Qed.

Lemma readFrom_take_all (d : list byte) n :
  Z.of_nat (length d) <= n -> take (Z.to_nat n) (readFrom d 0) = d.
Proof. intros Hn. rewrite readFrom_0. apply take_ge. lia. Qed.

End KernelFacts.

Section LoopbackFacts.
Import OS Client Loopback.
Local Arguments kernel : simpl never.
Local Open Scope string_scope.

Variable wd : option string.
Variable rootDir : string.
Variable encodeItems : list Server.ListItem -> list byte.
Variable encodeStat : Server.FileStatInfo -> list byte.
Variable sha256hex : list byte -> string.
Variable HandleCopy : Server.FileHandler -> Request -> IO (W := FS) Response.

Let serve := serve wd rootDir encodeItems encodeStat sha256hex HandleCopy.

Variables remotePath full : string.
Hypothesis Hroot : String.eqb rootDir "" = false.
Hypothesis Hsafe : Server.isPathSafeIn wd rootDir remotePath = (full, true).
Hypothesis Habs : GoPath.HasPrefix remotePath "/" = true.
Hypothesis Hclean : Server.muxCleanPath remotePath = remotePath.
Hypothesis Hslash : GoPath.HasSuffix remotePath "/" = false.
Hypothesis Hindex : GoPath.HasSuffix remotePath "/index.html" = false.

Implicit Types (F : gmap string (list byte)) (H : list handle).

Lemma remotePath_nonempty : String.eqb remotePath "" = false.
Proof.
  clear -Habs. destruct remotePath; [discriminate Habs | reflexivity].
Qed.

Lemma remotePath_clean : GoPath.Clean remotePath = remotePath.
Proof.
  pose proof Hclean as Hc. unfold Server.muxCleanPath in Hc.
  rewrite remotePath_nonempty, Habs, Hslash in Hc. exact Hc.
Qed.

Lemma fileServer_name :
  GoPath.filepath_Join
    [rootDir; GoPath.FromSlash (GoPath.Clean ("/" ++ remotePath))] = full.
Proof.
  pose proof Hsafe as Hs. unfold Server.isPathSafeIn in Hs.
  destruct (GoPath.Abs wd rootDir); [|discriminate].
  destruct (GoPath.Abs wd _); [|discriminate].
  destruct (_ && _); [discriminate|]. now injection Hs.
Qed.

Lemma muxCleanPath_root : Server.muxCleanPath "/" = "/".
Proof. reflexivity. Qed.

Lemma serve_upload F H hdr body len :
  XAutoExtract hdr = "" ->
  match ContentRange hdr with Some (a, _, _) => a = 0%Z | None => True end ->
  exists H',
    serve (mkRequest "PUT" "/" [("action", "upload"); ("path", remotePath)]
             hdr body len) (mkFS F H)
    = (respond StatusOK (bytes "OK"), mkFS (<[full := body]> F) H').
Proof.
  intros Hx Hcr. unfold serve, Loopback.serve, Server.createMainHandler.
  simpl. unfold Server.HandleUpload. simpl.
  rewrite remotePath_nonempty. unfold Server.isPathSafe. simpl.
  rewrite Hsafe. unfold bind, call, ret. simpl.
  assert (Hs : (Server.startOffsetOf
                  (mkRequest "PUT" "/"
                     [("action", "upload"); ("path", remotePath)]
                     hdr body len) >? 0)%Z = false).
  { unfold Server.startOffsetOf. simpl.
    destruct (ContentRange hdr) as [[[a b] c]|]; [subst a|]; reflexivity. }
  rewrite Hs. simpl.
  rewrite kernel_open_fresh by reflexivity. simpl.
  rewrite (kernel_write _ _ _ _ []) by apply lookup_insert_eq. simpl.
  rewrite kernel_sync. simpl.
  rewrite (kernel_fstat _ _ _ _ (writeAt [] 0 body))
    by apply lookup_insert_eq.
  simpl. rewrite Hx. simpl. unfold Server.closing, bind, call, ret. simpl.
  edestruct kernel_close as (o & H' & ->). simpl.
  exists H'. rewrite writeAt_empty, insert_insert_eq. reflexivity.
Qed.

Ltac to_file_server :=
  unfold serve, Loopback.serve, Server.createMainHandler, fileRequest;
  simpl; rewrite Hclean, String.eqb_refl; simpl;
  unfold Server.FileServer; simpl;
  rewrite Habs, Hindex, Hslash, Hroot, remotePath_clean,
    fileServer_name;
  unfold bind, call, ret, Server.closing; simpl.

Lemma serve_head F H d :
  F !! full = Some d ->
  exists H',
    serve (fileRequest "HEAD" remotePath [] noHeader) (mkFS F H)
    = (mkResponse StatusOK (Z.of_nat (length d)) [], mkFS F H').
Proof.
  intros Hd. to_file_server.
  rewrite (kernel_open_existing _ _ _ _ _ d) by (assumption || reflexivity).
  simpl. rewrite (kernel_fstat _ _ _ _ d) by assumption. simpl.
  unfold bind, call, ret. simpl.
  edestruct kernel_close as (o & H' & ->). simpl. eauto.
Qed.

Lemma serve_get F H d :
  F !! full = Some d ->
  exists H',
    serve (fileRequest "GET" remotePath [] noHeader) (mkFS F H)
    = (mkResponse StatusOK (Z.of_nat (length d)) d, mkFS F H').
Proof.
  intros Hd. to_file_server.
  rewrite (kernel_open_existing _ _ _ _ _ d) by (assumption || reflexivity).
  simpl. rewrite (kernel_fstat _ _ _ _ d) by assumption. simpl.
  unfold bind, call, ret. simpl.
  rewrite (kernel_readall _ _ _ _ d) by assumption. simpl.
  edestruct kernel_close as (o & H' & ->). simpl. eauto.
Qed.

Lemma serve_get_range F H d a b :
  F !! full = Some d ->
  (0 <= a < Z.of_nat (length d))%Z ->
  match b with Some b => (a <= b)%Z | None => True end ->
  let last := match b with
              | Some b => Z.min b (Z.of_nat (length d) - 1)
              | None => (Z.of_nat (length d) - 1)%Z
              end in
  exists H',
    serve (fileRequest "GET" remotePath []
             (mkHeader (Some (a, b)) None "" "")) (mkFS F H)
    = (mkResponse StatusPartialContent (last - a + 1)
         (take (Z.to_nat (last - a + 1)) (readFrom d a)),
       mkFS F H').
Proof.
  intros Hd Ha Hb last. to_file_server.
  rewrite (kernel_open_existing _ _ _ _ _ d) by (assumption || reflexivity).
  simpl. rewrite (kernel_fstat _ _ _ _ d) by assumption. simpl.
  assert (Hok : ((a <? 0)%Z
                 || match b with Some b => (b <? a)%Z | None => false end
                 || (Z.of_nat (length d) <=? a)%Z) = false).
  { destruct b; repeat (apply orb_false_intro); lia. }
  rewrite Hok. unfold bind, call, ret. simpl.
  rewrite kernel_seek by lia. simpl.
  rewrite (kernel_readn _ _ _ _ _ d) by assumption. simpl.
  edestruct kernel_close as (o & H' & ->). simpl. eauto.
Qed.

Lemma serve_checksum F H d :
  F !! full = Some d ->
  exists H',
    serve (checksumRequest remotePath) (mkFS F H)
    = (respond StatusOK (bytes (sha256hex d)), mkFS F H').
Proof.
  intros Hd.
  unfold serve, Loopback.serve, Server.createMainHandler, checksumRequest,
    fileRequest.
  simpl. rewrite Hclean, String.eqb_refl. simpl.
  unfold Server.handleChecksum. simpl. rewrite Hsafe.
  unfold Server.getFileChecksum, bind, call, ret. simpl.
  rewrite (kernel_open_existing _ _ _ _ _ d) by (assumption || reflexivity).
  simpl. rewrite (kernel_readall _ _ _ _ d) by assumption. simpl.
  edestruct kernel_close as (o & H' & ->). simpl. eauto.
Qed.

Local Opaque Loopback.serve.
Let net := net wd rootDir encodeItems encodeStat sha256hex HandleCopy.

Variable c : Client.
Hypothesis Hconn : IsConnected c = true.

Implicit Types (G : gmap string (list byte)) (K : list handle).

Lemma uploadFileSingle_loop src F H G K tr data :
  F !! src = Some data ->
  exists H' K' tr',
    uploadFileSingle net c src remotePath
      (mkWorld (mkFS F H) (mkFS G K), tr)
    = (None, (mkWorld (mkFS F H') (mkFS (<[full := data]> G) K'), tr')).
Proof.
  intros Hsrc.
  unfold uploadFileSingle, bind, call, ret, closeThen, net. simpl.
  rewrite (kernel_open_existing _ _ _ _ _ data) by (assumption || reflexivity).
  simpl. rewrite (kernel_fstat _ _ _ _ data) by assumption. simpl.
  unfold bind, call, ret. simpl.
  rewrite (kernel_readall _ _ _ _ data) by assumption. simpl.
  rewrite readFrom_0.
  edestruct (serve_upload G K noHeader data (Z.of_nat (length data)))
    as [K' E]; [reflexivity | exact I |].
  unfold serve in E. rewrite E. simpl.
  unfold bind, call, ret. simpl.
  edestruct kernel_close as (o & H' & ->). simpl. eauto.
Qed.

Lemma uploadChunk_loop src F H G K tr data idx :
  F !! src = Some data ->
  exists H' K' tr',
    uploadChunk net c src remotePath 0 (Z.of_nat (length data))
      (Z.of_nat (length data)) idx
      (mkWorld (mkFS F H) (mkFS G K), tr)
    = (None, (mkWorld (mkFS F H') (mkFS (<[full := data]> G) K'), tr')).
Proof.
  intros Hsrc.
  unfold uploadChunk, bind, call, ret, closeThen, net. simpl.
  rewrite (kernel_open_existing _ _ _ _ _ data) by (assumption || reflexivity).
  simpl. rewrite kernel_seek by lia. simpl.
  unfold bind, call, ret. simpl.
  rewrite (kernel_readn _ _ _ _ _ data) by assumption. simpl.
  rewrite readFrom_take_all by lia.
  match goal with
  | |- context [Loopback.serve _ _ _ _ _ _ (mkRequest _ _ _ ?h ?b ?l) _] =>
      destruct (serve_upload G K h b l) as [K' E];
      [reflexivity | reflexivity |]
  end.
  unfold serve in E. rewrite E. simpl.
  unfold bind, call, ret. simpl.
  edestruct kernel_close as (o & H' & ->). simpl. eauto.
Qed.

Lemma plan_threshold n :
  n = Chunks.defaultChunkSize ->
  Chunks.uploadChunks n = [Chunks.mkChunk 0 0 n] /\
  Chunks.downloadChunks n = [Chunks.mkChunk 0 0 n] /\
  Chunks.numChunksFor n (Chunks.chunkSizeFor Chunks.maxWorkers n) = 1%Z.
Proof. intros ->. now vm_compute. Qed.

Lemma UploadFile_loop src F H G K tr data :
  F !! src = Some data ->
  (Z.of_nat (length data) <= Chunks.defaultChunkSize)%Z ->
  exists H' K' tr',
    UploadFile net c src remotePath (mkWorld (mkFS F H) (mkFS G K), tr)
    = (None, (mkWorld (mkFS F H') (mkFS (<[full := data]> G) K'), tr')).
Proof.
  intros Hsrc Hlen.
  unfold UploadFile. rewrite Hconn. simpl.
  unfold bind, call, ret, closeThen, net. simpl.
  rewrite (kernel_open_existing _ _ _ _ _ data) by (assumption || reflexivity).
  simpl. rewrite (kernel_fstat _ _ _ _ data) by assumption. simpl.
  unfold bind, call, ret. simpl.
  destruct (Z.ltb_spec (Z.of_nat (length data)) Chunks.defaultChunkSize)
    as [Hlt|Hge].
  - edestruct (uploadFileSingle_loop src F) as (H' & K' & tr' & E);
      [eassumption|].
    unfold net in E. rewrite E. simpl.
    edestruct kernel_close as (o & H'' & ->). simpl. eauto.
  - assert (Hn : Z.of_nat (length data) = Chunks.defaultChunkSize) by lia.
    unfold uploadFileParallel, bind, ret.
    destruct (plan_threshold _ Hn) as (-> & _ & _).
    simpl. unfold bind, ret.
    edestruct (uploadChunk_loop src F) as (H' & K' & tr' & E);
      [eassumption|].
    unfold net in E. rewrite E. simpl.
    edestruct kernel_close as (o & H'' & ->). simpl. eauto.
Qed.

Lemma hash_text (d : list byte) :
  String.eqb (string_of_list_byte (bytes (sha256hex d))) (sha256hex d) = true.
Proof.
  unfold bytes. rewrite string_of_list_byte_of_string. apply String.eqb_refl.
Qed.

Lemma verifyChecksum_loop dst F H G K tr data :
  F !! dst = Some data -> G !! full = Some data ->
  exists H' K' tr',
    verifyChecksum net sha256hex c remotePath dst
      (mkWorld (mkFS F H) (mkFS G K), tr)
    = (None, (mkWorld (mkFS F H') (mkFS G K'), tr')).
Proof.
  intros Hdst Hfull.
  unfold verifyChecksum, calcFileChecksum, bind, call, ret, net. simpl.
  edestruct (serve_checksum G K data) as [K' E]; [assumption|].
  unfold serve, checksumRequest in E. rewrite E. simpl.
  rewrite (kernel_open_existing _ _ _ _ _ data) by (assumption || reflexivity).
  simpl. rewrite (kernel_readall _ _ _ _ data) by assumption. simpl.
  edestruct kernel_close as (o & H' & ->). simpl.
  rewrite readFrom_0, hash_text. simpl. eauto.
Qed.

Lemma downloadFileSingle_loop dst F H G K tr data :
  F !! dst = None -> G !! full = Some data -> data <> [] ->
  exists H' K' tr',
    downloadFileSingle net sha256hex c remotePath dst
      (mkWorld (mkFS F H) (mkFS G K), tr)
    = (None, (mkWorld (mkFS (<[dst := data]> F) H') (mkFS G K'), tr')).
Proof.
  intros Hdst Hfull Hne.
  unfold downloadFileSingle, bind, call, ret, closeThen, net. simpl.
  rewrite kernel_stat_absent by assumption. simpl.
  edestruct (serve_head G K data) as [K1 E]; [assumption|].
  unfold serve in E. rewrite E. simpl. clear E.
  destruct (Z.geb_spec 0 (Z.of_nat (length data))) as [Hz|_].
  { destruct data; [congruence | simpl in Hz; lia]. }
  unfold bind, call, ret. simpl.
  rewrite kernel_open_fresh by reflexivity. simpl.
  edestruct (serve_get G K1 data) as [K2 E]; [assumption|].
  unfold serve in E. rewrite E. simpl. clear E.
  destruct data as [|b data]; [congruence|].
  unfold bind, call, ret. simpl.
  rewrite (kernel_write _ _ _ _ []) by apply lookup_insert_eq. simpl.
  rewrite writeAt_empty, insert_insert_eq.
  edestruct (verifyChecksum_loop dst (<[dst := b :: data]> F)) as
    (H' & K' & tr' & E); [apply lookup_insert_eq | eassumption |].
  unfold net in E. rewrite E. simpl.
  edestruct kernel_close as (o & H'' & ->). simpl. eauto.
Qed.

Lemma prefix_app (p q r : string) :
  String.prefix q r = true -> String.prefix (p ++ q) (p ++ r) = true.
Proof.
  intros Hq. induction p as [|a p IH]; simpl; [exact Hq|].
  destruct (ascii_dec a a); [exact IH | congruence].
Qed.

Lemma under_chunk tempDir i : under tempDir (chunkFileName tempDir i) = true.
Proof.
  unfold under, chunkFileName, GoPath.HasPrefix.
  rewrite prefix_app; [apply orb_true_r | reflexivity].
Qed.

Lemma downloadChunkToFile_loop chunk F H G K tr data :
  G !! full = Some data -> data <> [] ->
  exists H' K' tr',
    downloadChunkToFile net c remotePath chunk 0 (Z.of_nat (length data))
      (mkWorld (mkFS F H) (mkFS G K), tr)
    = (None, (mkWorld (mkFS (<[chunk := data]> F) H') (mkFS G K'), tr')).
Proof.
  intros Hfull Hne.
  assert (0 < Z.of_nat (length data))%Z
    by (destruct data; [congruence | simpl; lia]).
  unfold downloadChunkToFile, bind, call, ret, closeThen, net. simpl.
  destruct (serve_get_range G K data 0 (Some (Z.of_nat (length data) - 1)%Z))
    as [K' E]; [assumption | lia | lia |].
  unfold serve in E. rewrite E. clear E. simpl.
  rewrite kernel_open_fresh by reflexivity. simpl.
  replace (Z.min (Z.of_nat (length data) - 1) (Z.of_nat (length data) - 1)
           - 0 + 1)%Z with (Z.of_nat (length data)) by lia.
  rewrite readFrom_take_all by lia.
  destruct data as [|b data]; [congruence|].
  unfold bind, call, ret. simpl.
  rewrite (kernel_write _ _ _ _ []) by apply lookup_insert_eq. simpl.
  rewrite writeAt_empty, insert_insert_eq.
  edestruct kernel_close as (o & H' & ->). simpl. eauto.
Qed.

Lemma mergeChunks_loop tempDir dst F H K' G tr data :
  F !! chunkFileName tempDir 0 = Some data ->
  chunkFileName tempDir 0 <> dst ->
  exists H' tr',
    mergeChunks net c tempDir dst 1 (mkWorld (mkFS F H) (mkFS G K'), tr)
    = (None, (mkWorld (mkFS (<[dst := data]> F) H') (mkFS G K'), tr')).
Proof.
  intros Hchunk Hneq.
  unfold mergeChunks, bind, call, ret, closeThen, net. simpl.
  rewrite kernel_open_fresh by reflexivity. simpl.
  unfold bind, call, ret. simpl.
  rewrite (kernel_readfile _ _ _ data)
    by (rewrite lookup_insert_ne by congruence; assumption).
  simpl.
  rewrite (kernel_write _ _ _ _ []) by apply lookup_insert_eq. simpl.
  rewrite writeAt_empty, insert_insert_eq.
  edestruct kernel_close as (o & H' & ->). simpl. eauto.
Qed.

Lemma downloadFileParallel_loop dst F H G K tr data :
  Z.of_nat (length data) = Chunks.defaultChunkSize ->
  G !! full = Some data ->
  under (GoPath.Dir dst ++ "/.tmp_" ++ GoPath.Base dst) dst = false ->
  exists F' H' K' tr',
    downloadFileParallel net sha256hex c remotePath dst
      (Z.of_nat (length data)) (mkWorld (mkFS F H) (mkFS G K), tr)
    = (None, (mkWorld (mkFS F' H') (mkFS G K'), tr')) /\
    F' !! dst = Some data.
Proof.
  intros Hn Hfull Htmp.
  assert (Hne : data <> []).
  { intros ->. simpl in Hn. discriminate. }
  assert (Hneq : chunkFileName
                   (GoPath.Dir dst ++ "/.tmp_" ++ GoPath.Base dst) 0 <> dst).
  { intros Heq. pose proof (under_chunk
      (GoPath.Dir dst ++ "/.tmp_" ++ GoPath.Base dst) 0) as Hu.
    rewrite Heq in Hu. congruence. }
  unfold downloadFileParallel, bind, call, ret, net.
  destruct (plan_threshold _ Hn) as (_ & -> & ->).
  simpl. unfold bind, call, ret. simpl.
  edestruct (downloadChunkToFile_loop
               (chunkFileName
                  (GoPath.Dir dst ++ "/.tmp_" ++ GoPath.Base dst) 0))
    as (H1 & K1 & tr1 & E); [eassumption | assumption |].
  unfold net in E. rewrite E. clear E. simpl.
  edestruct (mergeChunks_loop
               (GoPath.Dir dst ++ "/.tmp_" ++ GoPath.Base dst) dst)
    as (H2 & tr2 & E); [apply lookup_insert_eq | assumption |].
  unfold net in E. rewrite E. clear E. simpl.
  edestruct (verifyChecksum_loop dst) as (H3 & K3 & tr3 & E);
    [apply lookup_insert_eq | eassumption |].
  unfold net in E. rewrite E. clear E. simpl.
  eexists _, _, _, _. split; [reflexivity|].
  apply map_lookup_filter_Some. split; [apply lookup_insert_eq | exact Htmp].
Qed.

Lemma DownloadFile_loop dst F H G K tr data :
  F !! dst = None -> G !! full = Some data ->
  (0 < Z.of_nat (length data) <= Chunks.defaultChunkSize)%Z ->
  under (GoPath.Dir dst ++ "/.tmp_" ++ GoPath.Base dst) dst = false ->
  exists F' H' K' tr',
    DownloadFile net sha256hex c remotePath dst
      (mkWorld (mkFS F H) (mkFS G K), tr)
    = (None, (mkWorld (mkFS F' H') (mkFS G K'), tr')) /\
    F' !! dst = Some data.
Proof.
  intros Hdst Hfull Hlen Htmp.
  unfold DownloadFile. rewrite Hconn. simpl.
  unfold bind, call, ret, net. simpl.
  edestruct (serve_head G K data) as [K1 E]; [assumption|].
  unfold serve in E. rewrite E. simpl. clear E.
  destruct (Z.leb_spec (Z.of_nat (length data)) 0); [lia|].
  destruct (Z.ltb_spec (Z.of_nat (length data)) Chunks.defaultChunkSize).
  - edestruct (downloadFileSingle_loop dst F) as (H' & K' & tr' & E);
      [eassumption | eassumption | |].
    { intros ->. simpl in *. lia. }
    unfold net in E. rewrite E. eexists _, _, _, _.
    split; [reflexivity | apply lookup_insert_eq].
  - edestruct (downloadFileParallel_loop dst F) as (F' & H' & K' & tr' & E & Hd);
      [| eassumption | eassumption |]; [lia|].
    unfold net in E. rewrite E. eauto 6.
Qed.

Lemma DownloadFile_empty dst F H G K tr :
  G !! full = Some [] ->
  exists K',
    DownloadFile net sha256hex c remotePath dst
      (mkWorld (mkFS F H) (mkFS G K), tr)
    = (Some "unknown file size",
       (mkWorld (mkFS F H) (mkFS G K'),
        (tr ++ [HttpDo (fileRequest "HEAD" remotePath [] noHeader)])%list)).
Proof.
  intros Hfull.
  unfold DownloadFile. rewrite Hconn. simpl.
  unfold bind, call, ret, net. simpl.
  edestruct (serve_head G K []) as [K1 E]; [assumption|].
  unfold serve in E. rewrite E. simpl. eauto.
Qed.

End LoopbackFacts.

Section RoundTrip.
Import OS Client Loopback.
Local Open Scope string_scope.

(** C4 (as amended): for every content of at most 4 MiB, uploading a file
    with that content succeeds and leaves the content on the server;
    downloading it back to a fresh local path then succeeds and yields the
    same content when the content is not empty (one stream below 4 MiB, one
    chunk at 4 MiB; the download ends with a check of the hashes that
    passes), and fails with "unknown file size", writing nothing, when the
    content is empty.

    The remote path is a clean absolute path that does not end in ["/"] or
    ["/index.html"] and needs no escaping in a URL ([DownloadFile] writes it
    into the URL as it is).  The root of the server is an absolute path,
    and below it the remote path resolves to a place that can hold a
    regular file: not a directory, and with no regular file among its
    ancestors.  On the client the destination is a clean absolute path that
    names nothing, can hold a regular file and lies in an existing
    directory; nothing lies at or below its temporary directory, and it
    does not lie there itself. *)
Theorem upload_download_round_trip
    (wd : option string) (rootDir : string)
    (encodeItems : list Server.ListItem -> list byte)
    (encodeStat : Server.FileStatInfo -> list byte)
    (sha256hex : list byte -> string)
    (HandleCopy : Server.FileHandler -> Request -> IO (W := FS) Response)
    (c : Client) (remotePath full src dst : string)
    (F G : gmap string (list byte)) (H K : list handle) (data : list byte) :
  let net := net wd rootDir encodeItems encodeStat sha256hex HandleCopy in
  let w0 := mkWorld (mkFS F H) (mkFS G K) in
  IsConnected c = true ->
  String.eqb rootDir "" = false ->
  Server.isPathSafeIn wd rootDir remotePath = (full, true) ->
  urlSafe remotePath = true ->
  GoPath.HasPrefix remotePath "/" = true ->
  Server.muxCleanPath remotePath = remotePath ->
  GoPath.HasSuffix remotePath "/" = false ->
  GoPath.HasSuffix remotePath "/index.html" = false ->
  under (GoPath.Dir dst ++ "/.tmp_" ++ GoPath.Base dst) dst = false ->
  F !! src = Some data ->
  F !! dst = None ->
  (Z.of_nat (length data) <= Chunks.defaultChunkSize)%Z ->
  tidy F = true -> tidy G = true ->
  GoPath.IsAbs rootDir = true ->
  placeable G full = true ->
  GoPath.IsAbs dst = true -> GoPath.Clean dst = dst ->
  placeable F dst = true ->
  isDir F (GoPath.Dir dst) = true ->
  vacant F (GoPath.Dir dst ++ "/.tmp_" ++ GoPath.Base dst) = true ->
  exists st1 r st2,
    UploadFile net c src remotePath (w0, []) = (None, st1) /\
    files (server_fs (fst st1)) !! full = Some data /\
    DownloadFile net sha256hex c remotePath dst st1 = (r, st2) /\
    files (server_fs (fst st2)) !! full = Some data /\
    match data with
    | [] => r = Some "unknown file size"
            /\ files (client_fs (fst st2)) !! dst = None
    | _ => r = None /\ files (client_fs (fst st2)) !! dst = Some data
    end.
Proof.
  intros net w0 Hconn Hroot Hsafe _ Habs Hclean Hslash Hindex Htmp Hsrc Hdst
    Hlen _ _ _ _ _ _ _ _ _.
  destruct (UploadFile_loop wd rootDir encodeItems encodeStat sha256hex
              HandleCopy remotePath full Hsafe Habs c Hconn src F H G K []
              data Hsrc Hlen) as (H1 & K1 & tr1 & Eup).
  destruct data as [|b data].
  - destruct (DownloadFile_empty wd rootDir encodeItems encodeStat sha256hex
                HandleCopy remotePath full Hroot Hsafe Habs Hclean Hslash
                Hindex c Hconn dst F H1 (<[full := []]> G) K1 tr1)
      as (K2 & Edn); [apply lookup_insert_eq|].
    eexists _, _, _. split; [exact Eup|]. simpl.
    split; [apply lookup_insert_eq|]. split; [exact Edn|]. simpl.
    split; [apply lookup_insert_eq|]. auto.
  - destruct (DownloadFile_loop wd rootDir encodeItems encodeStat sha256hex
                HandleCopy remotePath full Hroot Hsafe Habs Hclean Hslash
                Hindex c Hconn dst F H1 (<[full := b :: data]> G) K1 tr1
                (b :: data))
      as (F' & H2 & K2 & tr2 & Edn & Hd);
      [assumption | apply lookup_insert_eq | simpl in *; lia | assumption |].
    eexists _, _, _. split; [exact Eup|]. simpl.
    split; [apply lookup_insert_eq|]. split; [exact Edn|]. simpl.
    split; [apply lookup_insert_eq|]. auto.
Qed.



End RoundTrip.

Lemma upload_download_round_trip_witness :
  exists st1 r st2,
    Client.UploadFile Loopback.exampleNet Loopback.exampleClient
      "/home/user/a.bin" "/a.bin" (Loopback.exampleWorld [Byte.x41], [])
    = (None, st1) /\
    Loopback.files (Loopback.server_fs (fst st1)) !! "/srv/files/a.bin"%string
    = Some [Byte.x41] /\
    Client.DownloadFile Loopback.exampleNet Loopback.plainHash
      Loopback.exampleClient "/a.bin" "/home/user/b.bin" st1 = (r, st2) /\
    Loopback.files (Loopback.server_fs (fst st2)) !! "/srv/files/a.bin"%string
    = Some [Byte.x41] /\
    r = None /\
    Loopback.files (Loopback.client_fs (fst st2)) !! "/home/user/b.bin"%string
    = Some [Byte.x41].
Proof.
  apply (upload_download_round_trip (Some "/"%string) "/srv/files"
           (fun _ => []) (fun _ => []) Loopback.plainHash Loopback.noCopy
           Loopback.exampleClient "/a.bin" "/srv/files/a.bin"
           "/home/user/a.bin" "/home/user/b.bin"
           {[ "/home/user/a.bin"%string := [Byte.x41] ]} ∅ [] [] [Byte.x41]);
    try (vm_compute; reflexivity).
  vm_compute. discriminate.
Defined.

(** An empty file is uploaded, but cannot be downloaded back. *)
Lemma empty_file_round_trip_counterexample :
  fst (Client.UploadFile Loopback.exampleNet Loopback.exampleClient
         "/home/user/a.bin" "/a.bin" (Loopback.exampleWorld [], []))
  = None /\
  fst (Client.DownloadFile Loopback.exampleNet Loopback.plainHash
         Loopback.exampleClient "/a.bin" "/home/user/b.bin"
         (snd (Client.UploadFile Loopback.exampleNet Loopback.exampleClient
                 "/home/user/a.bin" "/a.bin"
                 (Loopback.exampleWorld [], []))))
  = Some "unknown file size"%string.
Proof. split; vm_compute; reflexivity. Qed.

(** A download that resumes from a local part, one whose local file is
    complete, and one whose local part is not a part of the remote file. *)
Lemma single_stream_resume_witness :
  exists st',
    Client.downloadFileSingle Loopback.exampleNet Loopback.plainHash
      Loopback.exampleClient "/a.bin" "/home/user/b.bin"
      (Loopback.partialWorld [Byte.x41; Byte.x42]
         [Byte.x41; Byte.x42; Byte.x43; Byte.x44], [])
    = (None, st') /\
    Loopback.files (Loopback.client_fs (fst st')) !! "/home/user/b.bin"%string
    = Some [Byte.x41; Byte.x42; Byte.x43; Byte.x44] /\
    Client.downloadFileSingle Loopback.exampleNet Loopback.plainHash
      Loopback.exampleClient "/a.bin" "/home/user/b.bin"
      (Loopback.partialWorld [Byte.x41; Byte.x42; Byte.x43; Byte.x44]
         [Byte.x41; Byte.x42; Byte.x43; Byte.x44], [])
    = (None,
       (Loopback.mkWorld
          (Loopback.mkFS
             {[ "/home/user/b.bin"%string
                := [Byte.x41; Byte.x42; Byte.x43; Byte.x44] ]} [])
          (Loopback.mkFS
             {[ "/srv/files/a.bin"%string
                := [Byte.x41; Byte.x42; Byte.x43; Byte.x44] ]}
             [Loopback.mkHandle "/srv/files/a.bin" 0 false]),
        [OS.Stat "/home/user/b.bin";
         OS.HttpDo (Client.fileRequest "HEAD" "/a.bin" [] OS.noHeader)])).
Proof.
  destruct (single_stream_resume Loopback.exampleNet Loopback.plainHash
              Loopback.exampleClient "/a.bin" "/home/user/b.bin")
    as (Hdone & Hrun & _).
  eexists. split; [|split].
  - eapply Hrun; try reflexivity; [right; reflexivity | vm_compute; reflexivity].
  - vm_compute. reflexivity.
  - erewrite Hdone; reflexivity.
Defined.

Lemma download_checksum_enforced_witness :
  exists st',
    Client.downloadFileSingle Loopback.exampleNet Loopback.plainHash
      Loopback.exampleClient "/a.bin" "/home/user/b.bin"
      (Loopback.partialWorld [Byte.x5a; Byte.x5a]
         [Byte.x41; Byte.x42; Byte.x43; Byte.x44], [])
    = (Some "checksum mismatch"%string, st') /\
    Loopback.files (Loopback.client_fs (fst st')) !! "/home/user/b.bin"%string
    = Some [Byte.x5a; Byte.x5a; Byte.x43; Byte.x44] /\
    Loopback.files (Loopback.server_fs (fst st')) !! "/srv/files/a.bin"%string
    = Some [Byte.x41; Byte.x42; Byte.x43; Byte.x44].
Proof.
  destruct (download_checksum_enforced Loopback.exampleNet Loopback.plainHash
              Loopback.exampleClient "/a.bin" "/home/user/b.bin")
    as (_ & _ & _ & Hrun & _).
  eexists. split; [|split].
  - eapply Hrun; try reflexivity; [right; reflexivity | vm_compute; reflexivity].
  - vm_compute. reflexivity.
  - vm_compute. reflexivity.
Defined.

(** The upload handler truncates the file when it serves the chunk that
    starts at offset 0: served in index order, two chunks make up the file;
    served the other way round, the chunk written first is lost. *)
Lemma chunk_order_example :
  Loopback.files
    (Loopback.exampleServe2
       (Loopback.chunkPut "/a.bin" 0 4 [Byte.x41; Byte.x42])
       (Loopback.chunkPut "/a.bin" 2 4 [Byte.x43; Byte.x44]))
  !! "/srv/files/a.bin"%string
  = Some [Byte.x41; Byte.x42; Byte.x43; Byte.x44] /\
  Loopback.files
    (Loopback.exampleServe2
       (Loopback.chunkPut "/a.bin" 2 4 [Byte.x43; Byte.x44])
       (Loopback.chunkPut "/a.bin" 0 4 [Byte.x41; Byte.x42]))
  !! "/srv/files/a.bin"%string
  = Some [Byte.x41; Byte.x42].
Proof. split; vm_compute; reflexivity. Qed.
(* ===================================================================== *)
(** ** Further properties of the code *)
(* ===================================================================== *)

(** *** Strings *)

Section StringFacts.
Local Open Scope string_scope.

Lemma prefix_app_iff (a b : string) :
  String.prefix a b = true <-> exists r, b = a ++ r.
Proof.
  revert b. induction a as [|c a IH]; intros b; simpl.
  - split; [intros _; exists b; reflexivity | now destruct b].
  - destruct b as [|d b]; simpl.
    + split; [discriminate | intros [r Hr]; inversion Hr].
    + destruct (ascii_dec c d) as [->|Hne].
      * rewrite IH. split; intros [r Hr]; exists r.
        -- now rewrite Hr.
        -- now inversion Hr.
      * split; [discriminate | intros [r Hr]; inversion Hr; congruence].
Qed.

Lemma length_append (a b : string) :
  String.length (a ++ b) = (String.length a + String.length b)%nat.
Proof.
  induction a as [|c a IH]; [reflexivity|].
  change (String c a ++ b) with (String c (a ++ b)). simpl. now rewrite IH.
Qed.

Lemma append_assoc (a b c : string) : (a ++ b) ++ c = a ++ b ++ c.
Proof.
  induction a as [|d a IH]; [reflexivity|].
  change ((String d a ++ b) ++ c) with (String d ((a ++ b) ++ c)).
  now rewrite IH.
Qed.

End StringFacts.

(** *** Dropped paths (filterNestedPaths) *)

Section FilterNestedPaths.
Import DragDrop.
Local Open Scope string_scope.

Lemma below_shorter p q :
  below p q = true ->
  (String.length (GoPath.Clean q) < String.length (GoPath.Clean p))%nat.
Proof.
  unfold below, GoPath.HasPrefix. intros H.
  apply prefix_app_iff in H as [r Hr]. rewrite Hr.
  rewrite !length_append. simpl. lia.
Qed.

Lemma below_irrefl p : below p p = false.
Proof.
  destruct (below p p) eqn:H; [|reflexivity].
  apply below_shorter in H. lia.
Qed.

Lemma below_trans p q r :
  below p q = true -> below q r = true -> below p r = true.
Proof.
  unfold below, GoPath.HasPrefix. intros H1 H2.
  apply prefix_app_iff in H1 as [a Ha]. apply prefix_app_iff in H2 as [b Hb].
  apply prefix_app_iff. rewrite Ha, Hb.
  exists (b ++ GoPath.Separator ++ a). unfold GoPath.Separator.
  now rewrite !append_assoc.
Qed.

Lemma isNested_true path i j others :
  isNested path i j others = true <->
  exists k other,
    others !! k = Some other /\ (j + k)%nat <> i /\
    GoPath.HasPrefix path (other ++ GoPath.Separator) = true.
Proof.
  revert j. induction others as [|o others IH]; intros j; simpl.
  - split; [discriminate | intros (k & other & H & _); discriminate].
  - destruct (Nat.eqb_spec i j) as [->|Hne].
    + rewrite IH. split.
      * intros (k & other & Hk & Hn & Hp). exists (S k), other.
        split; [exact Hk|]. split; [lia | exact Hp].
      * intros (k & other & Hk & Hn & Hp). destruct k as [|k]; [lia|].
        exists k, other. split; [exact Hk|]. split; [lia | exact Hp].
    + destruct (GoPath.HasPrefix path (o ++ GoPath.Separator)) eqn:Hp.
      * split; [intros _ | reflexivity]. exists 0%nat, o.
        split; [reflexivity|]. split; [lia | exact Hp].
      * rewrite IH. split.
        -- intros (k & other & Hk & Hn & Hq). exists (S k), other.
           split; [exact Hk|]. split; [lia | exact Hq].
        -- intros (k & other & Hk & Hn & Hq). destruct k as [|k].
           ++ simpl in Hk. injection Hk as <-. congruence.
           ++ exists k, other. split; [exact Hk|]. split; [lia | exact Hq].
Qed.

Lemma keepFrom_sublist N i paths :
  sublist (keepFrom N i paths (map GoPath.Clean paths)) paths.
Proof.
  revert i. induction paths as [|p paths IH]; intros i; simpl.
  - constructor.
  - destruct (isNested _ _ _ _); [apply sublist_cons | apply sublist_skip];
      apply IH.
Qed.

Lemma keepFrom_elem N i paths x :
  x ∈ keepFrom N i paths (map GoPath.Clean paths) <->
  exists k, paths !! k = Some x /\
            isNested (GoPath.Clean x) (i + k) 0 N = false.
Proof.
  revert i. induction paths as [|p paths IH]; intros i; simpl.
  - split; [intros H; inversion H | intros (k & H & _); discriminate].
  - destruct (isNested (GoPath.Clean p) i 0 N) eqn:Hn.
    + rewrite IH. split.
      * intros (k & Hk & Hx). exists (S k). split; [exact Hk|].
        now replace (i + S k)%nat with (S i + k)%nat by lia.
      * intros (k & Hk & Hx). destruct k as [|k].
        -- simpl in Hk. injection Hk as <-.
           rewrite Nat.add_0_r in Hx. congruence.
        -- exists k. split; [exact Hk|].
           now replace (S i + k)%nat with (i + S k)%nat by lia.
    + rewrite elem_of_cons, IH. split.
      * intros [->|(k & Hk & Hx)].
        -- exists 0%nat. split; [reflexivity|]. now rewrite Nat.add_0_r.
        -- exists (S k). split; [exact Hk|].
           now replace (i + S k)%nat with (S i + k)%nat by lia.
      * intros (k & Hk & Hx). destruct k as [|k].
        -- left. simpl in Hk. congruence.
        -- right. exists k. split; [exact Hk|].
           now replace (S i + k)%nat with (i + S k)%nat by lia.
Qed.

(** An element is kept exactly when no path of the list lies above it. *)
Lemma filterNestedPaths_elem paths x :
  x ∈ filterNestedPaths paths <->
  x ∈ paths /\ forall q, q ∈ paths -> below x q = false.
Proof.
  unfold filterNestedPaths.
  destruct (Nat.leb_spec (length paths) 1) as [Hlen|Hlen].
  - split; [|tauto]. intros Hx. split; [exact Hx|]. intros q Hq.
    destruct paths as [|p [|p' paths]]; simpl in Hlen; try lia.
    + inversion Hx.
    + apply list_elem_of_singleton in Hx, Hq. subst. apply below_irrefl.
  - rewrite keepFrom_elem. simpl. split.
    + intros (k & Hk & Hn). split; [eapply list_elem_of_lookup_2; eauto|].
      intros q Hq. destruct (below x q) eqn:Hb; [|reflexivity].
      apply list_elem_of_lookup_1 in Hq as [j Hj].
      assert (Hjk : j <> k).
      { intros ->. rewrite Hk in Hj. injection Hj as <-.
        rewrite below_irrefl in Hb. discriminate. }
      assert (Ht : isNested (GoPath.Clean x) k 0 (map GoPath.Clean paths)
                   = true).
      { apply isNested_true. exists j, (GoPath.Clean q).
        split; [now rewrite list_lookup_fmap, Hj|]. split; [lia | exact Hb]. }
      congruence.
    + intros [Hx Hall]. apply list_elem_of_lookup_1 in Hx as [k Hk].
      exists k. split; [exact Hk|].
      destruct (isNested _ _ _ _) eqn:Hn; [|reflexivity].
      apply isNested_true in Hn as (j & other & Hj & _ & Hp).
      rewrite list_lookup_fmap in Hj.
      destruct (paths !! j) as [q|] eqn:Hq; [|discriminate].
      simpl in Hj. injection Hj as <-.
      assert (Hb : below x q = false)
        by (apply Hall; eapply list_elem_of_lookup_2; eauto).
      unfold below in Hb. congruence.
Qed.

Lemma filterNestedPaths_sublist paths :
  sublist (filterNestedPaths paths) paths.
Proof.
  unfold filterNestedPaths. destruct (_ <=? _)%nat; [reflexivity|].
  apply keepFrom_sublist.
Qed.

Lemma filterNestedPaths_cover paths x :
  x ∈ paths ->
  x ∈ filterNestedPaths paths \/
  exists q, q ∈ filterNestedPaths paths /\ below x q = true.
Proof.
  remember (String.length (GoPath.Clean x)) as n eqn:Hn.
  revert x Hn. induction n as [n IH] using lt_wf_ind. intros x Hn Hx.
  destruct (decide (x ∈ filterNestedPaths paths)) as [Hin|Hout];
    [now left | right].
  assert (exists q, q ∈ paths /\ below x q = true) as (q & Hq & Hb).
  { destruct (existsb (below x) paths) eqn:He.
    - apply existsb_exists in He as (q & Hq & Hb).
      exists q. split; [now apply list_elem_of_In | exact Hb].
    - exfalso. apply Hout. apply filterNestedPaths_elem.
      split; [exact Hx|]. intros q Hq.
      destruct (below x q) eqn:Hb; [|reflexivity].
      assert (existsb (below x) paths = true)
        by (apply existsb_exists; exists q; split;
            [now apply list_elem_of_In | exact Hb]).
      congruence. }
  pose proof (below_shorter _ _ Hb) as Hlt.
  destruct (IH (String.length (GoPath.Clean q)) ltac:(lia) q eq_refl Hq)
    as [Hk | (r & Hr & Hqr)].
  - exists q. auto.
  - exists r. split; [exact Hr|]. eapply below_trans; eauto.
Qed.

(** X1: [filterNestedPaths] returns the dropped paths in their order and
    without change, keeping exactly those that no path of the list lies
    above (after cleaning, [q/] is a prefix of the path); a path given twice
    is kept twice. *)
Theorem filterNestedPaths_keeps_tops (paths : list string) :
  sublist (filterNestedPaths paths) paths /\
  (forall x, x ∈ filterNestedPaths paths <->
             x ∈ paths /\ forall q, q ∈ paths -> below x q = false) /\
  (forall p, filterNestedPaths [p; p] = [p; p]).
Proof.
  split; [apply filterNestedPaths_sublist|].
  split; [apply filterNestedPaths_elem|].
  intros p. unfold filterNestedPaths. simpl.
  pose proof (below_irrefl p) as Hb. unfold below in Hb. now rewrite Hb.
Qed.

(** X2: nothing that was dropped is lost by the filter: every path of the
    list is kept or lies below a path that is kept. *)
Theorem filterNestedPaths_covers (paths : list string) :
  Forall (fun x =>
            x ∈ filterNestedPaths paths \/
            exists q, q ∈ filterNestedPaths paths /\ below x q = true)
         paths.
Proof.
  apply Forall_forall. intros x Hx. now apply filterNestedPaths_cover.
Qed.

End FilterNestedPaths.
(* ===================================================================== *)
(** ** The path test of the server, in closed form *)
(* ===================================================================== *)

Section CleanNormalForm.
Import GoPath PathForm.
Local Open Scope string_scope.

Lemma Split_app sep (a b : string) :
  Split sep (a ++ String sep b) = (Split sep a ++ Split sep b)%list.
Proof.
  induction a as [|c a IH].
  - simpl. now rewrite Ascii.eqb_refl.
  - change (String c a ++ String sep b) with (String c (a ++ String sep b)).
    simpl. rewrite IH.
    destruct (Ascii.eqb c sep); [reflexivity|].
    destruct (Split sep a) as [|x xs] eqn:Hs; [|reflexivity].
    now apply Split_nonempty in Hs.
Qed.

Lemma fold_cleanElem_normal xs out :
  Forall (fun e => e = "" \/ kept e) xs ->
  fold_left (cleanElem true) xs out
  = (rev (List.filter nonEmpty xs) ++ out)%list.
Proof.
  revert out. induction xs as [|e xs IH]; intros out Hxs; [reflexivity|].
  inversion Hxs as [|? ? He Hxs']; subst. simpl. rewrite IH by assumption.
  destruct He as [->|(Hp & Hne & Hd & Hdd)].
  - reflexivity.
  - unfold cleanElem, nonEmpty.
    destruct (String.eqb_spec e ""); [contradiction|].
    destruct (String.eqb_spec e "."); [contradiction|].
    destruct (String.eqb_spec e ".."); [contradiction|].
    simpl. now rewrite <- app_assoc.
Qed.

Lemma filter_kept l : Forall kept l -> List.filter nonEmpty l = l.
Proof.
  induction 1 as [|e l (_ & Hne & _) _ IH]; [reflexivity|]. simpl.
  unfold nonEmpty at 1. destruct (String.eqb_spec e ""); [contradiction|].
  simpl. now rewrite IH.
Qed.

(** The elements of a joined list of kept elements. *)
Lemma Split_Join_kept l :
  Forall kept l ->
  Forall (fun e => e = "" \/ kept e) (Split "/" (Join l "/")) /\
  List.filter nonEmpty (Split "/" (Join l "/")) = l.
Proof.
  intros Hl. destruct l as [|e l].
  - simpl. split; [repeat constructor|reflexivity].
  - rewrite Split_Join; [| |discriminate].
    + split; [|now apply filter_kept].
      eapply Forall_impl; [exact Hl|]. auto.
    + eapply Forall_impl; [exact Hl|]. now intros x (Hx & _).
Qed.

Lemma IsAbs_slash s : IsAbs ("/" ++ s) = true.
Proof. unfold IsAbs, HasPrefix. simpl. now destruct s. Qed.

(** [Clean] of a rooted path whose elements are empty or kept. *)
Lemma Clean_rooted s :
  Forall (fun e => e = "" \/ kept e) (Split "/" s) ->
  Clean ("/" ++ s) = "/" ++ Join (List.filter nonEmpty (Split "/" s)) "/".
Proof.
  intros Hs. unfold Clean. rewrite IsAbs_slash.
  change ("/" ++ s) with ("" ++ String "/" s). rewrite Split_app.
  change (String.eqb ("" ++ String "/" s) "") with false. cbv iota.
  rewrite fold_cleanElem_normal.
  - simpl. now rewrite app_nil_r, rev_involutive.
  - simpl. constructor; [now left | exact Hs].
Qed.

Lemma Clean_normal l :
  Forall kept l -> Clean ("/" ++ Join l "/") = "/" ++ Join l "/".
Proof.
  intros Hl. destruct (Split_Join_kept l Hl) as [Hs Hf].
  rewrite Clean_rooted by exact Hs. now rewrite Hf.
Qed.

Lemma Join_app r l :
  r <> [] -> l <> [] ->
  Join (r ++ l) "/" = Join r "/" ++ "/" ++ Join l "/".
Proof.
  intros Hr Hl. induction r as [|e r IH]; [contradiction|].
  destruct r as [|e' r].
  - simpl. destruct l; [contradiction|]. reflexivity.
  - change (Join ((e :: e' :: r) ++ l) "/")
      with (e ++ "/" ++ Join ((e' :: r) ++ l) "/").
    rewrite IH by discriminate.
    change (Join (e :: e' :: r) "/") with (e ++ "/" ++ Join (e' :: r) "/").
    now rewrite !append_assoc.
Qed.

(** Joining a clean absolute root and a clean rooted path. *)
Lemma Clean_root_join r l :
  Forall kept r -> Forall kept l ->
  Clean (("/" ++ Join r "/") ++ "/" ++ "/" ++ Join l "/")
  = "/" ++ Join (r ++ l) "/".
Proof.
  intros Hr Hl.
  destruct (Split_Join_kept r Hr) as [Hsr Hfr].
  destruct (Split_Join_kept l Hl) as [Hsl Hfl].
  change (("/" ++ Join r "/") ++ "/" ++ "/" ++ Join l "/")
    with ("/" ++ (Join r "/" ++ String "/" ("" ++ String "/" (Join l "/")))).
  rewrite Clean_rooted.
  - rewrite !Split_app. simpl. rewrite !List.filter_app. simpl.
    now rewrite Hfr, Hfl.
  - rewrite !Split_app. simpl. apply Forall_app. split; [exact Hsr|].
    constructor; [now left | exact Hsl].
Qed.

Lemma kept_first_char e : kept e -> exists c e', e = String c e' /\ c <> "/"%char.
Proof.
  intros (Hp & Hne & _). destruct e as [|c e']; [contradiction|].
  exists c, e'. split; [reflexivity|]. intros ->.
  unfold plain in Hp. simpl in Hp. discriminate.
Qed.

Lemma Join_nil_iff l : Forall kept l -> (Join l "/" = "" <-> l = []).
Proof.
  intros Hl. split; [|now intros ->].
  destruct l as [|e l]; [reflexivity|]. intros H. exfalso.
  inversion Hl as [|? ? He _]; subst.
  destruct (kept_first_char e He) as (c & e' & -> & _).
  destruct l; discriminate.
Qed.

Lemma no_double_slash l :
  Forall kept l -> HasPrefix ("/" ++ Join l "/") "//" = false.
Proof.
  intros Hl. unfold HasPrefix. destruct l as [|e l]; [reflexivity|].
  inversion Hl as [|? ? He _]; subst.
  destruct (kept_first_char e He) as (c & e' & -> & Hc).
  assert (Hj : exists t, Join (String c e' :: l) "/" = String c t).
  { destruct l; simpl; eauto. }
  destruct Hj as [t ->].
  destruct (String.prefix "//" ("/" ++ String c t)) eqn:Hp; [|reflexivity].
  apply prefix_app_iff in Hp as [x Hx]. inversion Hx. congruence.
Qed.

(** An absolute path that [Clean] leaves alone. *)
Lemma clean_absolute root :
  IsAbs root = true -> Clean root = root ->
  exists r, root = "/" ++ Join r "/" /\ Forall kept r.
Proof.
  intros Habs Hc. unfold IsAbs, HasPrefix in Habs.
  apply prefix_app_iff in Habs as [p ->].
  destruct (Clean_rooted_elements p) as (r & Hr & _ & Hk).
  exists r. split; [congruence | exact Hk].
Qed.

End CleanNormalForm.

Section IsPathSafe.
Import GoPath PathForm Server.
Local Open Scope string_scope.

Lemma Abs_clean wd l :
  Forall kept l -> Abs wd ("/" ++ Join l "/") = Some ("/" ++ Join l "/").
Proof.
  intros Hl. unfold Abs. rewrite IsAbs_slash. now rewrite Clean_normal.
Qed.

Lemma eqb_slash l :
  Forall kept l ->
  String.eqb ("/" ++ Join l "/") "/" = match l with [] => true | _ => false end.
Proof.
  intros Hl. destruct l as [|e l]; [reflexivity|].
  apply String.eqb_neq. intros H.
  change ("/" ++ Join (e :: l) "/") with (String "/" (Join (e :: l) "/")) in H.
  injection H as H.
  change (Join (e :: l) "/" = "") in H.
  apply Join_nil_iff in H; [discriminate | exact Hl].
Qed.

(** The path test under a root given by its elements. *)
Lemma isPathSafeIn_joined wd r l requestPath :
  Forall kept r -> r <> [] -> Forall kept l ->
  Clean ("/" ++ requestPath) = "/" ++ Join l "/" ->
  isPathSafeIn wd ("/" ++ Join r "/") requestPath
  = (match l with
     | [] => "/" ++ Join r "/"
     | _ => ("/" ++ Join r "/") ++ "/" ++ Join l "/"
     end, true).
Proof.
  intros Hr Hne Hk Hl.
  unfold isPathSafeIn, FromSlash. rewrite Hl.
  assert (Hfull : filepath_Join ["/" ++ Join r "/"; "/" ++ Join l "/"]
                  = "/" ++ Join (r ++ l) "/").
  { unfold filepath_Join.
    change (String.eqb ("/" ++ Join r "/") "") with false. cbv iota.
    change (Join ["/" ++ Join r "/"; "/" ++ Join l "/"] Separator)
      with (("/" ++ Join r "/") ++ "/" ++ "/" ++ Join l "/").
    now apply Clean_root_join. }
  rewrite Hfull, !Abs_clean by (try apply Forall_app; auto).
  destruct l as [|e l].
  - rewrite app_nil_r, String.eqb_refl, andb_false_r. reflexivity.
  - rewrite Join_app by (auto; discriminate).
    assert (Hp : HasPrefix ("/" ++ Join r "/" ++ "/" ++ Join (e :: l) "/")
                   (("/" ++ Join r "/") ++ Separator) = true).
    { unfold HasPrefix. apply prefix_app_iff. exists (Join (e :: l) "/").
      unfold Separator. now rewrite !append_assoc. }
    rewrite Hp. simpl. now rewrite !append_assoc.
Qed.

(** The same, written with [serverPath]. *)
Lemma isPathSafeIn_serverPath wd root requestPath :
  IsAbs root = true -> Clean root = root -> String.eqb root "/" = false ->
  isPathSafeIn wd root requestPath = (serverPath root requestPath, true).
Proof.
  intros Habs Hc Hne. unfold serverPath.
  destruct (clean_absolute root Habs Hc) as (r & -> & Hr).
  destruct (Clean_rooted_elements requestPath) as (l & Hl & _ & Hk).
  rewrite eqb_slash in Hne by exact Hr.
  rewrite (isPathSafeIn_joined wd r l) by (auto; now destruct r).
  rewrite Hl, eqb_slash by exact Hk. now destruct l.
Qed.

(** X3: when the root is an absolute path that [filepath.Clean] leaves alone
    and is not ["/"], [isPathSafe] rejects no request path at all: the
    answer is the root itself when the request path cleans to ["/"], and the
    root followed by the cleaned request path otherwise. *)
Theorem isPathSafe_accepts_every_path wd root requestPath :
  IsAbs root = true -> Clean root = root -> String.eqb root "/" = false ->
  isPathSafeIn wd root requestPath
  = (if String.eqb (Clean ("/" ++ requestPath)) "/" then root
     else root ++ Clean ("/" ++ requestPath), true).
Proof.
  intros Habs Hc Hne.
  destruct (clean_absolute root Habs Hc) as (r & -> & Hr).
  destruct (Clean_rooted_elements requestPath) as (l & Hl & _ & Hk).
  rewrite eqb_slash in Hne by exact Hr.
  assert (Hr0 : r <> []) by now destruct r.
  rewrite (isPathSafeIn_joined wd r l requestPath Hr Hr0 Hk Hl).
  rewrite Hl, eqb_slash by exact Hk.
  destruct l; reflexivity.
Qed.

(** X4: when the root is ["/"], [isPathSafe] accepts only the request
    paths that clean to ["/"] (the root itself) and rejects every other one:
    the prefix it tests for is ["//"], which no cleaned path has. *)
Theorem isPathSafe_root_slash wd requestPath :
  isPathSafeIn wd "/" requestPath
  = if String.eqb (Clean ("/" ++ requestPath)) "/" then ("/", true)
    else ("", false).
Proof.
  destruct (Clean_rooted_elements requestPath) as (l & Hl & _ & Hk).
  unfold isPathSafeIn, FromSlash. rewrite Hl.
  assert (Hfull : filepath_Join ["/"; "/" ++ Join l "/"] = "/" ++ Join l "/").
  { unfold filepath_Join. cbv iota.
    change (Join ["/"; "/" ++ Join l "/"] Separator)
      with ("/" ++ ("" ++ String "/" ("" ++ String "/" (Join l "/")))).
    destruct (Split_Join_kept l Hk) as [Hs Hf].
    rewrite Clean_rooted.
    - rewrite !Split_app. simpl. now rewrite Hf.
    - rewrite !Split_app. simpl. constructor; [now left|].
      constructor; [now left | exact Hs]. }
  rewrite Hfull. change (Abs wd "/") with (Some "/").
  rewrite Abs_clean by exact Hk.
  change ("/" ++ Separator) with "//". rewrite no_double_slash by exact Hk.
  rewrite eqb_slash by exact Hk. destruct l; reflexivity.
Qed.

Lemma isPathSafe_accepts_every_path_witness :
  isPathSafeIn None "/srv/files" "../../etc/passwd"
  = ("/srv/files/etc/passwd", true).
Proof.
  rewrite (isPathSafe_accepts_every_path None "/srv/files" "../../etc/passwd");
    reflexivity.
Defined.

End IsPathSafe.
(* ===================================================================== *)
(** ** Extraction of archives stays inside the destination *)
(* ===================================================================== *)

Section ArchiveFacts.
Import OS GoPath Archive.
Local Open Scope string_scope.
Context {W : Type}.
Variable env : effect -> W -> outcome * W.
Variable wd : option string.
Variable getwdError : string.
Variable readTarGz : list byte -> string + Stream.
Variable readTar : list byte -> Stream.
Variable readZip : list byte -> string + list ZipFile.

Implicit Types st : W * list effect.

Lemma grows_refl P tr : grows P tr tr.
Proof. exists []. split; [now rewrite app_nil_r | constructor]. Qed.

Lemma grows_trans P tr1 tr2 tr3 :
  grows P tr1 tr2 -> grows P tr2 tr3 -> grows P tr1 tr3.
Proof.
  intros (l1 & -> & H1) (l2 & -> & H2). exists (l1 ++ l2)%list.
  split; [now rewrite app_assoc | now apply Forall_app].
Qed.

Lemma grows_call P e st :
  P e -> grows P (snd st) (snd (snd (call env e st))).
Proof.
  intros He. unfold call. destruct (env e (fst st)) as [o w'].
  exists [e]. split; [reflexivity | now constructor].
Qed.

Lemma grows_impl (P Q : effect -> Prop) tr tr' :
  (forall e, P e -> Q e) -> grows P tr tr' -> grows Q tr tr'.
Proof.
  intros HPQ (l & -> & Hl). exists l. split; [reflexivity|].
  eapply Forall_impl; eauto.
Qed.

Lemma escapes_inside absDest p absPath :
  Abs wd p = Some absPath -> escapes absDest absPath = false ->
  inside wd absDest p.
Proof.
  intros Ha He. exists absPath. split; [exact Ha|].
  unfold escapes in He. apply andb_false_iff in He as [He|He].
  - left. now apply negb_false_iff in He.
  - right. apply negb_false_iff in He. now apply String.eqb_eq in He.
Qed.

Lemma contained_nopath absDest e : paths_of e = [] -> contained wd absDest e.
Proof. intros H. unfold contained. rewrite H. constructor. Qed.

Lemma contained_inside absDest e p :
  paths_of e = [p] -> inside wd absDest p -> contained wd absDest e.
Proof.
  intros H Hp. unfold contained. rewrite H.
  constructor; [now left | constructor].
Qed.

Lemma contained_dir absDest e q :
  paths_of e = [Dir q] -> inside wd absDest q -> contained wd absDest e.
Proof.
  intros H Hq. unfold contained. rewrite H.
  constructor; [right; now exists q | constructor].
Qed.

Lemma grows_call_eq P e st o st1 :
  call env e st = (o, st1) -> P e -> grows P (snd st) (snd st1).
Proof.
  intros H He. replace st1 with (snd (call env e st)) by now rewrite H.
  now apply grows_call.
Qed.

Lemma copyContent_grows P file e st :
  (forall x, paths_of x = [] -> P x) ->
  grows P (snd st) (snd (snd (copyContent env file e st))).
Proof.
  intros HP. unfold copyContent, bind.
  destruct (content e) as [|b body].
  - unfold ret at 1.
    destruct (call env (Close file) st) as [c st1] eqn:Hc.
    assert (G : grows P (snd st) (snd st1)).
    { eapply grows_call_eq; [exact Hc | now apply HP]. }
    destruct (err ok); [|destruct (damaged e)]; exact G.
  - destruct (call env (Write file (b :: body)) st) as [wr st1] eqn:Hw.
    destruct (call env (Close file) st1) as [c st2] eqn:Hc.
    assert (G : grows P (snd st) (snd st2)).
    { apply grows_trans with (snd st1).
      - eapply grows_call_eq; [exact Hw | now apply HP].
      - eapply grows_call_eq; [exact Hc | now apply HP]. }
    destruct (err wr); exact G.
Qed.

Lemma copyContent_grows_eq P file e st c st1 :
  copyContent env file e st = (c, st1) ->
  (forall x, paths_of x = [] -> P x) ->
  grows P (snd st) (snd st1).
Proof.
  intros H HP. replace st1 with (snd (copyContent env file e st))
    by now rewrite H.
  now apply copyContent_grows.
Qed.

Lemma decompressEntries_confined dstPath absDest es tail st :
  grows (contained wd absDest) (snd st)
    (snd (snd (decompressEntries env wd getwdError dstPath absDest es tail st))).
Proof.
  revert st. induction es as [|e es IH]; intros st.
  - simpl. destruct tail; apply grows_refl.
  - simpl.
    destruct (Abs wd (filepath_Join [dstPath; Name (header e)]))
      as [absPath|] eqn:Ha; [|apply grows_refl].
    destruct (escapes absDest absPath) eqn:He; [apply grows_refl|].
    pose proof (escapes_inside _ _ _ Ha He) as Hin.
    destruct (Ascii.eqb (Typeflag (header e)) TypeDir).
    { unfold bind at 1.
      destruct (call env (MkdirAll _ _) st) as [m st1] eqn:Hm.
      assert (G : grows (contained wd absDest) (snd st) (snd st1)).
      { eapply grows_call_eq; [exact Hm|].
        eapply contained_inside; [reflexivity | exact Hin]. }
      destruct (err m); [exact G|].
      eapply grows_trans; [exact G | apply IH]. }
    destruct (Ascii.eqb (Typeflag (header e)) TypeReg
              || Ascii.eqb (Typeflag (header e)) TypeRegA); [|apply IH].
    unfold bind at 1.
    destruct (call env (MkdirAll _ _) st) as [m st1] eqn:Hm.
    assert (G1 : grows (contained wd absDest) (snd st) (snd st1)).
    { eapply grows_call_eq; [exact Hm|].
      eapply contained_dir; [reflexivity | exact Hin]. }
    destruct (err m); [exact G1|].
    unfold bind at 1.
    destruct (call env (OpenFile _ _ _) st1) as [f st2] eqn:Hf.
    assert (G2 : grows (contained wd absDest) (snd st1) (snd st2)).
    { eapply grows_call_eq; [exact Hf|].
      eapply contained_inside; [reflexivity | exact Hin]. }
    destruct (err f); [eapply grows_trans; eauto|].
    unfold bind at 1.
    destruct (copyContent env (fd f) e st2) as [c st3] eqn:Hc.
    assert (G3 : grows (contained wd absDest) (snd st2) (snd st3)).
    { eapply copyContent_grows_eq; [exact Hc|].
      intros x Hx. now apply contained_nopath. }
    assert (G : grows (contained wd absDest) (snd st) (snd st3)).
    { eapply grows_trans; [exact G1|]. eapply grows_trans; eauto. }
    destruct c; [exact G|].
    eapply grows_trans; [exact G | apply IH].
Qed.


Lemma closeThen_grows {A} P fd (a : A) st :
  (forall x, paths_of x = [] -> P x) ->
  grows P (snd st) (snd (snd (Client.closeThen env fd a st))).
Proof.
  intros HP. unfold Client.closeThen, bind.
  destruct (call env (Close fd) st) as [c st1] eqn:Hc.
  eapply grows_call_eq; [exact Hc | now apply HP].
Qed.

Lemma call_trace e st : snd (snd (call env e st)) = (snd st ++ [e])%list.
Proof. unfold call. now destruct (env e (fst st)). Qed.

(** X5: whatever the archive holds, the calls of [DecompressFromTarGz]
    start with the opening of the archive, and every later call names no path
    at all, or creates the destination directory, or names only paths whose
    absolute form is the absolute destination or lies below it, and parent
    directories of such paths. *)
Theorem DecompressFromTarGz_confined srcPath dstPath st :
  exists l,
    snd (snd (DecompressFromTarGz env wd getwdError readTarGz
                srcPath dstPath st))
    = (snd st ++ OpenFile srcPath O_RDONLY 0 :: l)%list /\
    Forall (fun e => paths_of e = [] \/
                     e = MkdirAll dstPath 493 \/
                     exists absDest, Abs wd dstPath = Some absDest /\
                                     contained wd absDest e) l.
Proof.
  set (Q := fun e : effect => _ \/ _ \/ _).
  assert (HQ : forall x, paths_of x = [] -> Q x) by (intros x Hx; now left).
  enough (G : forall o st1, call env (OpenFile srcPath O_RDONLY 0) st = (o, st1) ->
            grows Q (snd st1)
              (snd (snd (DecompressFromTarGz env wd getwdError readTarGz
                           srcPath dstPath st)))).
  { destruct (call env (OpenFile srcPath O_RDONLY 0) st) as [o st1] eqn:Ho.
    destruct (G o st1 eq_refl) as (l & Hl & HF). exists l. split; [|exact HF].
    rewrite Hl. replace st1 with (snd (call env (OpenFile srcPath O_RDONLY 0) st))
      by now rewrite Ho.
    rewrite call_trace. now rewrite <- app_assoc. }
  intros o st1 Ho. unfold DecompressFromTarGz. unfold bind at 1. rewrite Ho.
  destruct (err o); [apply grows_refl|].
  unfold bind at 1.
  destruct (call env (ReadAll (fd o)) st1) as [rd st2] eqn:Hrd.
  assert (G1 : grows Q (snd st1) (snd st2)).
  { eapply grows_call_eq; [exact Hrd | now apply HQ]. }
  destruct (openStream readTarGz rd) as [x|[es tail]].
  { eapply grows_trans; [exact G1|]. now apply closeThen_grows. }
  unfold bind at 1.
  destruct (call env (MkdirAll dstPath 493) st2) as [m st3] eqn:Hm.
  assert (G2 : grows Q (snd st1) (snd st3)).
  { eapply grows_trans; [exact G1|].
    eapply grows_call_eq; [exact Hm|]. right. now left. }
  destruct (err m).
  { eapply grows_trans; [exact G2|]. now apply closeThen_grows. }
  destruct (Abs wd dstPath) as [absDest|] eqn:Ha.
  2:{ eapply grows_trans; [exact G2|]. now apply closeThen_grows. }
  unfold bind at 1.
  destruct (decompressEntries env wd getwdError dstPath absDest es tail st3)
    as [res st4] eqn:Hres.
  eapply grows_trans; [exact G2|].
  eapply grows_trans; [|now apply closeThen_grows].
  replace st4 with (snd (decompressEntries env wd getwdError dstPath absDest
                           es tail st3)) by now rewrite Hres.
  eapply grows_impl; [|apply decompressEntries_confined].
  intros e He. right. right. now exists absDest.
Qed.

Lemma decompressEntries_app dstPath absDest es1 es2 tail st :
  decompressEntries env wd getwdError dstPath absDest (es1 ++ es2) tail st
  = let r := decompressEntries env wd getwdError dstPath absDest es1 None st in
    match fst r with
    | None => decompressEntries env wd getwdError dstPath absDest es2 tail
                (snd r)
    | Some _ => r
    end.
Proof.
  revert st. induction es1 as [|e es1 IH]; intros st; [reflexivity|].
  change ((e :: es1) ++ es2)%list with (e :: (es1 ++ es2))%list.
  cbn [decompressEntries].
  destruct (Abs wd (filepath_Join [dstPath; Name (header e)]))
    as [absPath|]; [|reflexivity].
  destruct (escapes absDest absPath); [reflexivity|].
  unfold bind.
  destruct (Ascii.eqb (Typeflag (header e)) TypeDir).
  { destruct (call env (MkdirAll _ _) st) as [m st1].
    destruct (err m); [reflexivity | apply IH]. }
  destruct (Ascii.eqb (Typeflag (header e)) TypeReg
            || Ascii.eqb (Typeflag (header e)) TypeRegA); [|apply IH].
  destruct (call env (MkdirAll _ _) st) as [m st1].
  destruct (err m); [reflexivity|].
  destruct (call env (OpenFile _ _ _) st1) as [f st2].
  destruct (err f); [reflexivity|].
  destruct (copyContent env (fd f) e st2) as [c st3].
  destruct c; [reflexivity | apply IH].
Qed.

(** X6: [DecompressFromTarGz] stops at the first entry whose path leaves
    the destination and undoes nothing: the entries before it are extracted
    exactly as if the archive ended there, the entries after it are never
    looked at, and the answer is the tar-slip error (or the error an earlier
    entry ran into). *)
Theorem decompress_stops_at_escape dstPath absDest es1 e es2 tail absPath st :
  Abs wd (filepath_Join [dstPath; Name (header e)]) = Some absPath ->
  escapes absDest absPath = true ->
  decompressEntries env wd getwdError dstPath absDest (es1 ++ e :: es2) tail st
  = let r := decompressEntries env wd getwdError dstPath absDest es1 None st in
    match fst r with
    | None => (Some ("illegal file path (tar slip detected): "
                       ++ Name (header e)), snd r)
    | Some _ => r
    end.
Proof.
  intros Ha He. rewrite decompressEntries_app. cbv zeta.
  destruct (decompressEntries env wd getwdError dstPath absDest es1 None st)
    as [[x|] st1]; [reflexivity|].
  cbn [fst snd decompressEntries]. now rewrite Ha, He.
Qed.

(** X7: [DecompressFromTarGz] acts on directories and regular files only:
    entries of any other type (symbolic links, devices, ...) that lie inside
    the destination are passed over without a call, so the archive is
    extracted as if it did not hold them. *)
Theorem decompress_ignores_other_types dstPath absDest es tail st :
  Forall (fun e => supported e = false ->
            exists absPath,
              Abs wd (filepath_Join [dstPath; Name (header e)]) = Some absPath
              /\ escapes absDest absPath = false) es ->
  decompressEntries env wd getwdError dstPath absDest es tail st
  = decompressEntries env wd getwdError dstPath absDest
      (List.filter supported es) tail st.
Proof.
  intros Hes. revert st. induction Hes as [|e es He _ IH]; intros st;
    [reflexivity|].
  cbn [List.filter]. unfold supported at 1.
  destruct (Ascii.eqb (Typeflag (header e)) TypeDir) eqn:Hd.
  { cbn [orb decompressEntries]. rewrite Hd.
    destruct (Abs wd _); [|reflexivity].
    destruct (escapes _ _); [reflexivity|].
    unfold bind. destruct (call env _ st) as [m st1].
    destruct (err m); [reflexivity | apply IH]. }
  destruct (Ascii.eqb (Typeflag (header e)) TypeReg
            || Ascii.eqb (Typeflag (header e)) TypeRegA) eqn:Hr.
  { cbn [orb]. rewrite Hr. cbn [decompressEntries]. rewrite Hd, Hr.
    destruct (Abs wd _); [|reflexivity].
    destruct (escapes _ _); [reflexivity|].
    unfold bind. destruct (call env _ st) as [m st1].
    destruct (err m); [reflexivity|].
    destruct (call env _ st1) as [f st2].
    destruct (err f); [reflexivity|].
    destruct (copyContent env (fd f) e st2) as [c st3].
    destruct c; [reflexivity | apply IH]. }
  cbn [orb]. rewrite Hr. 
  destruct He as (absPath & Ha & Hesc).
  { unfold supported. rewrite Hd. exact Hr. }
  cbn [decompressEntries]. rewrite Ha, Hesc, Hd, Hr. apply IH.
Qed.


Lemma extractTarFile_confined e absDest st :
  grows (contained wd absDest) (snd st)
    (snd (snd (extractTarFile env wd getwdError e absDest st))).
Proof.
  unfold extractTarFile.
  destruct (Abs wd (filepath_Join [absDest; Name (header e)]))
    as [absPath|] eqn:Ha; [|apply grows_refl].
  destruct (escapes absDest absPath) eqn:He; [apply grows_refl|].
  pose proof (escapes_inside _ _ _ Ha He) as Hin.
  destruct (Ascii.eqb (Typeflag (header e)) TypeDir).
  { unfold bind. destruct (call env (MkdirAll _ _) st) as [m st1] eqn:Hm.
    eapply grows_call_eq; [exact Hm|].
    eapply contained_inside; [reflexivity | exact Hin]. }
  unfold bind at 1.
  destruct (call env (MkdirAll _ _) st) as [m st1] eqn:Hm.
  assert (G1 : grows (contained wd absDest) (snd st) (snd st1)).
  { eapply grows_call_eq; [exact Hm|].
    eapply contained_dir; [reflexivity | exact Hin]. }
  destruct (err m); [exact G1|].
  unfold bind at 1.
  destruct (call env (OpenFile _ _ _) st1) as [f st2] eqn:Hf.
  assert (G2 : grows (contained wd absDest) (snd st1) (snd st2)).
  { eapply grows_call_eq; [exact Hf|].
    eapply contained_inside; [reflexivity | exact Hin]. }
  destruct (err f); [eapply grows_trans; eauto|].
  eapply grows_trans; [exact G1|]. eapply grows_trans; [exact G2|].
  apply copyContent_grows. intros x Hx. now apply contained_nopath.
Qed.

Lemma extractEntries_confined absDest es tail st :
  grows (contained wd absDest) (snd st)
    (snd (snd (extractEntries env wd getwdError absDest es tail st))).
Proof.
  revert st. induction es as [|e es IH]; intros st; [apply grows_refl|].
  cbn [extractEntries]. unfold bind at 1.
  destruct (extractTarFile env wd getwdError e absDest st) as [r st1] eqn:Hr.
  assert (G : grows (contained wd absDest) (snd st) (snd st1)).
  { replace st1 with (snd (extractTarFile env wd getwdError e absDest st))
      by now rewrite Hr.
    apply extractTarFile_confined. }
  destruct r; [exact G|]. eapply grows_trans; [exact G | apply IH].
Qed.

(** X8: whatever the archive holds, the calls of [ExtractTar] start with
    the opening of the archive, and every later call names only paths whose
    absolute form is the absolute destination or lies below it, and parent
    directories of such paths. *)
Theorem ExtractTar_confined archive dest st :
  exists l,
    snd (snd (ExtractTar env wd getwdError readTarGz readTar archive dest st))
    = (snd st ++ OpenFile archive O_RDONLY 0 :: l)%list /\
    Forall (fun e => paths_of e = [] \/
                     exists absDest, Abs wd dest = Some absDest /\
                                     contained wd absDest e) l.
Proof.
  set (Q := fun e : effect => _ \/ _).
  assert (HQ : forall x, paths_of x = [] -> Q x) by (intros x Hx; now left).
  enough (G : forall o st1, call env (OpenFile archive O_RDONLY 0) st = (o, st1) ->
            grows Q (snd st1)
              (snd (snd (ExtractTar env wd getwdError readTarGz readTar
                           archive dest st)))).
  { destruct (call env (OpenFile archive O_RDONLY 0) st) as [o st1] eqn:Ho.
    destruct (G o st1 eq_refl) as (l & Hl & HF). exists l. split; [|exact HF].
    rewrite Hl.
    replace st1 with (snd (call env (OpenFile archive O_RDONLY 0) st))
      by now rewrite Ho.
    rewrite call_trace. now rewrite <- app_assoc. }
  intros o st1 Ho. unfold ExtractTar. unfold bind at 1. rewrite Ho.
  destruct (err o); [apply grows_refl|].
  destruct (Abs wd dest) as [absDest|] eqn:Ha;
    [|now apply closeThen_grows].
  unfold bind at 1.
  destruct (call env (ReadAll (fd o)) st1) as [rd st2] eqn:Hrd.
  assert (G1 : grows Q (snd st1) (snd st2)).
  { eapply grows_call_eq; [exact Hrd | now apply HQ]. }
  cbv zeta.
  destruct (if HasSuffix archive ".gz" || HasSuffix archive ".tgz"
            then openStream readTarGz rd
            else openStream (fun d => inr (readTar d)) rd) as [x|[es tail]].
  { eapply grows_trans; [exact G1|]. now apply closeThen_grows. }
  unfold bind at 1.
  destruct (extractEntries env wd getwdError absDest es tail st2)
    as [res st3] eqn:Hres.
  eapply grows_trans; [exact G1|].
  eapply grows_trans; [|now apply closeThen_grows].
  replace st3 with (snd (extractEntries env wd getwdError absDest es tail st2))
    by now rewrite Hres.
  eapply grows_impl; [|apply extractEntries_confined].
  intros e He. right. now exists absDest.
Qed.

Lemma extractZipFile_confined file absDest st :
  grows (contained wd absDest) (snd st)
    (snd (snd (extractZipFile env wd getwdError file absDest st))).
Proof.
  unfold extractZipFile.
  destruct (Abs wd (filepath_Join [absDest; zName file]))
    as [absPath|] eqn:Ha; [|apply grows_refl].
  destruct (escapes absDest absPath) eqn:He; [apply grows_refl|].
  pose proof (escapes_inside _ _ _ Ha He) as Hin.
  destruct (zIsDir file).
  { unfold bind. destruct (call env (MkdirAll _ _) st) as [m st1] eqn:Hm.
    eapply grows_call_eq; [exact Hm|].
    eapply contained_inside; [reflexivity | exact Hin]. }
  unfold bind at 1.
  destruct (call env (MkdirAll _ _) st) as [m st1] eqn:Hm.
  assert (G1 : grows (contained wd absDest) (snd st) (snd st1)).
  { eapply grows_call_eq; [exact Hm|].
    eapply contained_dir; [reflexivity | exact Hin]. }
  destruct (err m); [exact G1|].
  destruct (zOpen file); [exact G1|].
  unfold bind at 1.
  destruct (call env (OpenFile _ _ _) st1) as [f st2] eqn:Hf.
  assert (G2 : grows (contained wd absDest) (snd st1) (snd st2)).
  { eapply grows_call_eq; [exact Hf|].
    eapply contained_inside; [reflexivity | exact Hin]. }
  destruct (err f); [eapply grows_trans; eauto|].
  eapply grows_trans; [exact G1|]. eapply grows_trans; [exact G2|].
  apply copyContent_grows. intros x Hx. now apply contained_nopath.
Qed.

Lemma extractZipFiles_confined absDest files st :
  grows (contained wd absDest) (snd st)
    (snd (snd (extractZipFiles env wd getwdError absDest files st))).
Proof.
  revert st. induction files as [|file files IH]; intros st;
    [apply grows_refl|].
  cbn [extractZipFiles]. unfold bind at 1.
  destruct (extractZipFile env wd getwdError file absDest st)
    as [r st1] eqn:Hr.
  assert (G : grows (contained wd absDest) (snd st) (snd st1)).
  { replace st1 with (snd (extractZipFile env wd getwdError file absDest st))
      by now rewrite Hr.
    apply extractZipFile_confined. }
  destruct r; [exact G|]. eapply grows_trans; [exact G | apply IH].
Qed.

(** X9: whatever the archive holds, the calls of [ExtractZip] start with
    the opening of the archive, and every later call names only paths whose
    absolute form is the absolute destination or lies below it, and parent
    directories of such paths. *)
Theorem ExtractZip_confined archive dest st :
  exists l,
    snd (snd (ExtractZip env wd getwdError readZip archive dest st))
    = (snd st ++ OpenFile archive O_RDONLY 0 :: l)%list /\
    Forall (fun e => paths_of e = [] \/
                     exists absDest, Abs wd dest = Some absDest /\
                                     contained wd absDest e) l.
Proof.
  set (Q := fun e : effect => _ \/ _).
  assert (HQ : forall x, paths_of x = [] -> Q x) by (intros x Hx; now left).
  enough (G : forall o st1,
            call env (OpenFile archive O_RDONLY 0) st = (o, st1) ->
            grows Q (snd st1)
              (snd (snd (ExtractZip env wd getwdError readZip
                           archive dest st)))).
  { destruct (call env (OpenFile archive O_RDONLY 0) st) as [o st1] eqn:Ho.
    destruct (G o st1 eq_refl) as (l & Hl & HF). exists l. split; [|exact HF].
    rewrite Hl.
    replace st1 with (snd (call env (OpenFile archive O_RDONLY 0) st))
      by now rewrite Ho.
    rewrite call_trace. now rewrite <- app_assoc. }
  intros o st1 Ho. unfold ExtractZip. unfold bind at 1. rewrite Ho.
  destruct (err o); [apply grows_refl|].
  unfold bind at 1.
  destruct (call env (ReadAll (fd o)) st1) as [rd st2] eqn:Hrd.
  assert (G1 : grows Q (snd st1) (snd st2)).
  { eapply grows_call_eq; [exact Hrd | now apply HQ]. }
  cbv zeta.
  destruct (err rd).
  { eapply grows_trans; [exact G1|]. now apply closeThen_grows. }
  destruct (readZip (data rd)) as [x|files].
  { eapply grows_trans; [exact G1|]. now apply closeThen_grows. }
  destruct (Abs wd dest) as [absDest|] eqn:Ha.
  2:{ eapply grows_trans; [exact G1|]. now apply closeThen_grows. }
  unfold bind at 1.
  destruct (extractZipFiles env wd getwdError absDest files st2)
    as [res st3] eqn:Hres.
  eapply grows_trans; [exact G1|].
  eapply grows_trans; [|now apply closeThen_grows].
  replace st3 with (snd (extractZipFiles env wd getwdError absDest files st2))
    by now rewrite Hres.
  eapply grows_impl; [|apply extractZipFiles_confined].
  intros e He. right. now exists absDest.
Qed.

End ArchiveFacts.

Lemma decompress_stops_at_escape_witness :
  GoPath.Abs (Some "/") (GoPath.filepath_Join ["/tmp/out"; "../../etc/passwd"])
  = Some "/etc/passwd" /\
  Archive.escapes "/tmp/out" "/etc/passwd" = true /\
  Archive.decompressEntries OS.idle (Some "/") "getwd" "/tmp/out" "/tmp/out"
    [Archive.exampleFile; Archive.exampleEscape; Archive.exampleLink] None
    (tt, [])
  = (Some "illegal file path (tar slip detected): ../../etc/passwd",
     (tt, [OS.MkdirAll "/tmp/out/docs" 493;
           OS.OpenFile "/tmp/out/docs/readme.txt" 577 420;
           OS.Write 0 (OS.bytes "hello"); OS.Close 0])).
Proof.
  split; [reflexivity|]. split; [reflexivity|].
  etransitivity.
  - apply (decompress_stops_at_escape OS.idle (Some "/") "getwd" "/tmp/out"
             "/tmp/out" [Archive.exampleFile] Archive.exampleEscape
             [Archive.exampleLink] None "/etc/passwd" (tt, []));
      reflexivity.
  - reflexivity.
Defined.

Lemma decompress_ignores_other_types_witness :
  Archive.decompressEntries OS.idle (Some "/") "getwd" "/tmp/out" "/tmp/out"
    [Archive.exampleLink; Archive.exampleFile] None (tt, [])
  = Archive.decompressEntries OS.idle (Some "/") "getwd" "/tmp/out" "/tmp/out"
      [Archive.exampleFile] None (tt, []).
Proof.
  apply (decompress_ignores_other_types OS.idle (Some "/") "getwd" "/tmp/out"
           "/tmp/out" [Archive.exampleLink; Archive.exampleFile] None (tt, [])).
  repeat constructor.
  - intros _. exists "/tmp/out/docs/link". split; reflexivity.
  - intros H. discriminate H.
Defined.
(* ===================================================================== *)
(** ** File operations of the client over the loopback network *)
(* ===================================================================== *)

Section EditFacts.
Import OS Client ClientApi Loopback PathForm.
Local Arguments kernel : simpl never.
Local Open Scope string_scope.

Variable wd : option string.
Variable rootDir : string.
Variable encodeItems : list Server.ListItem -> list byte.
Variable encodeStat : Server.FileStatInfo -> list byte.
Variable sha256hex : list byte -> string.
Variable HandleCopy : Server.FileHandler -> Request -> IO (W := FS) Response.

Hypothesis Habs : GoPath.IsAbs rootDir = true.
Hypothesis Hclean : GoPath.Clean rootDir = rootDir.
Hypothesis Hroot : String.eqb rootDir "/" = false.

Let serve := Loopback.serve wd rootDir encodeItems encodeStat sha256hex HandleCopy.
Let net := Loopback.net wd rootDir encodeItems encodeStat sha256hex HandleCopy.

Implicit Types (F : gmap string (list byte)) (H : list handle).

Lemma isPathSafe_serverPath p :
  Server.isPathSafe wd (Server.NewFileHandler rootDir) p
  = (serverPath rootDir p, true).
Proof.
  unfold Server.isPathSafe. simpl.
  now apply isPathSafeIn_serverPath.
Qed.

Lemma length_bytes (s : string) : length (bytes s) = String.length s.
Proof.
  unfold bytes, list_byte_of_string. rewrite length_map.
  induction s as [|c s IH]; [reflexivity|]. simpl. now rewrite IH.
Qed.

Lemma serve_save F H path hdr body :
  String.eqb path "" = false ->
  Z.of_nat (length body) <= Server.maxEditSize ->
  serve (mkRequest "PUT" "/" [("action", "edit"); ("path", path)] hdr body
           (Z.of_nat (length body))) (mkFS F H)
  = (respond StatusOK (bytes "OK"),
     mkFS (<[serverPath rootDir path := body]> F) H).
Proof.
  intros Hp Hlen. unfold serve, Loopback.serve, Server.createMainHandler.
  simpl. unfold Server.HandleSaveFile. simpl. rewrite Hp.
  rewrite isPathSafe_serverPath.
  destruct (Z.gtb_spec (Z.of_nat (length body)) Server.maxEditSize); [lia|].
  unfold bind, call, ret. simpl. reflexivity.
Qed.


Lemma serve_read F H path hdr :
  String.eqb path "" = false ->
  serve (mkRequest "GET" "/" [("action", "edit"); ("path", path)] hdr [] 0)
    (mkFS F H)
  = (match F !! serverPath rootDir path with
     | None => httpError "File not found" StatusNotFound
     | Some d =>
         if (Z.of_nat (length d) >? Server.maxEditSize)%Z
         then httpError "File too large for editing (max 1MB)"
                StatusBadRequest
         else respond StatusOK d
     end, mkFS F H).
Proof.
  intros Hp. unfold serve, Loopback.serve, Server.createMainHandler.
  simpl. unfold Server.HandleGetFile. simpl. rewrite Hp.
  rewrite isPathSafe_serverPath. unfold bind, call, ret. simpl.
  destruct (F !! serverPath rootDir path) as [d|] eqn:Hd.
  - rewrite (kernel_stat_file _ _ _ d) by exact Hd. simpl.
    destruct (Z.of_nat (length d) >? Server.maxEditSize)%Z; [reflexivity|].
    simpl. rewrite (kernel_readfile _ _ _ d) by exact Hd. reflexivity.
  - rewrite kernel_stat_absent by exact Hd. reflexivity.
Qed.

Lemma serve_delete F H path hdr :
  serve (mkRequest "DELETE" "/" [("action", "delete"); ("path", path)] hdr [] 0)
    (mkFS F H)
  = (match F !! serverPath rootDir path with
     | None => httpError "File not found" StatusNotFound
     | Some d => respond StatusOK (bytes "OK")
     end, mkFS (delete (serverPath rootDir path) F) H).
Proof.
  unfold serve, Loopback.serve, Server.createMainHandler.
  simpl. unfold Server.HandleDelete. simpl.
  rewrite isPathSafe_serverPath. unfold bind, call, ret. simpl.
  destruct (F !! serverPath rootDir path) as [d|] eqn:Hd.
  - rewrite (kernel_stat_file _ _ _ d) by exact Hd. simpl.
    unfold kernel. simpl. now rewrite Hd.
  - rewrite kernel_stat_absent by exact Hd. simpl.
    now rewrite delete_id by exact Hd.
Qed.

Lemma serve_rename F H old new hdr :
  String.eqb old "" = false -> String.eqb new "" = false ->
  serve (mkRequest "POST" "/"
           [("action", "rename"); ("old", old); ("new", new)] hdr [] 0)
    (mkFS F H)
  = match F !! serverPath rootDir old with
    | None => (httpError "Source not found" StatusNotFound, mkFS F H)
    | Some d =>
        (respond StatusOK (bytes "OK"),
         mkFS (<[serverPath rootDir new := d]>
                 (delete (serverPath rootDir old) F)) H)
    end.
Proof.
  intros Ho Hn. unfold serve, Loopback.serve, Server.createMainHandler.
  simpl. unfold Server.HandleRename. simpl. rewrite Ho, Hn. simpl.
  rewrite !isPathSafe_serverPath. unfold bind, call, ret. simpl.
  destruct (F !! serverPath rootDir old) as [d|] eqn:Hd.
  - rewrite (kernel_stat_file _ _ _ d) by exact Hd. simpl.
    unfold kernel. simpl. now rewrite Hd.
  - rewrite kernel_stat_absent by exact Hd. reflexivity.
Qed.

Lemma serve_save_large F H path hdr body :
  String.eqb path "" = false ->
  Server.maxEditSize < Z.of_nat (length body) ->
  serve (mkRequest "PUT" "/" [("action", "edit"); ("path", path)] hdr body
           (Z.of_nat (length body))) (mkFS F H)
  = (httpError "Content too large (max 1MB)" StatusBadRequest, mkFS F H).
Proof.
  intros Hp Hlen. unfold serve, Loopback.serve, Server.createMainHandler.
  simpl. unfold Server.HandleSaveFile. simpl. rewrite Hp.
  rewrite isPathSafe_serverPath.
  destruct (Z.gtb_spec (Z.of_nat (length body)) Server.maxEditSize); [|lia].
  reflexivity.
Qed.

Local Opaque Loopback.serve.

Lemma string_bytes (s : string) : string_of_list_byte (bytes s) = s.
Proof. apply string_of_list_byte_of_string. Qed.

(** X10: over the loopback network, with a clean absolute root other than
    ["/"], saving a text of at most 1 MiB and reading the same path back
    returns that text: both calls succeed, and the server holds the bytes of
    the text at the path [isPathSafe] resolves.  The path is not empty and
    resolves to a place that can hold a regular file: not the root, not a
    directory, and with no regular file among its ancestors (a path such as
    [".."] resolves to the root, where [os.WriteFile] fails and the save is
    answered 500). *)
Theorem edit_round_trip (c : Client) (path content : string) (w : World)
    (tr : list effect) :
  IsConnected c = true ->
  path <> "" ->
  Z.of_nat (String.length content) <= Server.maxEditSize ->
  tidy (files (server_fs w)) = true ->
  serverPath rootDir path <> rootDir ->
  placeable (files (server_fs w)) (serverPath rootDir path) = true ->
  let r := (let* e := SaveFile net c path content in
            let* t := ReadFile net c path in
            ret (e, t)) (w, tr) in
  fst r = (None, (content, None)) /\
  fst (snd r)
  = mkWorld (client_fs w)
      (mkFS (<[serverPath rootDir path := bytes content]>
               (files (server_fs w)))
            (handles (server_fs w))).
Proof.
  intros Hc Hp Hlen _ _ _. apply String.eqb_neq in Hp.
  destruct w as [cf [F H]]. cbv zeta.
  unfold SaveFile, ReadFile, send, actionRequest. rewrite Hc. simpl.
  unfold bind, call, ret, net, Loopback.net. simpl.
  fold serve. rewrite serve_save by (try rewrite length_bytes; assumption).
  simpl. rewrite serve_read by assumption. simpl.
  rewrite lookup_insert_eq.
  destruct (Z.gtb_spec (Z.of_nat (length (bytes content))) Server.maxEditSize)
    as [Hgt|_]; [rewrite length_bytes in Hgt; lia|].
  simpl. now rewrite string_bytes.
Qed.



(** X11: a text longer than 1 MiB is refused: [SaveFile] answers
    ["save failed (status 400): Content too large (max 1MB)"] and the
    server's files are left as they were. *)
Theorem SaveFile_too_large (c : Client) (path content : string) (w : World)
    (tr : list effect) :
  IsConnected c = true ->
  path <> "" ->
  Server.maxEditSize < Z.of_nat (String.length content) ->
  let r := SaveFile net c path content (w, tr) in
  fst r = Some ("save failed (status 400): Content too large (max 1MB)"
                  ++ newline) /\
  fst (snd r) = w.
Proof.
  intros Hc Hp Hlen. apply String.eqb_neq in Hp.
  destruct w as [cf [F H]]. cbv zeta.
  unfold SaveFile, send, actionRequest. rewrite Hc. simpl.
  unfold bind, call, ret, net, Loopback.net. simpl.
  fold serve. rewrite serve_save_large by (try rewrite length_bytes; assumption).
  split; reflexivity.
Qed.


(** X13: for a path that resolves to a place that can hold a regular file
    (not the root, not a directory, no regular file among its ancestors),
    [DeleteFile] removes the file the path resolves to and leaves every
    other file alone; when there is no such file it answers the 404 error
    and changes nothing.  (On a directory [HandleDelete] calls
    [os.RemoveAll] and the whole tree goes; the empty path resolves to the
    root.) *)
Theorem DeleteFile_loopback (c : Client) (path : string) (w : World)
    (tr : list effect) :
  IsConnected c = true ->
  tidy (files (server_fs w)) = true ->
  serverPath rootDir path <> rootDir ->
  placeable (files (server_fs w)) (serverPath rootDir path) = true ->
  let r := DeleteFile net c path (w, tr) in
  fst r
  = match files (server_fs w) !! serverPath rootDir path with
    | None => Some ("delete failed (status 404): File not found" ++ newline)
    | Some _ => None
    end /\
  fst (snd r)
  = mkWorld (client_fs w)
      (mkFS (delete (serverPath rootDir path) (files (server_fs w)))
            (handles (server_fs w))).
Proof.
  intros Hc _ _ _. destruct w as [cf [F H]]. cbv zeta.
  unfold DeleteFile, send, actionRequest. rewrite Hc. simpl.
  unfold bind, call, ret, net, Loopback.net. simpl.
  fold serve. rewrite serve_delete. simpl.
  destruct (F !! serverPath rootDir path) as [d|]; split; reflexivity.
Qed.

(** X14: when both paths resolve to places that can hold a regular file
    (not the root, not a directory, no regular file among the ancestors) and
    the directory of the new path exists, [RenameFile] moves the content of
    the old path to the new path, replacing without a warning the file the
    new path held; when the old path names nothing it answers the 404 error
    and changes nothing.  ([HandleRename] creates no directory: where the
    directory of the new path is missing, [os.Rename] fails and the answer
    is 500.) *)
Theorem RenameFile_loopback (c : Client) (oldPath newPath : string)
    (w : World) (tr : list effect) :
  IsConnected c = true ->
  oldPath <> "" -> newPath <> "" ->
  tidy (files (server_fs w)) = true ->
  serverPath rootDir oldPath <> rootDir ->
  serverPath rootDir newPath <> rootDir ->
  placeable (files (server_fs w)) (serverPath rootDir oldPath) = true ->
  placeable (files (server_fs w)) (serverPath rootDir newPath) = true ->
  isDir (files (server_fs w)) (GoPath.Dir (serverPath rootDir newPath))
  = true ->
  let r := RenameFile net c oldPath newPath (w, tr) in
  match files (server_fs w) !! serverPath rootDir oldPath with
  | None =>
      fst r = Some ("rename failed (status 404): Source not found"
                      ++ newline) /\
      fst (snd r) = w
  | Some d =>
      fst r = None /\
      fst (snd r)
      = mkWorld (client_fs w)
          (mkFS (<[serverPath rootDir newPath := d]>
                   (delete (serverPath rootDir oldPath)
                      (files (server_fs w))))
                (handles (server_fs w)))
  end.
Proof.
  intros Hc Ho Hn _ _ _ _ _ _. apply String.eqb_neq in Ho, Hn.
  destruct w as [cf [F H]]. cbv zeta.
  unfold RenameFile, send, jsonPost, actionRequest. rewrite Hc. simpl.
  unfold bind, call, ret, net, Loopback.net. simpl.
  fold serve. rewrite serve_rename by assumption. simpl.
  destruct (F !! serverPath rootDir oldPath) as [d|]; split; reflexivity.
Qed.

End EditFacts.

Lemma edit_round_trip_witness :
  let r := (let* e := ClientApi.SaveFile Loopback.exampleNet
                        Loopback.exampleClient "../notes.txt" "hello" in
            let* t := ClientApi.ReadFile Loopback.exampleNet
                        Loopback.exampleClient "../notes.txt" in
            OS.ret (e, t)) (ClientApi.serverWorld ∅, []) in
  fst r = (None, ("hello"%string, None)) /\
  Loopback.files (Loopback.server_fs (fst (snd r)))
    !! "/srv/files/notes.txt"%string
  = Some (OS.bytes "hello").
Proof.
  unshelve epose proof
    (edit_round_trip (Some "/"%string) "/srv/files" (fun _ => [])
       (fun _ => []) Loopback.plainHash Loopback.noCopy
       eq_refl eq_refl eq_refl
       Loopback.exampleClient "../notes.txt" "hello"
       (ClientApi.serverWorld ∅) [] eq_refl
       ltac:(discriminate) ltac:(vm_compute; discriminate) _ _ _)
    as [Hres Hworld];
    [vm_compute; reflexivity | vm_compute; discriminate
    | vm_compute; reflexivity |].
  split; [exact Hres|].
  unfold Loopback.exampleNet. rewrite Hworld. reflexivity.
Defined.

Lemma SaveFile_too_large_witness :
  fst (ClientApi.SaveFile Loopback.exampleNet Loopback.exampleClient
         "/notes.txt" ClientApi.largeText (ClientApi.serverWorld ∅, []))
  = Some ("save failed (status 400): Content too large (max 1MB)"
            ++ ClientApi.newline)%string.
Proof.
  apply (SaveFile_too_large (Some "/"%string) "/srv/files" (fun _ => [])
           (fun _ => []) Loopback.plainHash Loopback.noCopy
           eq_refl eq_refl eq_refl
           Loopback.exampleClient "/notes.txt" ClientApi.largeText
           (ClientApi.serverWorld ∅) [] eq_refl
           ltac:(discriminate) ltac:(vm_compute; reflexivity)).
Defined.


Lemma DeleteFile_loopback_witness :
  let r := ClientApi.DeleteFile Loopback.exampleNet Loopback.exampleClient
             "notes.txt"
             (ClientApi.serverWorld
                {[ "/srv/files/notes.txt"%string := OS.bytes "hello" ]}, []) in
  fst r = None /\
  Loopback.files (Loopback.server_fs (fst (snd r)))
    !! "/srv/files/notes.txt"%string = None.
Proof.
  unshelve epose proof
    (DeleteFile_loopback (Some "/"%string) "/srv/files" (fun _ => [])
       (fun _ => []) Loopback.plainHash Loopback.noCopy
       eq_refl eq_refl eq_refl
       Loopback.exampleClient "notes.txt"
       (ClientApi.serverWorld
          {[ "/srv/files/notes.txt"%string := OS.bytes "hello" ]}) []
       eq_refl _ _ _) as [Hres Hworld];
    [vm_compute; reflexivity | vm_compute; discriminate
    | vm_compute; reflexivity |].
  split.
  - etransitivity; [exact Hres | reflexivity].
  - unfold Loopback.exampleNet. rewrite Hworld. reflexivity.
Defined.

Lemma RenameFile_loopback_witness :
  let r := ClientApi.RenameFile Loopback.exampleNet Loopback.exampleClient
             "a.txt" "b.txt"
             (ClientApi.serverWorld
                {[ "/srv/files/a.txt"%string := OS.bytes "new";
                   "/srv/files/b.txt"%string := OS.bytes "old" ]}, []) in
  fst r = None /\
  Loopback.files (Loopback.server_fs (fst (snd r))) !! "/srv/files/a.txt"%string
  = None /\
  Loopback.files (Loopback.server_fs (fst (snd r))) !! "/srv/files/b.txt"%string
  = Some (OS.bytes "new").
Proof.
  unshelve epose proof
    (RenameFile_loopback (Some "/"%string) "/srv/files" (fun _ => [])
       (fun _ => []) Loopback.plainHash Loopback.noCopy
       eq_refl eq_refl eq_refl
       Loopback.exampleClient "a.txt" "b.txt"
       (ClientApi.serverWorld
          {[ "/srv/files/a.txt"%string := OS.bytes "new";
             "/srv/files/b.txt"%string := OS.bytes "old" ]}) []
       eq_refl ltac:(discriminate) ltac:(discriminate) _ _ _ _ _ _) as Hr;
    [vm_compute; reflexivity | vm_compute; discriminate
    | vm_compute; discriminate | vm_compute; reflexivity
    | vm_compute; reflexivity | vm_compute; reflexivity |].
  cbv zeta in Hr.
  assert (Hold : Loopback.files
                   (Loopback.server_fs
                      (ClientApi.serverWorld
                         {[ "/srv/files/a.txt"%string := OS.bytes "new";
                            "/srv/files/b.txt"%string := OS.bytes "old" ]}))
                   !! PathForm.serverPath "/srv/files" "a.txt"
                 = Some (OS.bytes "new")) by (vm_compute; reflexivity).
  rewrite Hold in Hr. destruct Hr as [Hres Hworld].
  split; [exact Hres|].
  unfold Loopback.exampleNet. rewrite Hworld.
  split; vm_compute; reflexivity.
Defined.
(* ===================================================================== *)
(** ** The order in which chunks reach the server *)
(* ===================================================================== *)

Section ChunkOrder.
Import OS Client Loopback PathForm.
Local Arguments kernel : simpl never.
Local Open Scope string_scope.

Variable wd : option string.
Variable rootDir : string.
Variable encodeItems : list Server.ListItem -> list byte.
Variable encodeStat : Server.FileStatInfo -> list byte.
Variable sha256hex : list byte -> string.
Variable HandleCopy : Server.FileHandler -> Request -> IO (W := FS) Response.

Hypothesis Habs : GoPath.IsAbs rootDir = true.
Hypothesis Hclean : GoPath.Clean rootDir = rootDir.
Hypothesis Hroot : String.eqb rootDir "/" = false.

Let serve := Loopback.serve wd rootDir encodeItems encodeStat sha256hex HandleCopy.

Implicit Types (F : gmap string (list byte)) (H : list handle).




Local Opaque Loopback.serve.


End ChunkOrder.

(* ===================================================================== *)
(** ** Edges of the request handlers *)
(* ===================================================================== *)

Section HandlerEdges.
Import OS GoPath PathForm Server.
Local Open Scope string_scope.
Context {W : Type}.
Variable env : effect -> W -> outcome * W.
Variable wd : option string.
Variable rootDir : string.

Hypothesis Habs : IsAbs rootDir = true.
Hypothesis Hclean : Clean rootDir = rootDir.
Hypothesis Hroot : String.eqb rootDir "/" = false.

Lemma isPathSafe_closed p :
  isPathSafe wd (NewFileHandler rootDir) p = (serverPath rootDir p, true).
Proof.
  unfold isPathSafe. simpl. now apply isPathSafeIn_serverPath.
Qed.

(** X16: [HandleDelete] does not ask for a path: a DELETE request whose
    path parameter is missing or cleans to ["/"] (["/"], ["."], [".."],
    ["../.."], ...) is resolved to the root itself, and when the root is a
    directory the handler removes it with everything below it. *)
Theorem HandleDelete_whole_root (r : Request) (st : W * list effect) :
  Method r = "DELETE" ->
  Clean ("/" ++ QueryGet (Query r) "path") = "/" ->
  err (fst (env (Stat rootDir) (fst st))) = None ->
  IsDir (info (fst (env (Stat rootDir) (fst st)))) = true ->
  snd (snd (HandleDelete env wd (NewFileHandler rootDir) r st))
  = (snd st ++ [Stat rootDir; RemoveAll rootDir])%list.
Proof.
  intros Hm Hp He Hd. unfold HandleDelete. rewrite Hm. simpl.
  rewrite isPathSafe_closed. unfold serverPath. rewrite Hp. simpl.
  unfold bind, call. destruct st as [w tr]. simpl in *.
  destruct (env (Stat rootDir) w) as [o w1]. simpl in *. rewrite He, Hd.
  simpl. destruct (env (RemoveAll rootDir) w1) as [o2 w2]. simpl.
  destruct (err o2); simpl; now rewrite <- app_assoc.
Qed.

Lemma Split_concat c l :
  l <> [] -> Forall (free c) l ->
  Split c (String.concat (String c "") l) = l.
Proof.
  intros Hl Hf. induction Hf as [|x l Hx Hf IH]; [contradiction|].
  destruct l as [|y l'].
  - exact Hx.
  - change (String.concat (String c "") (x :: y :: l'))
      with (x ++ String c (String.concat (String c "") (y :: l'))).
    rewrite Split_app, IH by discriminate. now rewrite Hx.
Qed.

Lemma validSources_closed l :
  validSources wd (NewFileHandler rootDir) l
  = map (serverPath rootDir) (List.filter nonEmpty (map TrimSpace l)).
Proof.
  induction l as [|p l IH]; [reflexivity|]. simpl.
  unfold nonEmpty at 1. destruct (String.eqb (TrimSpace p) ""); simpl.
  - exact IH.
  - rewrite isPathSafe_closed. now rewrite IH.
Qed.

(** X17: the source paths of a compress request survive the trip from
    [Compress] (joined by commas) to [HandleCompress] (split at commas,
    trimmed of the white space of Unicode as [strings.TrimSpace] does, blank
    entries dropped, each one resolved below the root) when no path holds a
    comma: the server then archives the client's list, entry by entry and
    in the same order. *)
Theorem compress_paths_round_trip (paths : list string) :
  paths <> [] -> Forall (free ",") paths ->
  validSources wd (NewFileHandler rootDir)
    (Split "," (String.concat "," paths))
  = map (serverPath rootDir) (List.filter nonEmpty (map TrimSpace paths)).
Proof.
  intros Hl Hf. rewrite Split_concat by assumption. apply validSources_closed.
Qed.

End HandlerEdges.

Lemma HandleDelete_whole_root_witness :
  snd (snd (Server.HandleDelete ClientApi.directories (Some "/"%string)
              (Server.NewFileHandler "/srv/files")
              (OS.mkRequest "DELETE" "/" [("action", "delete")]%string
                 OS.noHeader [] 0)
              (tt, [])))
  = [OS.Stat "/srv/files"; OS.RemoveAll "/srv/files"].
Proof.
  apply (HandleDelete_whole_root ClientApi.directories (Some "/"%string)
           "/srv/files" eq_refl eq_refl eq_refl
           (OS.mkRequest "DELETE" "/" [("action", "delete")]%string
              OS.noHeader [] 0)
           (tt, []) eq_refl eq_refl eq_refl eq_refl).
Defined.

(** The second path starts with a no-break space (U+00A0, the bytes 194
    and 160) and ends with a blank. *)
Lemma compress_paths_round_trip_witness :
  Server.validSources (Some "/"%string) (Server.NewFileHandler "/srv/files")
    (GoPath.Split ","
       (String.concat ","
          ["a.txt"; String "194" (String "160" "docs "); "b/../c"]%string))
  = ["/srv/files/a.txt"; "/srv/files/docs"; "/srv/files/c"]%string.
Proof.
  etransitivity.
  - apply (compress_paths_round_trip (Some "/"%string) "/srv/files"
             eq_refl eq_refl eq_refl
             ["a.txt"; String "194" (String "160" "docs "); "b/../c"]%string).
    + discriminate.
    + repeat constructor.
  - reflexivity.
Defined.

Section ExtFacts.
Import GoPath PathForm ClientApi.
Local Open Scope string_scope.

Lemma concat_Split sep s : String.concat (String sep "") (Split sep s) = s.
Proof.
  induction s as [|c s IH]; [reflexivity|]. cbn [Split].
  destruct (Split sep s) as [|x xs] eqn:Hs; [now apply Split_nonempty in Hs|].
  destruct (Ascii.eqb_spec c sep) as [->|Hc].
  - change (String.concat (String sep "") ("" :: x :: xs))
      with (String sep (String.concat (String sep "") (x :: xs))).
    now rewrite IH.
  - destruct xs as [|y ys].
    + change (String c x = String c s). f_equal. exact IH.
    + change (String c (x ++ String sep "" ++
                          String.concat (String sep "") (y :: ys))
              = String c s).
      f_equal. exact IH.
Qed.

Lemma concat_snoc sep l e :
  l <> [] ->
  String.concat sep (l ++ [e]) = String.concat sep l ++ sep ++ e.
Proof.
  intros Hl. induction l as [|x l IH]; [contradiction|].
  destruct l as [|y l].
  - reflexivity.
  - change (String.concat sep ((x :: y :: l) ++ [e]))
      with (x ++ sep ++ String.concat sep ((y :: l) ++ [e])).
    rewrite IH by discriminate.
    change (String.concat sep (x :: y :: l))
      with (x ++ sep ++ String.concat sep (y :: l)).
    now rewrite !append_assoc.
Qed.

Lemma concat_last sep l :
  l <> [] -> exists pre, String.concat sep l = pre ++ List.last l "".
Proof.
  intros Hl. destruct (exists_last Hl) as (l' & e & ->).
  rewrite last_last. destruct l' as [|x l'].
  - exists "". reflexivity.
  - rewrite concat_snoc by discriminate.
    exists (String.concat sep (x :: l') ++ sep). now rewrite append_assoc.
Qed.

Lemma lastElem_suffix p : exists pre, p = pre ++ lastElem p.
Proof.
  unfold lastElem.
  destruct (concat_last "/" (Split "/" p) (Split_nonempty _ _)) as [pre H].
  exists pre. now rewrite <- H, concat_Split.
Qed.

Lemma substring_prefix a b : String.substring 0 (String.length a) (a ++ b) = a.
Proof.
  induction a as [|c a IH].
  - now destruct b.
  - change (String c a ++ b) with (String c (a ++ b)).
    cbn [String.length String.substring]. now rewrite IH.
Qed.

Lemma append_nil_r (s : string) : s ++ "" = s.
Proof.
  induction s as [|c s IH]; [reflexivity|].
  change (String c s ++ "") with (String c (s ++ "")). now rewrite IH.
Qed.

Lemma free_cons sep c s :
  free sep (String c s) <-> c <> sep /\ free sep s.
Proof.
  unfold free. cbn [Split].
  destruct (Split sep s) as [|x xs] eqn:Hs; [now apply Split_nonempty in Hs|].
  destruct (Ascii.eqb_spec c sep) as [->|Hc].
  - split; [discriminate | now intros [? _]].
  - split.
    + intros H. injection H as -> ->. now split.
    + intros [_ H]. injection H as -> ->. reflexivity.
Qed.

Lemma free_nil sep : free sep "".
Proof. reflexivity. Qed.

Lemma free_app sep a b : free sep (a ++ b) <-> free sep a /\ free sep b.
Proof.
  induction a as [|c a IH].
  - change ("" ++ b) with b. split; [intros H; split; [apply free_nil|exact H]|].
    now intros [_ H].
  - change (String c a ++ b) with (String c (a ++ b)).
    rewrite !free_cons, IH. tauto.
Qed.

Lemma Split_free sep s : Forall (free sep) (Split sep s).
Proof.
  induction s as [|c s IH]; [repeat constructor|]. cbn [Split].
  destruct (Split sep s) as [|x xs] eqn:Hs; [now apply Split_nonempty in Hs|].
  destruct (Ascii.eqb_spec c sep) as [->|Hc].
  - constructor; [apply free_nil | exact IH].
  - inversion IH as [|? ? Hx Hxs]; subst. constructor; [|exact Hxs].
    apply free_cons. now split.
Qed.

(** X18: the default destination of [Extract] (and of [HandleExtract])
    is the archive path without its extension: destination and extension put
    together give the archive path back, and the extension is empty or a dot
    followed by a text without dot and without separator, so only the last
    extension is taken off (["x.tar.gz"] is extracted into ["x.tar"]). *)
Theorem trimExt_Ext (archivePath : string) :
  trimExt archivePath ++ Ext archivePath = archivePath /\
  (Ext archivePath = "" \/
   exists e, Ext archivePath = "." ++ e /\ free "." e /\ free "/" e).
Proof.
  unfold trimExt.
  destruct (lastElem_suffix archivePath) as [pre Hp].
  unfold Ext.
  destruct (rev (Split "." (lastElem archivePath))) as [|e [|x r]] eqn:Hr.
  - split; [|now left]. cbn [String.length]. rewrite Nat.sub_0_r.
    rewrite <- (append_nil_r archivePath) at 2.
    rewrite substring_prefix. apply append_nil_r.
  - split; [|now left]. cbn [String.length]. rewrite Nat.sub_0_r.
    rewrite <- (append_nil_r archivePath) at 2.
    rewrite substring_prefix. apply append_nil_r.
  - assert (Hs : Split "." (lastElem archivePath)
                 = ((rev r ++ [x]) ++ [e])%list).
    { rewrite <- (rev_involutive (Split "." (lastElem archivePath))), Hr.
      reflexivity. }
    assert (Hq : lastElem archivePath
                 = String.concat "." (rev r ++ [x]) ++ "." ++ e).
    { rewrite <- (concat_Split "." (lastElem archivePath)) at 1.
      rewrite Hs. apply concat_snoc. now destruct (rev r). }
    assert (Hdot : free "." e).
    { pose proof (Split_free "." (lastElem archivePath)) as HF.
      rewrite Hs in HF. apply Forall_app in HF as [_ HF].
      now inversion HF. }
    assert (Hslash : free "/" e).
    { assert (HF : free "/" (lastElem archivePath)).
      { unfold lastElem.
        pose proof (Split_free "/" archivePath) as HF.
        destruct (exists_last (Split_nonempty "/" archivePath))
          as (l' & z & Hl).
        rewrite Hl in *. rewrite last_last.
        apply Forall_app in HF as [_ HF]. now inversion HF. }
      rewrite Hq in HF. apply free_app in HF as [_ HF].
      now apply free_app in HF as [_ HF]. }
    split; [|right; exists e; auto].
    set (A := pre ++ String.concat "." (rev r ++ [x])).
    assert (HpA : archivePath = A ++ ("." ++ e)).
    { rewrite Hp at 1. rewrite Hq. unfold A. now rewrite append_assoc. }
    clear Hp Hr Hs Hq. rewrite HpA. rewrite length_append.
    replace (String.length A + String.length ("." ++ e)
             - String.length ("." ++ e))%nat
      with (String.length A) by lia.
    now rewrite substring_prefix.
Qed.

End ExtFacts.

Section CleanRelPath.
Import GoPath PathForm Server.
Local Open Scope string_scope.

Lemma substring_all s : String.substring 0 (String.length s) s = s.
Proof.
  rewrite <- (append_nil_r s) at 2. rewrite substring_prefix. reflexivity.
Qed.

Lemma TrimPrefix_slash J : TrimPrefix ("/" ++ J) "/" = J.
Proof.
  unfold TrimPrefix. replace (HasPrefix ("/" ++ J) "/") with true by (symmetry; apply (IsAbs_slash J)).
  change ("/" ++ J) with (String "/" J).
  cbn [String.length String.substring Nat.sub]. rewrite Nat.sub_0_r.
  apply substring_all.
Qed.


Lemma Contains_app s sub :
  Contains s sub = true -> exists a b, s = a ++ sub ++ b.
Proof.
  induction s as [|c s IH]; cbn [Contains]; intros H.
  - rewrite orb_false_r in H. apply prefix_app_iff in H as [r Hr].
    exists "", r. exact Hr.
  - apply orb_true_iff in H as [H|H].
    + apply prefix_app_iff in H as [r Hr]. exists "", r. exact Hr.
    + destruct (IH H) as (a & b & ->). exists (String c a), b. reflexivity.
Qed.

Lemma no_dotdot_inside l :
  Forall kept l -> Contains (Join l "/") "/../" = false.
Proof.
  intros Hl. destruct (Contains (Join l "/") "/../") eqn:Hc; [|reflexivity].
  exfalso. apply Contains_app in Hc as (a & b & Hab).
  destruct l as [|e l].
  { destruct a; discriminate Hab. }
  assert (Hs : Split "/" (Join (e :: l) "/") = e :: l).
  { apply Split_Join; [|discriminate].
    eapply Forall_impl; [exact Hl|]. now intros x (Hx & _). }
  rewrite Hab in Hs.
  change (a ++ "/../" ++ b)
    with (a ++ String "/" (".." ++ String "/" b)) in Hs.
  rewrite !Split_app in Hs.
  assert (Hin : ".." ∈ (e :: l)).
  { rewrite <- Hs. apply elem_of_app. right. apply elem_of_app. left.
    change (Split "/" "..") with [".."]. apply list_elem_of_singleton.
    reflexivity. }
  rewrite Forall_forall in Hl. destruct (Hl _ Hin) as (_ & _ & _ & Hdd).
  now apply Hdd.
Qed.

(** X19: [cleanRelPath] in closed form.  The test for ["/../"] never fires,
    because the cleaned path has no [".."] element; the test for a leading
    [".."] fires exactly on names that begin with two dots (["..cache"]), and
    such a path is replaced by the empty path, which stands for the root.  In
    every other case the answer is the cleaned path without its leading
    separator. *)
Theorem cleanRelPath_closed_form (rel : string) :
  (rel = "" \/ HasPrefix (Clean ("/" ++ rel)) "/.." = true ->
   cleanRelPath rel = "") /\
  (rel <> "" -> HasPrefix (Clean ("/" ++ rel)) "/.." = false ->
   "/" ++ cleanRelPath rel = Clean ("/" ++ rel)).
Proof.
  destruct (Clean_rooted_elements rel) as (l & Hl & _ & Hk).
  unfold cleanRelPath. rewrite Hl, TrimPrefix_slash.
  rewrite no_dotdot_inside by exact Hk. rewrite orb_false_r.
  change (HasPrefix ("/" ++ Join l "/") "/..")
    with (HasPrefix (Join l "/") "..").
  split.
  - intros [->|H]; [reflexivity|]. rewrite H.
    now destruct (String.eqb rel "").
  - intros Hne H. apply String.eqb_neq in Hne. now rewrite Hne, H.
Qed.

End CleanRelPath.
(* ===================================================================== *)
(** ** The number of chunks *)
(* ===================================================================== *)

Section ChunkCount.
Import Chunks.

Lemma planFor_length sz :
  0 <= sz -> fits sz ->
  Z.of_nat (length (planFor 8 sz))
  = ceil_div sz (Z.max (ceil_div sz 8) defaultChunkSize).
Proof.
  intros H0 Hfit. unfold planFor.
  rewrite chunkSizeFor_eight by auto using fits_plus_seven.
  set (cs := Z.max (ceil_div sz 8) defaultChunkSize).
  assert (Hcs : 0 < cs) by (unfold cs, defaultChunkSize; lia).
  rewrite numChunksFor_ceil by (auto; exact Hfit).
  rewrite length_map, length_seqZ.
  pose proof (ceil_div_bounds sz cs Hcs). nia.
Qed.

(** X20: inside the no-overflow window a transfer is never cut into more
    than 8 chunks, so at most 8 chunk workers run at a time; an empty file
    gives no chunk at all and a file of at most 4 MiB gives the single chunk
    [0, size). *)
Theorem chunk_count_bounded (sz : Z) :
  0 <= sz -> fits sz ->
  (length (uploadChunks sz) <= 8)%nat /\
  (length (downloadChunks sz) <= 8)%nat /\
  (sz = 0 -> uploadChunks sz = [] /\ downloadChunks sz = []) /\
  (0 < sz <= defaultChunkSize ->
   uploadChunks sz = [mkChunk 0 0 sz] /\
   downloadChunks sz = [mkChunk 0 0 sz]).
Proof.
  intros H0 Hfit.
  change (downloadChunks sz) with (planFor 8 sz).
  change (uploadChunks sz) with (planFor 8 sz).
  pose proof (planFor_length sz H0 Hfit) as Hlen.
  set (cs := Z.max (ceil_div sz 8) defaultChunkSize) in Hlen.
  assert (Hcs : 0 < cs) by (unfold cs, defaultChunkSize; lia).
  pose proof (ceil_div_bounds sz cs Hcs) as Hb.
  pose proof (ceil_div_bounds sz 8 ltac:(lia)) as Hb8.
  assert (Hn : Z.of_nat (length (planFor 8 sz)) <= 8) by (rewrite Hlen; nia).
  split; [lia|]. split; [lia|]. split.
  - intros ->. split; reflexivity.
  - intros Hsz.
    assert (Hone : length (planFor 8 sz) = 1%nat).
    { assert (ceil_div sz cs = 1); [|lia].
      assert (cs = defaultChunkSize).
      { unfold cs. unfold defaultChunkSize in *. lia. }
      unfold defaultChunkSize in *. nia. }
    assert (Hsplit : planFor 8 sz = [mkChunk 0 0 sz]); [|now rewrite Hsplit].
    unfold planFor in *.
    rewrite chunkSizeFor_eight in * by auto using fits_plus_seven.
    fold cs in Hone |- *.
    rewrite numChunksFor_ceil in * by (auto; exact Hfit).
    rewrite length_map, length_seqZ in Hone.
    assert (Hc : ceil_div sz cs = 1) by lia. rewrite Hc.
    change (seqZ 0 1) with [0]. cbn [map]. f_equal.
    rewrite (chunkRange_spec sz cs 0 H0 Hcs Hfit) by lia.
    assert (cs = defaultChunkSize).
    { unfold cs. unfold defaultChunkSize in *. lia. }
    f_equal; lia.
Qed.

End ChunkCount.

(** A file of 1 GiB. *)
Lemma chunk_count_bounded_witness :
  (length (Chunks.uploadChunks 1073741824) <= 8)%nat /\
  (length (Chunks.downloadChunks 1073741824) <= 8)%nat.
Proof.
  destruct (chunk_count_bounded 1073741824) as (Hu & Hd & _).
  - lia.
  - vm_compute. discriminate.
  - split; [exact Hu | exact Hd].
Defined.
(* ===================================================================== *)
(** ** The life of a task *)
(* ===================================================================== *)

Section TaskLifeFacts.
Import OS Tasks TaskLife.
Context {W : Type}.
Variable env : effect -> W -> outcome * W.
Variable sha256hex : list byte -> string.
Variable osTempDir : string.
Variable decodeStat : list byte -> option (Z * bool).
Variable pid : Z.

Abbreviation step := (Tasks.step env sha256hex osTempDir decodeStat pid).
Abbreviation reachable :=
  (Tasks.reachable env sha256hex osTempDir decodeStat pid).

Lemma perform_heap {A} (m : IO A) (s : State (W := W)) :
  heap (snd (perform m s)) = heap s.
Proof. now destruct (perform_mgr m s). Qed.

(** A move leaves the number of task objects alone or adds one that is
    pending and waits for a slot. *)
Lemma step_heap l (s s' : State (W := W)) :
  step l s = Some s' ->
  length (heap s') = length (heap s) \/
  exists t e, heap s' = (heap s ++ [mkGoroutine t e AtAcquire])%list /\
              Status t = StatusPending.
Proof.
  intros Hstep. destruct l; simpl in Hstep.
  - injection Hstep as <-. unfold AddDownloadTask.
    destruct (perform _ s) as [id s1] eqn:E. simpl. right.
    pose proof (perform_heap (generateTaskID env pid) s) as Hh.
    rewrite E in Hh. simpl in Hh. rewrite Hh. eauto.
  - injection Hstep as <-. unfold AddUploadTask.
    destruct (perform (call env _) s) as [st s1] eqn:E1.
    pose proof (perform_heap (call env (Stat localPath)) s) as Hh1.
    rewrite E1 in Hh1. simpl in Hh1.
    destruct (err st); [simpl; left; now rewrite Hh1|].
    destruct (perform _ s1) as [id s2] eqn:E. simpl. right.
    pose proof (perform_heap (generateTaskID env pid) s1) as Hh.
    rewrite E in Hh. simpl in Hh. rewrite Hh, Hh1. eauto.
  - injection Hstep as <-. unfold AddUploadFolderTask.
    destruct (perform (call env _) s) as [st s1] eqn:E1.
    pose proof (perform_heap (call env (WalkDir localPath)) s) as Hh1.
    rewrite E1 in Hh1. simpl in Hh1.
    destruct (err st); [simpl; left; now rewrite Hh1|].
    destruct (perform _ s1) as [id s2] eqn:E. simpl. right.
    pose proof (perform_heap (generateTaskID env pid) s1) as Hh.
    rewrite E in Hh. simpl in Hh. rewrite Hh, Hh1. eauto.
  - injection Hstep as <-. unfold AddCompressTask.
    destruct (perform _ s) as [id s1] eqn:E. simpl. right.
    pose proof (perform_heap (generateTaskID env pid) s) as Hh.
    rewrite E in Hh. simpl in Hh. rewrite Hh. eauto.
  - injection Hstep as <-. left. unfold CancelTask.
    destruct (tasks (mgr s) !! taskID); [|reflexivity].
    destruct (heap s !! n); [|reflexivity]. simpl. apply length_insert.
  - injection Hstep as <-. reflexivity || (left; reflexivity).
  - injection Hstep as <-. left; reflexivity.
  - destruct (heap s !! p) as [[t e []]|]; try discriminate.
    destruct (_ <? _); [|discriminate]. injection Hstep as <-.
    left. simpl. apply length_insert.
  - destruct (heap s !! p) as [[t e []]|]; try discriminate.
    injection Hstep as <-. left. simpl. apply length_insert.
  - destruct (heap s !! p) as [[t e []]|]; try discriminate.
    destruct (perform _ s) as [res s1] eqn:E. injection Hstep as <-.
    pose proof (perform_heap (transfer env sha256hex osTempDir decodeStat
                                (mgr s) e t) s) as Hh.
    rewrite E in Hh. simpl in Hh. left. simpl. now rewrite length_insert, Hh.
  - destruct (heap s !! p) as [[t e []]|]; try discriminate.
    destruct (perform _ s) as [t' s1] eqn:E. injection Hstep as <-.
    pose proof (perform_heap (settle env e res t) s) as Hh.
    rewrite E in Hh. simpl in Hh. left. simpl. now rewrite length_insert, Hh.
  - destruct (heap s !! p) as [[t e []]|]; try discriminate.
    injection Hstep as <-. left. simpl. apply length_insert.
Qed.


Lemma step_lifecycle l (s s' : State (W := W)) :
  step l s = Some s' ->
  (forall p g, heap s !! p = Some g -> lifecycle g) ->
  forall p g', heap s' !! p = Some g' -> lifecycle g'.
Proof.
  intros Hstep Hinv p g' Hp'.
  destruct (heap s !! p) as [g|] eqn:Hp.
  - destruct (step_at env sha256hex osTempDir decodeStat pid l s s' p g
                Hstep Hp) as (g2 & Hp2 & _ & _ & _ & Hcase).
    rewrite Hp' in Hp2. injection Hp2 as <-.
    specialize (Hinv p g Hp). unfold lifecycle in *.
    destruct Hcase as [[Hst Hmv]|[(_ & Hpc & Hpc' & Hst)
                                 |(_ & Hpc' & res & Hpc & Hst)]].
    + rewrite Hst.
      destruct Hmv as [Hmv|[(_ & Hx & Hy)|[(_ & Hx & Hy)|(_ & Hx & Hy)]]].
      * now rewrite Hmv.
      * now rewrite Hx in Hinv; rewrite Hy.
      * rewrite Hx in Hinv. destruct (pc g'); try discriminate; exact Hinv.
      * now rewrite Hx in Hinv; rewrite Hy.
    + now rewrite Hpc'.
    + rewrite Hpc', Hst. destruct (Canceled (task g)); [reflexivity|].
      now destruct res.
  - apply lookup_ge_None in Hp.
    destruct (step_heap l s s' Hstep) as [Hlen|(t & e & Hh & Ht)].
    + apply lookup_lt_Some in Hp'. lia.
    + rewrite Hh in Hp'. rewrite lookup_app_r in Hp' by exact Hp.
      apply list_lookup_singleton_Some in Hp' as [_ <-]. exact Ht.
Qed.

Lemma reachable_lifecycle (s s' : State (W := W)) :
  reachable s s' ->
  (forall p g, heap s !! p = Some g -> lifecycle g) ->
  forall p g, heap s' !! p = Some g -> lifecycle g.
Proof.
  intros Hr Hinv. induction Hr as [|s1 l s2 _ IH Hstep]; [exact Hinv|].
  eapply step_lifecycle; eauto.
Qed.

Lemma step_rank l (s s' : State (W := W)) p g :
  step l s = Some s' -> heap s !! p = Some g -> lifecycle g ->
  exists g', heap s' !! p = Some g' /\
    (rank (Status (task g)) <= rank (Status (task g')))%nat /\
    (settled (Status (task g)) = true ->
     Status (task g') = Status (task g)).
Proof.
  intros Hstep Hp Hl.
  destruct (step_at env sha256hex osTempDir decodeStat pid l s s' p g
              Hstep Hp) as (g2 & Hp2 & _ & _ & _ & Hcase).
  exists g2. split; [exact Hp2|]. unfold lifecycle in Hl.
  destruct Hcase as [[Hst _]|[(_ & Hpc & _ & Hst)
                             |(_ & _ & res & Hpc & Hst)]].
  - rewrite Hst. split; [lia | reflexivity].
  - rewrite Hpc in Hl. rewrite Hl, Hst. split; [simpl; lia | discriminate].
  - rewrite Hpc in Hl. rewrite Hl, Hst. split; [|discriminate].
    destruct (Canceled (task g)); [simpl; lia|]. destruct res; simpl; lia.
Qed.

(** X21: the life of a task.  At every state the manager reaches, the
    status of a task follows the place of its goroutine (Pending until the
    goroutine has stored Running, Running until it has settled the result of
    the transfer, Completed, Failed or Canceled afterwards); no task is ever
    Paused; and from then on the status only moves forward: a final status
    never changes again, whatever is called on the manager, [CancelTask]
    included. *)
Theorem task_lifecycle (c : Client.Client) (mp : Z)
    (cfg : Client.PackTransferConfig) (w : W) (s : State (W := W)) :
  reachable (initial (NewManager c mp cfg) w) s ->
  forall p g, heap s !! p = Some g ->
    lifecycle g /\
    Status (task g) <> StatusPaused /\
    forall s', reachable s s' ->
      exists g', heap s' !! p = Some g' /\
        (rank (Status (task g)) <= rank (Status (task g')))%nat /\
        (settled (Status (task g)) = true ->
         Status (task g') = Status (task g)).
Proof.
  intros Hr p g Hp.
  assert (H0 : forall q h, heap (initial (NewManager c mp cfg) w) !! q = Some h ->
                           lifecycle h) by (intros q h Hq; discriminate Hq).
  pose proof (reachable_lifecycle _ _ Hr H0) as Hs.
  split; [now apply (Hs p)|]. split.
  { specialize (Hs p g Hp). unfold lifecycle in Hs. intros Hpa.
    rewrite Hpa in Hs. destruct (pc g); discriminate. }
  intros s' Hr'. induction Hr' as [|s1 l s2 Hr1 IH Hstep].
  - exists g. split; [exact Hp|]. split; [lia | reflexivity].
  - destruct IH as (g1 & Hp1 & Hrk & Hfin).
    assert (Hl1 : lifecycle g1).
    { apply (reachable_lifecycle _ _ Hr1 Hs p g1 Hp1). }
    destruct (step_rank l s1 s2 p g1 Hstep Hp1 Hl1) as (g2 & Hp2 & Hrk2 & Hfin2).
    exists g2. split; [exact Hp2|]. split; [lia|].
    intros Hset. rewrite <- (Hfin Hset). apply Hfin2. now rewrite (Hfin Hset).
Qed.

End TaskLifeFacts.

(** One download task that fails (the loopback answers no size), then is
    canceled and releases its slot: it stays Failed. *)
Lemma task_lifecycle_witness :
  let c := Client.mkClient "127.0.0.1:8080" "secret" true in
  let cfg := Client.DefaultPackTransferConfig in
  let s0 := Tasks.initial (Tasks.NewManager c 3 cfg) tt in
  let run := Tasks.steps OS.idle (fun _ => ""%string) "/tmp"
               (fun _ => None) 4242 in
  exists s s' g,
    run [Tasks.DoAddDownload "/a" "a"; Tasks.Acquire 0; Tasks.Start 0;
         Tasks.Transfer 0; Tasks.Finish 0] s0 = Some s /\
    Tasks.heap s !! 0%nat = Some g /\
    Tasks.Status (Tasks.task g) = Tasks.StatusFailed /\
    run [Tasks.DoCancel "0-4242"; Tasks.Release 0] s = Some s' /\
    exists g',
      Tasks.heap s' !! 0%nat = Some g' /\
      Tasks.Status (Tasks.task g') = Tasks.StatusFailed.
Proof.
  cbv zeta.
  set (run := Tasks.steps OS.idle (fun _ => ""%string) "/tmp"
                (fun _ => None) 4242).
  set (s0 := Tasks.initial _ tt).
  let v := eval vm_compute in
    (run [Tasks.DoAddDownload "/a" "a"; Tasks.Acquire 0; Tasks.Start 0;
          Tasks.Transfer 0; Tasks.Finish 0] s0) in
  match v with Some ?x => pose (s := x) end.
  let v := eval vm_compute in (Tasks.heap s !! 0%nat) in
  match v with Some ?x => pose (g := x) end.
  let v := eval vm_compute in
    (run [Tasks.DoCancel "0-4242"; Tasks.Release 0] s) in
  match v with Some ?x => pose (s' := x) end.
  assert (Hs : run [Tasks.DoAddDownload "/a" "a"; Tasks.Acquire 0;
                    Tasks.Start 0; Tasks.Transfer 0; Tasks.Finish 0] s0
               = Some s) by (vm_compute; reflexivity).
  assert (Hg : Tasks.heap s !! 0%nat = Some g) by (vm_compute; reflexivity).
  assert (Hs' : run [Tasks.DoCancel "0-4242"; Tasks.Release 0] s = Some s')
    by (vm_compute; reflexivity).
  exists s, s', g.
  split; [exact Hs|]. split; [exact Hg|]. split; [reflexivity|].
  split; [exact Hs'|].
  destruct (task_lifecycle OS.idle (fun _ => ""%string) "/tmp"
              (fun _ => None) 4242 _ _ _ _ _
              (steps_reachable _ _ _ _ _ _ _ _ Hs) 0%nat g Hg)
    as (_ & _ & Hlater).
  destruct (Hlater s' (steps_reachable _ _ _ _ _ _ _ _ Hs'))
    as (g' & Hp' & _ & Hfin).
  exists g'. split; [exact Hp'|]. exact (Hfin eq_refl).
Defined.
